(** * simplifier-ig: a model of the IG generation pipeline

    A shallow embedding of [simplifier_ig/generator.py],
    [simplifier_ig/ig_resource.py], [simplifier_ig/validator.py] and
    [simplifier_ig/utils.py].

    Conventions of the model
    - A Python [str] is a Rocq [string]: the text whose code points are all
      below 256.  The space and case tables are Python's for these code
      points (U+0085 and U+00A0 are spaces, U+00C0 to U+00DE are letters in
      upper case, and so on).  Text with a code point from 256 up is
      outside the model.  Strings compare by code point, as Python's [<]
      does, and paths compare as on POSIX.
    - A value read from JSON or YAML is a [pyval]; a mapping keeps its items
      in insertion order and its keys are strings.  Numbers are integers.
    - [str(v)] of a value that is not already a string, the JSON and YAML
      readers and the YAML writer are library code: they are parameters of
      the sections that call them.
    - A file holds its text.  A file that cannot be decoded as UTF-8 is
      outside the model, except where a reader that may fail is a
      parameter.
    - A Python exception is the [None] of an [option] result. *)

From Stdlib Require Import String Ascii List Bool Arith PeanoNat ZArith Lia.
From Stdlib Require Import Sorting.Sorted Sorting.Permutation.
From Stdlib Require Import Structures.OrdersEx Classes.RelationClasses.
Import ListNotations.
#[local] Set Warnings "-register-all".
Local Open Scope string_scope.
Local Open Scope list_scope.

(* ================================================================== *)
(** ** Python strings *)
(* ================================================================== *)

Module PyStr.

Definition code (c : ascii) : nat := nat_of_ascii c.

Definition in_range (lo hi : nat) (c : ascii) : bool :=
  (lo <=? code c)%nat && (code c <=? hi)%nat.

(** [c.isupper()]: A to Z, and U+00C0 to U+00DE without the sign U+00D7. *)
Definition isupper (c : ascii) : bool :=
  in_range 65 90 c || in_range 192 214 c || in_range 216 222 c.

(** The letters in lower case whose upper case is 32 below them: a to z,
    and U+00E0 to U+00FE without the sign U+00F7. *)
Definition has_upper (c : ascii) : bool :=
  in_range 97 122 c || in_range 224 246 c || in_range 248 254 c.

(** [c.islower()]: these, the ordinal indicators U+00AA and U+00BA, the
    micro sign U+00B5, the sharp s U+00DF and U+00FF. *)
Definition islower (c : ascii) : bool :=
  has_upper c || in_range 170 170 c || in_range 181 181 c
  || in_range 186 186 c || in_range 223 223 c || in_range 255 255 c.

(** A character that has a case. *)
Definition iscased (c : ascii) : bool := isupper c || islower c.

(** [str.isspace]: TAB, LF, VT, FF, CR, the separators FS GS RS US, the
    blank, NEL (U+0085) and the no-break space (U+00A0).  The class [\s]
    of a regular expression on a [str] is the same. *)
Definition isspace (c : ascii) : bool :=
  in_range 9 13 c || in_range 28 32 c || in_range 133 133 c
  || in_range 160 160 c.

Definition tolower (c : ascii) : ascii :=
  if isupper c then ascii_of_nat (code c + 32) else c.
Definition toupper (c : ascii) : ascii :=
  if has_upper c then ascii_of_nat (code c - 32) else c.

(** The title case of a character: its upper case, and [Ss] for the sharp
    s.  (The title case of U+00B5 and of U+00FF is U+039C and U+0178, which
    a string of the model cannot hold: the two are left as they are, and
    the model says nothing of a word that begins with one of them.) *)
Definition totitle (c : ascii) : string :=
  if in_range 223 223 c then "Ss" else String (toupper c) EmptyString.

Fixpoint map_chars (f : ascii -> ascii) (s : string) : string :=
  match s with
  | EmptyString => EmptyString
  | String c r => String (f c) (map_chars f r)
  end.

(** [s.lower()] *)
Definition lower (s : string) : string := map_chars tolower s.

Fixpoint lstrip_by (p : ascii -> bool) (s : string) : string :=
  match s with
  | EmptyString => EmptyString
  | String c r => if p c then lstrip_by p r else s
  end.

Fixpoint rstrip_by (p : ascii -> bool) (s : string) : string :=
  match s with
  | EmptyString => EmptyString
  | String c r =>
      match rstrip_by p r with
      | EmptyString => if p c then EmptyString else String c EmptyString
      | r' => String c r'
      end
  end.

(** [s.strip()] *)
Definition strip (s : string) : string := rstrip_by isspace (lstrip_by isspace s).

(** [s.rstrip(c)] for a one-character argument *)
Definition rstrip_char (c : ascii) (s : string) : string :=
  rstrip_by (Ascii.eqb c) s.

(** [s.startswith(p)] *)
Fixpoint startswith (p s : string) : bool :=
  match p with
  | EmptyString => true
  | String a p' =>
      match s with
      | EmptyString => false
      | String b s' => Ascii.eqb a b && startswith p' s'
      end
  end.

(** [s.endswith(suf)]: some tail of [s] is [suf]. *)
Fixpoint endswith (suf s : string) : bool :=
  (s =? suf) ||
  match s with
  | EmptyString => false
  | String _ r => endswith suf r
  end.

(** [s.replace(old, new)] for a non-empty [old]: the occurrences are found
    left to right and do not overlap.  [skip] counts the characters of the
    occurrence just replaced that are still to be passed over. *)
Fixpoint replace_go (old new : string) (skip : nat) (s : string) : string :=
  match s with
  | EmptyString => EmptyString
  | String c r =>
      match skip with
      | S k => replace_go old new k r
      | O =>
          if startswith old s
          then new ++ replace_go old new (String.length old - 1) r
          else String c (replace_go old new 0 r)
      end
  end.

Definition replace (old new s : string) : string := replace_go old new 0 s.

(** [s.title()]: a character that follows an uncased one is put in title
    case, one that follows a cased character in lower case. *)
Fixpoint title_go (previous_is_cased : bool) (s : string) : string :=
  match s with
  | EmptyString => EmptyString
  | String c r =>
      (if previous_is_cased then String (tolower c) EmptyString else totitle c)
      ++ title_go (iscased c) r
  end.

Definition title (s : string) : string := title_go false s.

(** [s.rfind(c)] *)
Fixpoint rfind (c : ascii) (s : string) : option nat :=
  match s with
  | EmptyString => None
  | String x r =>
      match rfind c r with
      | Some i => Some (S i)
      | None => if Ascii.eqb x c then Some 0 else None
      end
  end.

(** [sep.join(parts)] *)
Definition join (sep : string) (parts : list string) : string :=
  String.concat sep parts.

(** Code-point order. *)
Definition lt (a b : string) : Prop := String_as_OT.lt a b.

End PyStr.

(* ================================================================== *)
(** ** pathlib: the last component of a path *)
(* ================================================================== *)

Module PurePath.

(** [PurePath.suffix]: the name from its last dot on, when that dot is
    neither the first nor the last character. *)
Definition suffix (name : string) : string :=
  match PyStr.rfind "." name with
  | Some i =>
      if (0 <? i)%nat && (i <? String.length name - 1)%nat
      then String.substring i (String.length name - i) name
      else ""
  | None => ""
  end.

(** [PurePath.stem]: the name without its suffix. *)
Definition stem (name : string) : string :=
  match PyStr.rfind "." name with
  | Some i =>
      if (0 <? i)%nat && (i <? String.length name - 1)%nat
      then String.substring 0 i name
      else name
  | None => name
  end.

End PurePath.

(* ================================================================== *)
(** ** Values read from JSON and YAML *)
(* ================================================================== *)

Inductive pyval : Type :=
| PNone
| PBool (b : bool)
| PNum (z : Z)
| PStr (s : string)
| PList (l : list pyval)
| PDict (items : list (string * pyval)).

(** Python's truth value, the test behind [if v] and [not v]. *)
Definition truthy (v : pyval) : bool :=
  match v with
  | PNone => false
  | PBool b => b
  | PNum z => negb (z =? 0)%Z
  | PStr s => negb (s =? "")
  | PList l => match l with [] => false | _ => true end
  | PDict d => match d with [] => false | _ => true end
  end.

Fixpoint assoc {A : Type} (k : string) (l : list (string * A)) : option A :=
  match l with
  | [] => None
  | (k', v) :: l' => if k' =? k then Some v else assoc k l'
  end.

(** [d.get(k)] on a mapping: [None] for an absent key. *)
Definition dict_get (d : list (string * pyval)) (k : string) : pyval :=
  match assoc k d with Some v => v | None => PNone end.

(** [d.get(k, default)] *)
Definition dict_get_default (d : list (string * pyval)) (k : string)
    (default : pyval) : pyval :=
  match assoc k d with Some v => v | None => default end.

(** [v.get(k)]: an [AttributeError] when [v] is not a mapping. *)
Definition py_get (v : pyval) (k : string) : option pyval :=
  match v with
  | PDict d => Some (dict_get d k)
  | _ => None
  end.

(* ================================================================== *)
(** ** The regular expression of the placeholder *)
(* ================================================================== *)

Module Re.

(** The pieces the pattern [\{\{ig-var:\s*([^}]+)\s*\}\}] is made of: a
    literal character, a greedy [*] or [+] over a character class, and the
    two ends of the capturing group. *)
Inductive atom : Type :=
| Lit (c : ascii)
| Star (cls : ascii -> bool)
| Plus (cls : ascii -> bool)
| GroupOpen
| GroupClose.

(** What a match leaves: the text from the start of group 1, the text from
    its end, and the text after the whole match. *)
Record marks : Type := Marks {
  at_open : string;
  at_close : string;
  after : string
}.

Definition set_open (s : string) (m : marks) : marks :=
  Marks s (at_close m) (after m).
Definition set_close (s : string) (m : marks) : marks :=
  Marks (at_open m) s (after m).

(** A greedy repetition takes a character whenever it can and gives it back
    only when the rest of the pattern, [k], fails behind it. *)
Fixpoint greedy (cls : ascii -> bool) (k : string -> option marks)
    (s : string) : option marks :=
  match s with
  | EmptyString => k EmptyString
  | String c r =>
      if cls c then
        match greedy cls k r with
        | Some m => Some m
        | None => k s
        end
      else k s
  end.

(** The backtracking matcher, anchored at the start of [s]. *)
Fixpoint match_at (pat : list atom) : string -> option marks :=
  match pat with
  | [] => fun s => Some (Marks s s s)
  | Lit c :: p =>
      fun s =>
        match s with
        | String x r => if Ascii.eqb x c then match_at p r else None
        | EmptyString => None
        end
  | Star cls :: p => greedy cls (match_at p)
  | Plus cls :: p =>
      fun s =>
        match s with
        | String x r => if cls x then greedy cls (match_at p) r else None
        | EmptyString => None
        end
  | GroupOpen :: p => fun s => option_map (set_open s) (match_at p s)
  | GroupClose :: p => fun s => option_map (set_close s) (match_at p s)
  end.

(** The text between two positions of [s], each given by what follows it. *)
Definition upto (s rest : string) : string :=
  String.substring 0 (String.length s - String.length rest) s.

(** [m.group(0)] and [m.group(1)] of a match found at the start of [s]. *)
Definition group0 (s : string) (m : marks) : string := upto s (after m).
Definition group1 (m : marks) : string := upto (at_open m) (at_close m).

Fixpoint lits (s : string) : list atom :=
  match s with
  | EmptyString => []
  | String c r => Lit c :: lits r
  end.

(** [re.sub(pat, repl, s)] with a function [repl], which receives group 1
    and group 0 of each match, for a pattern that matches no empty text.
    The matches are the leftmost ones and do not overlap; a replacement
    that is not a string makes [re.sub] raise.
    [skip] counts the characters of the last match still to be passed. *)
Fixpoint sub_go (pat : list atom) (repl : string -> string -> option string)
    (skip : nat) (s : string) : option string :=
  match s with
  | EmptyString => Some EmptyString
  | String c r =>
      match skip with
      | S k => sub_go pat repl k r
      | O =>
          match match_at pat s with
          | Some m =>
              match repl (group1 m) (group0 s m) with
              | Some out =>
                  option_map (String.append out)
                    (sub_go pat repl (String.length (group0 s m) - 1) r)
              | None => None
              end
          | None => option_map (String c) (sub_go pat repl 0 r)
          end
      end
  end.

Definition sub (pat : list atom) (repl : string -> string -> option string)
    (s : string) : option string :=
  sub_go pat repl 0 s.

End Re.

(** Every character of [s] satisfies [p]. *)
Fixpoint all_chars (p : ascii -> bool) (s : string) : bool :=
  match s with
  | EmptyString => true
  | String c r => p c && all_chars p r
  end.

(* ================================================================== *)
(** ** generator.py: template placeholders *)
(* ================================================================== *)

Module Template.

(** [[^}]] *)
Definition not_rbrace (c : ascii) : bool := negb (Ascii.eqb c "}").

(** [pattern = r"\{\{ig-var:\s*([^}]+)\s*\}\}"] *)
Definition pattern : list Re.atom :=
  Re.lits "{{ig-var:" ++
  [Re.Star PyStr.isspace; Re.GroupOpen; Re.Plus not_rbrace; Re.GroupClose;
   Re.Star PyStr.isspace] ++
  Re.lits "}}".

(** What [re.sub] makes of the value its replacement function returns: a
    string is inserted, [None] inserts nothing, any other value is a
    [TypeError] when the pieces are joined. *)
Definition sub_item (v : pyval) : option string :=
  match v with
  | PStr s => Some s
  | PNone => Some ""
  | _ => None
  end.

(** [_replace(m)]: [variables.get(m.group(1).strip(), m.group(0))] *)
Definition _replace (variables : list (string * pyval))
    (group1 group0 : string) : option string :=
  let var_name := PyStr.strip group1 in
  sub_item (dict_get_default variables var_name (PStr group0)).

(** [IGGenerator._resolve_template_variables] *)
Definition _resolve_template_variables (template : string)
    (variables : list (string * pyval)) : option string :=
  Re.sub pattern (_replace variables) template.

End Template.

(** [p in s] for a non-empty [p]: [p] occurs somewhere in [s]. *)
Fixpoint occurs (p s : string) : bool :=
  PyStr.startswith p s ||
  match s with
  | EmptyString => false
  | String _ r => occurs p r
  end.

(* ================================================================== *)
(** ** Library code the program calls *)
(* ================================================================== *)

(** A table-of-contents entry, the mapping [{"name": .., "filename": ..}]. *)
Record toc_entry : Type := TocEntry {
  toc_name : string;
  toc_filename : string
}.

(** The library functions the model does not compute: [str()] of a value
    that is not a string, [json.load], [yaml.safe_load] (each [None] or
    [inl message] when it raises) and [yaml.dump] of a list of entries. *)
Class PyRuntime : Type := {
  py_repr : pyval -> string;
  json_load : string -> option pyval;
  yaml_load : string -> string + pyval;
  yaml_dump : list toc_entry -> string
}.

(** [str(v)] *)
Definition str `{PyRuntime} (v : pyval) : string :=
  match v with
  | PStr s => s
  | _ => py_repr v
  end.

(** [type(v).__name__] *)
Definition type_name (v : pyval) : string :=
  match v with
  | PNone => "NoneType"
  | PBool _ => "bool"
  | PNum _ => "int"
  | PStr _ => "str"
  | PList _ => "list"
  | PDict _ => "dict"
  end.

(** [d[k] = v]: a key already present keeps its place. *)
Fixpoint dict_set {A : Type} (k : string) (v : A) (d : list (string * A))
    : list (string * A) :=
  match d with
  | [] => [(k, v)]
  | (k', v') :: d' =>
      if k' =? k then (k, v) :: d' else (k', v') :: dict_set k v d'
  end.

Definition mem (x : string) (l : list string) : bool :=
  existsb (String.eqb x) l.

Definition is_nil {A : Type} (l : list A) : bool :=
  match l with [] => true | _ => false end.

(* ================================================================== *)
(** ** Sorting *)
(* ================================================================== *)

Module Sort.

Section By.
Context {A : Type} (leb : A -> A -> bool).

Fixpoint insert (x : A) (l : list A) : list A :=
  match l with
  | [] => [x]
  | y :: l' => if leb x y then x :: l else y :: insert x l'
  end.

(** [sorted(l)]: a stable sort, as Python's is. *)
Definition sort (l : list A) : list A := fold_right insert [] l.

End By.

(** [a <= b] on strings. *)
Definition str_leb (a b : string) : bool :=
  match String_as_OT.compare a b with
  | Gt => false
  | _ => true
  end.

(** [a <= b] on tuples [(int, str)]. *)
Definition key_leb (a b : nat * string) : bool :=
  (fst a <? fst b)%nat || ((fst a =? fst b)%nat && str_leb (snd a) (snd b)).

(** [a <= b] on the parts of two paths. *)
Fixpoint parts_leb (a b : list string) : bool :=
  match a, b with
  | [], _ => true
  | _ :: _, [] => false
  | x :: a', y :: b' =>
      match String_as_OT.compare x y with
      | Lt => true
      | Gt => false
      | Eq => parts_leb a' b'
      end
  end.

End Sort.

(* ================================================================== *)
(** ** The file system *)
(* ================================================================== *)

Module FS.

(** A file with its text, or a directory with its entries in the order the
    operating system lists them.  The names of one directory are distinct. *)
Inductive node : Type :=
| File (data : string)
| Dir (entries : list (string * node)).

Definition path : Type := list string.

(** The components of a string joined to a path: it is split at [/], and
    empty and [.] components vanish, as in [pathlib].  A component [..]
    and a leading [/] lead out of the tree the model holds: such a path
    names nothing in it, and nothing can be created under it. *)
Fixpoint split_slash (cur : string) (s : string) : list string :=
  match s with
  | EmptyString => [cur]
  | String c r =>
      if Ascii.eqb c "/" then cur :: split_slash "" r
      else split_slash (cur ++ String c "") r
  end.

Definition parts (s : string) : path :=
  (if PyStr.startswith "/" s then [".."] else [])
  ++ filter (fun c => negb ((c =? "") || (c =? "."))) (split_slash "" s).

(** [base / s] *)
Definition join (base : path) (s : string) : path := base ++ parts s.

Definition inside (p : path) : bool := negb (mem ".." p).

Fixpoint lookup (p : path) (n : node) : option node :=
  match p with
  | [] => Some n
  | name :: p' =>
      match n with
      | Dir es =>
          match assoc name es with
          | Some c => lookup p' c
          | None => None
          end
      | File _ => None
      end
  end.

Definition is_file (p : path) (n : node) : bool :=
  match lookup p n with Some (File _) => inside p | _ => false end.

Definition is_dir (p : path) (n : node) : bool :=
  match lookup p n with Some (Dir _) => inside p | _ => false end.

Definition exists_ (p : path) (n : node) : bool :=
  match lookup p n with Some _ => inside p | None => false end.

(** [p.iterdir()] *)
Definition iterdir (p : path) (n : node) : list (string * node) :=
  match lookup p n with
  | Some (Dir es) => es
  | _ => []
  end.

(** [p.write_text(data)], and any other way of creating or replacing the
    file [p]: its parent has to be a directory and [p] must not be one. *)
Fixpoint write_text (p : path) (data : string) (n : node) : option node :=
  match n with
  | File _ => None
  | Dir es =>
      match p with
      | [] => None
      | [name] =>
          match assoc name es with
          | Some (Dir _) => None
          | _ =>
              if name =? ".." then None
              else Some (Dir (dict_set name (File data) es))
          end
      | name :: p' =>
          match assoc name es with
          | Some c =>
              option_map (fun c' => Dir (dict_set name c' es))
                (write_text p' data c)
          | None => None
          end
      end
  end.

(** [p.mkdir(parents=True, exist_ok=True)] *)
Fixpoint makedirs (p : path) (n : node) : option node :=
  match n with
  | File _ => None
  | Dir es =>
      match p with
      | [] => Some n
      | name :: p' =>
          if name =? ".." then None
          else
            let c := match assoc name es with Some c => c | None => Dir [] end in
            option_map (fun c' => Dir (dict_set name c' es)) (makedirs p' c)
      end
  end.

(** [p.mkdir(exist_ok=True)]: the parent has to be there. *)
Fixpoint mkdir (p : path) (n : node) : option node :=
  match n with
  | File _ => None
  | Dir es =>
      match p with
      | [] => Some n
      | [name] =>
          match assoc name es with
          | Some (Dir _) => Some n
          | Some (File _) => None
          | None =>
              if name =? ".." then None
              else Some (Dir (dict_set name (Dir []) es))
          end
      | name :: p' =>
          match assoc name es with
          | Some c =>
              option_map (fun c' => Dir (dict_set name c' es)) (mkdir p' c)
          | None => None
          end
      end
  end.

(** [shutil.copytree(src, p)] of a tree already read: [p] must not exist. *)
Fixpoint copytree (tree : node) (p : path) (n : node) : option node :=
  match n with
  | File _ => None
  | Dir es =>
      match p with
      | [] => None
      | [name] =>
          match assoc name es with
          | Some _ => None
          | None =>
              if name =? ".." then None
              else Some (Dir (dict_set name tree es))
          end
      | name :: p' =>
          match assoc name es with
          | Some c =>
              option_map (fun c' => Dir (dict_set name c' es))
                (copytree tree p' c)
          | None => None
          end
      end
  end.

(** [shutil.copy2(src, p)] of a file named [src_name] with text [data]:
    into the directory [p] when [p] is one. *)
Definition copy2 (src_name data : string) (p : path) (n : node) : option node :=
  if is_dir p n then write_text (p ++ [src_name]) data n
  else write_text p data n.

(** [p.rglob("*")]: everything below a directory, each with its path
    relative to it: the entries of the directory, then what is below each
    of them. *)
Fixpoint walk (n : node) : list (path * node) :=
  match n with
  | File _ => []
  | Dir es =>
      map (fun e : string * node => ([fst e], snd e)) es
      ++ flat_map
           (fun e : string * node =>
              map (fun d : path * node => (fst e :: fst d, snd d)) (walk (snd e)))
           es
  end.

Definition rglob (p : path) (n : node) : list (path * node) :=
  match lookup p n with
  | Some d => if inside p then walk d else []
  | None => []
  end.

(** [p.glob("*" + suffix)] on the entries of a directory. *)
Definition glob_suffix (suffix : string) (es : list (string * node))
    : list (string * node) :=
  filter (fun e => PyStr.endswith suffix (fst e)) es.

Definition by_name (a b : string * node) : bool :=
  Sort.str_leb (fst a) (fst b).

(** [shutil.rmtree(p)]: [p] has to be a directory.  (The root of the tree
    comes back empty: it is created again at once.) *)
Fixpoint rmtree (p : path) (n : node) : option node :=
  match n with
  | File _ => None
  | Dir es =>
      match p with
      | [] => Some (Dir [])
      | [name] =>
          match assoc name es with
          | Some (Dir _) =>
              Some (Dir (filter (fun e => negb (fst e =? name)) es))
          | _ => None
          end
      | name :: p' =>
          match assoc name es with
          | Some c =>
              option_map (fun c' => Dir (dict_set name c' es)) (rmtree p' c)
          | None => None
          end
      end
  end.

(** The tree [n] with [new] in the place of what is at [p]. *)
Fixpoint graft (p : path) (new : node) (n : node) : node :=
  match p with
  | [] => new
  | name :: p' =>
      match n with
      | Dir es =>
          match assoc name es with
          | Some c => Dir (dict_set name (graft p' new c) es)
          | None => n
          end
      | File _ => n
      end
  end.

(** The text of an entry as [open] reads it: none for a directory. *)
Definition read (n : node) : option string :=
  match n with
  | File data => Some data
  | Dir _ => None
  end.

End FS.

(* ================================================================== *)
(** ** Steps that change the output tree *)
(* ================================================================== *)

(** A step reads and changes the tree under the guide's output directory
    and either returns a value or raises; the tree it leaves is kept in
    both cases. *)
Module Run.

Definition M (A : Type) : Type := FS.node -> option A * FS.node.

Definition ret {A : Type} (a : A) : M A := fun g => (Some a, g).

Definition raise {A : Type} : M A := fun g => (None, g).

Definition bind {A B : Type} (m : M A) (k : A -> M B) : M B :=
  fun g =>
    match m g with
    | (Some a, g') => k a g'
    | (None, g') => (None, g')
    end.

(** A look at the tree. *)
Definition gets {A : Type} (f : FS.node -> A) : M A := fun g => (Some (f g), g).

(** A file system call: it changes the tree or raises and leaves it. *)
Definition effect (f : FS.node -> option FS.node) : M unit :=
  fun g =>
    match f g with
    | Some g' => (Some tt, g')
    | None => (None, g)
    end.

Definition of_option {A : Type} (o : option A) : M A :=
  match o with
  | Some a => ret a
  | None => raise
  end.

(** [for x in l: acc = body(acc, x)] *)
Fixpoint fold {A B : Type} (body : B -> A -> M B) (l : list A) (acc : B) : M B :=
  match l with
  | [] => ret acc
  | x :: l' => bind (body acc x) (fold body l')
  end.

(** [for x in l: body(x)] *)
Definition for_each {A : Type} (body : A -> M unit) (l : list A) : M unit :=
  fold (fun _ x => body x) l tt.

End Run.

Declare Scope run_scope.
Delimit Scope run_scope with run.
Notation "x <- m ;; k" := (Run.bind m (fun x => k))
  (at level 61, m at next level, right associativity) : run_scope.
Notation "m ;; k" := (Run.bind m (fun _ => k))
  (at level 61, right associativity) : run_scope.

(** The line feed. *)
Definition nl : string := String (ascii_of_nat 10) "".

(* ================================================================== *)
(** ** utils.py *)
(* ================================================================== *)

Module Utils.

(** [format_title(name)] *)
Definition format_title (name : string) : string :=
  if name =? "" then name
  else if PyStr.lower name =? "index" then "Index"
  else PyStr.title (PyStr.replace "_" " " (PyStr.replace "-" " " name)).

End Utils.

(* ================================================================== *)
(** ** ig_resource.py: configuration, names and the resource document *)
(* ================================================================== *)

Module IGResourceGenerator.

Section WithRuntime.
Context `{PyRuntime}.

Definition required_fields : list string :=
  ["id"; "status"; "fhirVersion"; "canonical"].

Definition valid_statuses : list string :=
  ["draft"; "active"; "retired"; "unknown"].

(** [not val or not str(val).strip()] *)
Definition blank (val : pyval) : bool :=
  negb (truthy val) || (PyStr.strip (str val) =? "").

Definition missing_field_message (field : string) : string :=
  ("guide.yaml is missing required field for IG resource generation: '"
   ++ field ++ "'")%string.

Definition invalid_status_message (sv : string) : string :=
  ("Invalid status value '" ++ sv
   ++ "'. Must be one of: draft, active, retired, unknown")%string.

(** The message of the [AttributeError] that [config.get] raises on a
    value that is not a mapping. *)
Definition no_get_message (v : pyval) : string :=
  ("'" ++ type_name v ++ "' object has no attribute 'get'")%string.

(** The body of the [try] once [guide.yaml] is loaded as a mapping: the
    loop over the required fields, then the check of the status. *)
Definition preflight_errors (config : list (string * pyval)) : list string :=
  let errors :=
    flat_map
      (fun field =>
         if blank (dict_get config field)
         then [missing_field_message field] else [])
      required_fields in
  let status_val := dict_get config "status" in
  if truthy status_val then
    let sv := PyStr.lower (PyStr.strip (str status_val)) in
    if mem sv valid_statuses then errors
    else errors ++ [invalid_status_message sv]
  else errors.

(** [IGResourceGenerator.validate_guide_yaml_for_ig_resource]; [guide] is
    the text of [guide.yaml], [None] when there is no such file. *)
Definition validate_guide_yaml_for_ig_resource (guide : option string)
    : bool * list string :=
  match guide with
  | None => (false, ["guide.yaml not found"])
  | Some text =>
      match yaml_load text with
      | inl e => (false, [("Error parsing guide.yaml: " ++ e)%string])
      | inr config =>
          if negb (truthy config) then
            (false, ["guide.yaml is empty or invalid"])
          else
            match config with
            | PDict d =>
                let errors := preflight_errors d in
                (is_nil errors, errors)
            | _ =>
                (false,
                 [("Error parsing guide.yaml: " ++ no_get_message config)%string])
            end
      end
  end.

(** The fields [_load_config] stores, in the order it stores them. *)
Definition load_fields (d : list (string * pyval))
    : list (string * string) * list string :=
  let step (acc : list (string * string) * list string) (field : string) :=
    let val := dict_get d field in
    if truthy val && negb (PyStr.strip (str val) =? "")
    then (dict_set field (PyStr.strip (str val)) (fst acc), snd acc)
    else (fst acc,
          snd acc ++ [("Missing required field '" ++ field
                       ++ "' in guide.yaml")%string]) in
  let '(cfg, errors) := fold_left step required_fields ([], []) in
  let cfg :=
    match assoc "status" cfg with
    | Some s => dict_set "status" (PyStr.lower s) cfg
    | None => cfg
    end in
  let optional (cfg : list (string * string)) (opt : string) :=
    let val := dict_get d opt in
    if truthy val && negb (PyStr.strip (str val) =? "")
    then dict_set opt (PyStr.strip (str val)) cfg else cfg in
  let cfg := fold_left optional ["version"; "title"] cfg in
  (cfg,
   match errors with
   | [] => []
   | _ => "IG resource generation requires additional fields in guide.yaml:"
          :: errors
   end).

(** [IGResourceGenerator._load_config]: [self._config] and the errors put
    in the result; [guide] is the text of the generated [guide.yaml]. *)
Definition _load_config (guide : option string)
    : option (list (string * string)) * list string :=
  match guide with
  | None => (None, ["guide.yaml not found in output directory"])
  | Some text =>
      match yaml_load text with
      | inl e => (None, [("Error reading guide.yaml: " ++ e)%string])
      | inr config =>
          if negb (truthy config) then
            (None, ["guide.yaml is empty or invalid"])
          else
            match config with
            | PDict d =>
                let '(cfg, errors) := load_fields d in (Some cfg, errors)
            | _ =>
                (Some [],
                 [("Error reading guide.yaml: " ++ no_get_message config)%string])
            end
      end
  end.

(** *** Display names *)

(** The [HumanName] mapping of a list entry: [text], else the given names
    and the family name joined by blanks; [None] when the loop goes on to
    the next entry. *)
Definition human_name_of_dict (hn : list (string * pyval)) : option string :=
  if truthy (dict_get hn "text") then Some (str (dict_get hn "text"))
  else
    let given_parts :=
      match dict_get hn "given" with
      | PList given => map str given
      | _ => []
      end in
    let family := dict_get hn "family" in
    let parts := given_parts ++ (if truthy family then [str family] else []) in
    match parts with
    | [] => None
    | _ => Some (PyStr.join " " parts)
    end.

(** The loop [for hn in value] of [_extract_human_name]: the first entry
    that returns ends the loop. *)
Fixpoint human_name_of_list (value : list pyval) : option string :=
  match value with
  | [] => None
  | hn :: others =>
      match hn with
      | PDict d =>
          match human_name_of_dict d with
          | Some name => Some name
          | None => human_name_of_list others
          end
      | PStr s => Some s
      | _ => human_name_of_list others
      end
  end.

(** [IGResourceGenerator._extract_human_name] *)
Definition _extract_human_name (value : pyval) : option string :=
  match value with
  | PStr s => Some s
  | PList l => human_name_of_list l
  | PDict d =>
      if truthy (dict_get d "text") then Some (str (dict_get d "text"))
      else None
  | _ => None
  end.

(** The loop over [coding] of [_extract_codeable_text]. *)
Fixpoint first_display (codings : list pyval) : option string :=
  match codings with
  | [] => None
  | coding :: others =>
      match coding with
      | PDict c =>
          if truthy (dict_get c "display") then Some (str (dict_get c "display"))
          else first_display others
      | _ => first_display others
      end
  end.

(** [IGResourceGenerator._extract_codeable_text] *)
Fixpoint _extract_codeable_text (value : pyval) : option string :=
  match value with
  | PStr s => Some s
  | PDict d =>
      if truthy (dict_get d "text") then Some (str (dict_get d "text"))
      else
        match dict_get d "coding" with
        | PList codings => first_display codings
        | _ => None
        end
  | PList items =>
      (fix each (l : list pyval) : option string :=
         match l with
         | [] => None
         | item :: others =>
             match _extract_codeable_text item with
             | Some result => if result =? "" then each others else Some result
             | None => each others
             end
         end) items
  | _ => None
  end.

(** [x or y] on optional strings: [x] when it is a non-empty string. *)
Definition nonempty (x : option string) : option string :=
  match x with
  | Some s => if s =? "" then None else Some s
  | None => None
  end.

(** [format_title(rid)] for the truthy [rid] of a resource: calling
    [.lower()] on a value that is not a string raises. *)
Definition title_of_id (rid : pyval) : option string :=
  match rid with
  | PStr s => Some (Utils.format_title s)
  | _ => None
  end.

(** An entry of [self._resources]. *)
Record resource_entry : Type := ResourceEntry {
  resourceType : pyval;
  id : pyval;
  isExample : bool;
  name : option string;
  description : option string;
  exampleCanonical : option string;
  url : option string
}.

(** The [name] of an entry, from [resource.get("name")] and the id. *)
Definition resolve_name (raw_name rid : pyval) : option string :=
  match raw_name with
  | PStr s => Some s
  | PNone => title_of_id rid
  | _ =>
      match nonempty (_extract_human_name raw_name) with
      | Some n => Some n
      | None => title_of_id rid
      end
  end.

Definition resolve_description (raw_desc : pyval) : option string :=
  match raw_desc with
  | PStr s => Some s
  | PNone => None
  | _ => _extract_codeable_text raw_desc
  end.

(** [str(profiles[0])] for a truthy [profiles]: the first item of a list,
    the first character of a string; indexing any other value raises. *)
Definition first_profile (profiles : pyval) : option string :=
  match profiles with
  | PList (p :: _) => Some (str p)
  | PStr (String c _) => Some (String c "")
  | _ => None
  end.

(** The [exampleCanonical] of an example: [Some None] when there is no
    profile, [None] when reading it raises. *)
Definition example_canonical (d : list (string * pyval))
    : option (option string) :=
  match dict_get_default d "meta" (PDict []) with
  | PDict meta =>
      let profiles := dict_get_default meta "profile" (PList []) in
      if truthy profiles then option_map Some (first_profile profiles)
      else Some None
  | _ => None
  end.

(** The body of [_parse_resource_file] on the parsed JSON. *)
Definition entry_of_resource (resource : pyval) (is_example : bool)
    : option resource_entry :=
  match resource with
  | PDict d =>
      let rt := dict_get d "resourceType" in
      let rid := dict_get d "id" in
      if negb (truthy rt) || negb (truthy rid) then None
      else
        match resolve_name (dict_get d "name") rid with
        | None => None
        | Some entry_name =>
            let desc := resolve_description (dict_get d "description") in
            if is_example then
              match example_canonical d with
              | None => None
              | Some canonical =>
                  Some (ResourceEntry rt rid true (Some entry_name) desc
                          canonical None)
              end
            else
              let u := dict_get d "url" in
              Some (ResourceEntry rt rid false (Some entry_name) desc None
                      (if truthy u then Some (str u) else None))
        end
  | _ => None
  end.

(** [IGResourceGenerator._parse_resource_file]; [content] is the text of
    the file, [None] when it cannot be read.  Every exception ends in
    [return None]. *)
Definition _parse_resource_file (content : option string) (is_example : bool)
    : option resource_entry :=
  match content with
  | None => None
  | Some text =>
      match json_load text with
      | None => None
      | Some resource => entry_of_resource resource is_example
      end
  end.

(** *** The document *)

(** A node of the page tree. *)
Inductive page_node : Type :=
| PageNode (nameUrl title generation : string) (children : list page_node).

(** [IGResourceGenerator._count_pages] *)
Fixpoint _count_pages (page : page_node) : nat :=
  match page with
  | PageNode _ _ _ children =>
      fold_left (fun count child => count + _count_pages child) children 1
  end.

(** [IGResourceGenerator._page_node_to_r4] *)
Fixpoint _page_node_to_r4 (page : page_node) : pyval :=
  match page with
  | PageNode nameUrl title generation children =>
      PDict
        ([("nameUrl", PStr nameUrl); ("title", PStr title);
          ("generation", PStr generation)]
         ++ match children with
            | [] => []
            | _ => [("page", PList (map _page_node_to_r4 children))]
            end)
  end.

Definition truthy_str (x : option string) : bool :=
  match x with Some s => negb (s =? "") | None => false end.

(** One item of [definition.resource]. *)
Definition resource_item (r : resource_entry) : pyval :=
  PDict
    ([("reference",
       PDict [("reference",
               PStr (str (resourceType r) ++ "/" ++ str (id r))%string)])]
     ++ match nonempty (name r) with
        | Some n => [("name", PStr n)] | None => [] end
     ++ match nonempty (description r) with
        | Some t => [("description", PStr t)] | None => [] end
     ++ (if isExample r then
           match nonempty (exampleCanonical r) with
           | Some c => [("exampleCanonical", PStr c)]
           | None => [("exampleBoolean", PBool true)]
           end
         else [("exampleBoolean", PBool false)])).

(** [IGResourceGenerator._create_ig_resource_r4]; a key missing from [cfg]
    is a [KeyError]. *)
Definition _create_ig_resource_r4 (cfg : list (string * string))
    (resources : list resource_entry) (root_page : page_node) : option pyval :=
  match assoc "canonical" cfg, assoc "id" cfg,
        assoc "status" cfg, assoc "fhirVersion" cfg with
  | Some canonical, Some ig_id, Some status, Some fhir_version =>
      let canonical := PyStr.rstrip_char "/" canonical in
      let ig_url := (canonical ++ "/ImplementationGuide/" ++ ig_id)%string in
      let definition :=
        match resources with
        | [] => []
        | _ => [("resource", PList (map resource_item resources))]
        end
        ++ [("page", _page_node_to_r4 root_page)] in
      Some (PDict
        ([("resourceType", PStr "ImplementationGuide");
          ("id", PStr ig_id); ("url", PStr ig_url)]
         ++ match nonempty (assoc "version" cfg) with
            | Some v => [("version", PStr v)] | None => [] end
         ++ match nonempty (assoc "title" cfg) with
            | Some t => [("name", PStr (PyStr.replace " " "" t));
                         ("title", PStr t)]
            | None => [] end
         ++ [("status", PStr status);
             ("fhirVersion", PList [PStr fhir_version]);
             ("packageId", PStr ig_id);
             ("definition", PDict definition)]))
  | _, _, _, _ => None
  end.

(** *** The page tree *)

Definition nameUrl (page : page_node) : string :=
  match page with PageNode u _ _ _ => u end.

Definition title (page : page_node) : string :=
  match page with PageNode _ t _ _ => t end.

Definition children (page : page_node) : list page_node :=
  match page with PageNode _ _ _ c => c end.

(** The files and the subdirectories [_build_page_structure] keeps. *)
Definition is_markdown_page (e : string * FS.node) : bool :=
  match snd e with
  | FS.File _ => PyStr.endswith ".page.md" (fst e)
  | FS.Dir _ => false
  end.

Definition is_page_dir (e : string * FS.node) : bool :=
  match snd e with
  | FS.Dir _ =>
      negb (PyStr.startswith "_" (fst e)) && negb (PyStr.startswith "." (fst e))
      && negb (fst e =? "pagetemplates")
  | FS.File _ => false
  end.

(** The sort key [(0 if f.name.lower() == "index.page.md" else 1, f.name)] *)
Definition page_file_leb (a b : string) : bool :=
  Sort.key_leb (if PyStr.lower a =? "index.page.md" then 0 else 1, a)
               (if PyStr.lower b =? "index.page.md" then 0 else 1, b).

(** The node of a page file. *)
Definition markdown_page (relative_path f : string) : page_node :=
  PageNode (relative_path ++ "/" ++ f)%string
    (Utils.format_title (PyStr.replace ".page.md" "" f)) "markdown" [].

Definition by_dir_name (a b : (string * FS.node) * page_node) : bool :=
  Sort.str_leb (fst (fst a)) (fst (fst b)).

(** [IGResourceGenerator._build_page_structure], on the name of the
    directory and what is there.  The node of every entry is made where
    the entry is met, and the nodes of the subdirectories that are kept
    are then put in the order of their names: the recursion is on the tree,
    and the result is that of sorting first.  (The node made for what is
    no directory is never kept.) *)
Fixpoint _build_page_structure (dir_name : string) (directory : FS.node)
    (relative_path : string) : page_node :=
  match directory with
  | FS.File _ => PageNode relative_path (Utils.format_title dir_name) "generated" []
  | FS.Dir es =>
      let files :=
        Sort.sort page_file_leb (map fst (filter is_markdown_page es)) in
      let below :=
        map (fun e : string * FS.node =>
               (e, _build_page_structure (fst e) (snd e)
                     (relative_path ++ "/" ++ fst e)%string))
          es in
      let subdirs :=
        Sort.sort by_dir_name (filter (fun x => is_page_dir (fst x)) below) in
      PageNode relative_path (Utils.format_title dir_name) "generated"
        (map (markdown_page relative_path) files ++ map snd subdirs)
  end.

(** *** Collecting the resources *)

(** The loop over [sorted(d.glob("*.json"))] of [_collect_resources]. *)
Definition collect_from (es : list (string * FS.node)) (is_example : bool)
    : list resource_entry :=
  flat_map
    (fun f =>
       match _parse_resource_file (FS.read (snd f)) is_example with
       | Some entry => [entry]
       | None => []
       end)
    (Sort.sort FS.by_name (FS.glob_suffix ".json" es)).

(** [IGResourceGenerator._collect_resources]: [self._resources] after it. *)
Definition _collect_resources (input : FS.node) : list resource_entry :=
  match FS.lookup ["resources"] input with
  | Some (FS.Dir es) => collect_from es false
  | _ => []
  end
  ++ match FS.lookup ["examples"] input with
     | Some (FS.Dir es) => collect_from es true
     | _ => []
     end.

(** The document [generate] writes: the configuration is loaded (step 1),
    the run ends there when it has errors, and the document is built from
    it, the collected resources and the page tree (step 4). *)
Definition ig_document (guide : option string)
    (resources : list resource_entry) (root_page : page_node) : option pyval :=
  match _load_config guide with
  | (Some cfg, []) => _create_ig_resource_r4 cfg resources root_page
  | _ => None
  end.

End WithRuntime.

End IGResourceGenerator.

(* ================================================================== *)
(** ** validator.py *)
(* ================================================================== *)

Module IGInputValidator.

Definition REQUIRED_INPUT_FOLDERS : list string :=
  ["resources"; "examples"; "pages"; "styles"; "pagetemplates-artifacts"].

Definition REQUIRED_STYLE_FILES : list string :=
  ["master.html"; "settings.style"; "style.css"].

(** What [validate()] comes to: a valid input with its warnings, one
    [ValidationError] turned into the error of an invalid input, or an
    exception of another kind, which leaves [validate()]. *)
Inductive report : Type :=
| Valid (warnings : list string)
| Invalid (error : string)
| Crashed.

Section WithRuntime.
Context `{PyRuntime}.

(** [_load_variables_config]: reading [variables.yaml] may raise. *)
Definition variables_load (input : FS.node) : bool :=
  match FS.lookup ["variables.yaml"] input with
  | None => true
  | Some (FS.Dir _) => false
  | Some (FS.File text) =>
      match yaml_load text with inl _ => false | inr _ => true end
  end.

(** [_check_optional_folders] *)
Definition optional_folder_warnings (input : FS.node) : list string :=
  match FS.lookup ["pagetemplates"] input with
  | None => []
  | Some item =>
      let md_files :=
        match item with
        | FS.Dir es => FS.glob_suffix ".md" es
        | FS.File _ => []
        end in
      if is_nil md_files
      then ["Optional folder 'pagetemplates' is empty (no .md files found)"]
      else []
  end.

(** [_check_ig_resource_fields]: the warnings it adds. *)
Definition ig_resource_warnings (config : list (string * pyval)) : list string :=
  let status := dict_get config "status" in
  if IGResourceGenerator.blank status then []
  else
    let sv := PyStr.lower (PyStr.strip (str status)) in
    if mem sv IGResourceGenerator.valid_statuses then []
    else [("Invalid status value '" ++ sv ++ "' for IG resource generation. "
           ++ "Must be one of: draft, active, retired, unknown")%string].

(** [_validate_styles_structure] and what follows it. *)
Definition validate_styles (input : FS.node) (config : list (string * pyval))
    : report :=
  let style_name := PyStr.strip (str (dict_get config "style-name")) in
  let custom_dir := FS.join ["styles"] style_name in
  if negb (FS.is_dir custom_dir input) then
    Invalid ("Style folder not found: styles/" ++ style_name ++ nl
             ++ "   The folder name must match the 'style-name' value in guide.yaml")%string
  else
    let missing :=
      filter (fun f => negb (FS.is_file (custom_dir ++ [f]) input))
        REQUIRED_STYLE_FILES in
    if negb (is_nil missing) then
      Invalid ("Missing required style files in styles/" ++ style_name ++ ": "
               ++ PyStr.join ", " missing)%string
    else
      Valid (optional_folder_warnings input ++ ig_resource_warnings config).

(** [_load_guide_config] of the validator and the steps after it. *)
Definition validate_config (input : FS.node) (config : pyval) : report :=
  if negb (truthy config) then Invalid "guide.yaml is empty"
  else
    match config with
    | PDict d =>
        if IGResourceGenerator.blank (dict_get d "title") then
          Invalid "guide.yaml is missing required 'title' field"
        else if IGResourceGenerator.blank (dict_get d "url-key") then
          Invalid ("guide.yaml is missing required 'url-key' field" ++ nl
                   ++ "   This field is used to determine the output directory name")%string
        else if IGResourceGenerator.blank (dict_get d "style-name") then
          Invalid ("guide.yaml is missing required 'style-name' field" ++ nl
                   ++ "   This field must match the name of the subfolder in styles/")%string
        else if negb (variables_load input) then Crashed
        else validate_styles input d
    | _ => Crashed
    end.

(** [IGInputValidator.validate], for an input directory that exists. *)
Definition validate (input : FS.node) : report :=
  let missing :=
    filter (fun f => negb (FS.is_dir [f] input)) REQUIRED_INPUT_FOLDERS in
  if negb (is_nil missing) then
    Invalid ("Missing required folders in input directory: "
             ++ PyStr.join ", " missing)%string
  else
    match FS.lookup ["guide.yaml"] input with
    | Some (FS.File text) =>
        match yaml_load text with
        | inl _ => Crashed
        | inr config => validate_config input config
        end
    | _ => Invalid "Missing required files in input directory: guide.yaml"
    end.

End WithRuntime.

End IGInputValidator.

(* ================================================================== *)
(** ** generator.py *)
(* ================================================================== *)

Module IGGenerator.

(** *** Tables of contents read from a directory *)

Definition is_index_name (name : string) : bool :=
  PyStr.lower name =? "index.page.md".

(** The sort key [(0 if f.name.lower() == "index.page.md" else 1, f.name)] *)
Definition file_key (name : string) : nat * string :=
  (if is_index_name name then 0 else 1, name).

Definition file_leb (a b : string) : bool :=
  Sort.key_leb (file_key a) (file_key b).

(** The display name of a page file in a directory's table of contents. *)
Definition file_display (name : string) : string :=
  let stem := PyStr.replace ".page.md" "" name in
  if PyStr.lower stem =? "index" then "Index"
  else PyStr.title (PyStr.replace "-" " " stem).

(** The display name of a subdirectory. *)
Definition dir_display (dn : string) : string :=
  if PyStr.lower dn =? "artifacts" then "Artifacts"
  else PyStr.title (PyStr.replace "-" " " dn).

Definition listed (e : string * FS.node) : bool :=
  negb ((fst e =? "toc.yaml") || (fst e =? "pagetemplates")).

Definition is_page_file (e : string * FS.node) : bool :=
  match snd e with
  | FS.File _ => PyStr.endswith ".page.md" (fst e)
  | FS.Dir _ => false
  end.

Definition is_visible_dir (e : string * FS.node) : bool :=
  match snd e with
  | FS.Dir _ =>
      negb (PyStr.startswith "." (fst e)) && negb (PyStr.startswith "_" (fst e))
  | FS.File _ => false
  end.

(** The two lists the loop over [directory.iterdir()] fills. *)
Definition page_files (items : list (string * FS.node)) : list string :=
  map fst (filter is_page_file (filter listed items)).

Definition visible_dirs (items : list (string * FS.node)) : list string :=
  map fst (filter is_visible_dir (filter listed items)).

(** [IGGenerator._generate_toc_for_directory], on the entries of the
    directory. *)
Definition _generate_toc_for_directory (items : list (string * FS.node))
    : list toc_entry :=
  let files := Sort.sort file_leb (page_files items) in
  let dirs := Sort.sort Sort.str_leb (visible_dirs items) in
  map (fun f => TocEntry (file_display f) f) files
  ++ map (fun d => TocEntry (dir_display d) d) dirs.

(** *** Resources *)

(** What [_parse_fhir_resource] returns.  (The absolute [filepath] it also
    stores is read nowhere.) *)
Record info : Type := Info {
  resourceType : pyval;
  id : pyval;
  filename : string;
  url : pyval
}.

Section WithRuntime.
Context `{PyRuntime}.

(** [IGGenerator._parse_fhir_resource], on the name of the file and what
    is there. *)
Definition _parse_fhir_resource (name : string) (item : FS.node) : option info :=
  if negb (PyStr.lower (PurePath.suffix name) =? ".json") then None
  else
    match FS.read item with
    | None => None
    | Some text =>
        match json_load text with
        | Some (PDict d) =>
            let rt := dict_get d "resourceType" in
            let rid := dict_get d "id" in
            if negb (truthy rt) || negb (truthy rid) then None
            else Some (Info rt rid (PurePath.stem name)
                         (dict_get_default d "url" (PStr "")))
        | _ => None
        end
    end.

(** [sorted(d.glob("*.json"))] parsed one by one, the files that give no
    record left out. *)
Definition parsed_files (es : list (string * FS.node)) : list info :=
  flat_map
    (fun e =>
       match _parse_fhir_resource (fst e) (snd e) with
       | Some i => [i]
       | None => []
       end)
    (Sort.sort FS.by_name (FS.glob_suffix ".json" es)).

(** [resources_by_type[info["resourceType"]].append(info)].  The keys are
    strings: a type that is no string raises before a page of any type is
    written, at the latest where [.lower()] is called on it. *)
Fixpoint group_by_type (infos : list info) (acc : list (string * list info))
    : option (list (string * list info)) :=
  match infos with
  | [] => Some acc
  | i :: rest =>
      match resourceType i with
      | PStr rt =>
          let old := match assoc rt acc with Some l => l | None => [] end in
          group_by_type rest (dict_set rt (old ++ [i]) acc)
      | _ => None
      end
  end.

Definition resource_page (template resource_type : string) (resource : info)
    : option string :=
  let variables :=
    [("file-name", id resource);
     ((resource_type ++ ".url")%string, url resource)] in
  if negb (template =? "") then
    Template._resolve_template_variables template variables
  else
    Some ("# " ++ str (id resource) ++ nl ++ nl
          ++ "*Resource Type: " ++ resource_type ++ "*" ++ nl ++ nl
          ++ "<!-- No template found for " ++ resource_type ++ " -->" ++ nl)%string.

Definition example_page (example_template : string) (i : info) : option string :=
  let variables :=
    [("file-name", id i);
     ("Resource.id", id i);
     ("ResourceType/Resource.id",
      PStr (str (resourceType i) ++ "/" ++ str (id i))%string)] in
  if negb (example_template =? "") then
    Template._resolve_template_variables example_template variables
  else
    Some ("# " ++ str (id i) ++ nl ++ nl
          ++ "*Example of " ++ str (resourceType i) ++ "*" ++ nl ++ nl
          ++ "<!-- No template found for examples -->" ++ nl)%string.

Definition page_name (i : info) : string := (str (id i) ++ ".page.md")%string.

(** *** The steps of a generation

    [input] is the input folder, which a run only reads.  The tree the
    steps change is the guide's output directory, and every path below is
    relative to it. *)

Section Steps.
Variable input : FS.node.

Import Run.
Local Open Scope run_scope.

Definition home_dir : FS.path := ["Home"].
Definition artifacts_dir : FS.path := ["Home"; "artifacts"].

Definition copy_file_if_present (name : string) (target : FS.path) : M unit :=
  match FS.lookup [name] input with
  | Some (FS.File data) => effect (FS.copy2 name data target)
  | _ => ret tt
  end.

Definition copy_tree_if_present (name : string) (target : FS.path) : M unit :=
  match FS.lookup [name] input with
  | Some (FS.Dir es) => effect (FS.copytree (FS.Dir es) target)
  | _ => ret tt
  end.

(** [IGGenerator._copy_root_files] *)
Definition _copy_root_files : M unit :=
  copy_file_if_present "guide.yaml" ["guide.yaml"] ;;
  copy_file_if_present "variables.yaml" ["variables.yaml"] ;;
  copy_tree_if_present "styles" ["styles"] ;;
  copy_tree_if_present "images" ["Home"; "images"].

(** Where a file of [pages/] goes, from its path relative to [pages/]. *)
Definition page_target (relative : FS.path) : FS.path :=
  let name := last relative "" in
  if PyStr.lower (PurePath.suffix name) =? ".md" then
    home_dir ++ removelast relative
    ++ [(PyStr.lower (PurePath.stem name) ++ ".page.md")%string]
  else home_dir ++ relative.

(** [IGGenerator._transform_pages] *)
Definition _transform_pages : M nat :=
  match FS.lookup ["pages"] input with
  | Some (FS.Dir es) =>
      fold
        (fun file_count (item : FS.path * FS.node) =>
           match snd item with
           | FS.Dir _ => ret file_count
           | FS.File data =>
               let out_path := page_target (fst item) in
               effect (FS.makedirs (removelast out_path)) ;;
               effect (FS.copy2 (last (fst item) "") data out_path) ;;
               ret (S file_count)
           end)
        (FS.walk (FS.Dir es)) 0
  | _ => raise
  end.

(** [IGGenerator._copy_pagetemplates] *)
Definition _copy_pagetemplates : M unit :=
  copy_tree_if_present "pagetemplates" ["Home"; "pagetemplates"].

Definition artifacts_index_body : string :=
  ("## {{page-title}}" ++ nl ++ nl
   ++ "This section contains all the FHIR artifacts defined in this Implementation Guide."
   ++ nl ++ nl ++ "{{index:children}}" ++ nl)%string.

(** The entries of a directory of the input; none when it is not one. *)
Definition input_dir (name : string) : option (list (string * FS.node)) :=
  match FS.lookup [name] input with
  | Some (FS.Dir es) => Some es
  | _ => None
  end.

Section Artifacts.
Variable templates : list (string * string).

Definition template_for (key : string) : string :=
  match assoc key templates with Some t => t | None => "" end.

(** The pages of one resource type. *)
Definition write_type_pages (by_type : list (string * list info))
    (resource_type : string) : M unit :=
  let resources :=
    match assoc resource_type by_type with Some l => l | None => [] end in
  let type_dir := FS.join artifacts_dir (PyStr.lower resource_type) in
  effect (FS.mkdir type_dir) ;;
  let template := template_for resource_type in
  for_each
    (fun resource =>
       content <- of_option (resource_page template resource_type resource) ;;
       effect (FS.write_text (FS.join type_dir (page_name resource)) content))
    resources.

(** The page of one example. *)
Definition write_example_page (i : info) : M unit :=
  content <- of_option (example_page (template_for "Example") i) ;;
  effect (FS.write_text
            (FS.join (artifacts_dir ++ ["examples"]) (page_name i)) content).

(** [IGGenerator._generate_artifacts] *)
Definition _generate_artifacts : M (list (string * list info) * list info) :=
  effect (FS.mkdir artifacts_dir) ;;
  effect (FS.write_text (artifacts_dir ++ ["index.page.md"]) artifacts_index_body) ;;
  let infos :=
    match input_dir "resources" with
    | Some es => parsed_files es
    | None => []
    end in
  resources_by_type <- of_option (group_by_type infos []) ;;
  for_each (write_type_pages resources_by_type)
    (Sort.sort Sort.str_leb (map fst resources_by_type)) ;;
  match input_dir "examples" with
  | Some es =>
      effect (FS.mkdir (artifacts_dir ++ ["examples"])) ;;
      let examples_list := parsed_files es in
      for_each write_example_page examples_list ;;
      ret (resources_by_type, examples_list)
  | None => ret (resources_by_type, [])
  end.

End Artifacts.

(** [IGGenerator._copy_artifact_index_pages]: the keys of [index_pages]. *)
Definition _copy_artifact_index_pages : M (list string) :=
  match input_dir "pagetemplates-artifacts" with
  | None => ret []
  | Some es =>
      fold
        (fun index_pages (index_file : string * FS.node) =>
           let resource_type :=
             PyStr.replace ".index" "" (PurePath.stem (fst index_file)) in
           let target_dir := FS.join artifacts_dir resource_type in
           effect (FS.makedirs target_dir) ;;
           data <- of_option (FS.read (snd index_file)) ;;
           effect (FS.copy2 (fst index_file) data (target_dir ++ ["index.page.md"])) ;;
           ret (index_pages ++ [resource_type]))
        (Sort.sort FS.by_name (FS.glob_suffix ".index.md" es)) []
  end.

(** *** Tables of contents *)

(** [IGGenerator._write_toc_file] *)
Definition _write_toc_file (p : FS.path) (entries : list toc_entry) : M unit :=
  effect (FS.write_text p (yaml_dump entries)).

(** The entry a menu item adds to the Home table of contents, if any. *)
Definition menu_entry (g : FS.node) (display_name : string) (value : pyval)
    : list toc_entry :=
  match value with
  | PBool true =>
      let folder_name := PyStr.lower display_name in
      if FS.is_dir (FS.join home_dir folder_name) g
      then [TocEntry display_name folder_name] else []
  | PStr v =>
      if PyStr.endswith ".md" (PyStr.lower v) then
        let page := PyStr.replace ".md" ".page.md" v in
        if FS.is_file (FS.join home_dir page) g
        then [TocEntry display_name page] else []
      else
        if FS.is_dir (FS.join home_dir v) g
        then [TocEntry display_name v] else []
  | _ => []
  end.

(** The list [home_toc] after the loop over [menu.items()]. *)
Definition menu_toc (g : FS.node) (menu : list (string * pyval)) : list toc_entry :=
  flat_map (fun item => menu_entry g (fst item) (snd item)) menu.

(** [IGGenerator._generate_home_toc] *)
Definition _generate_home_toc (guide_config : list (string * pyval)) : M unit :=
  match dict_get guide_config "menu" with
  | PDict menu =>
      home_toc <- gets (fun g => menu_toc g menu) ;;
      match home_toc with
      | [] => ret tt
      | _ => _write_toc_file (home_dir ++ ["toc.yaml"]) home_toc
      end
  | _ =>
      entries <- gets (fun g => _generate_toc_for_directory (FS.iterdir home_dir g)) ;;
      match entries with
      | [] => ret tt
      | _ => _write_toc_file (home_dir ++ ["toc.yaml"]) entries
      end
  end.

(** [is_subpath(child, parent)] *)
Fixpoint is_subpath (child parent : FS.path) : bool :=
  match parent, child with
  | [], _ => true
  | _ :: _, [] => false
  | y :: parent', x :: child' => (x =? y) && is_subpath child' parent'
  end.

(** The body of the loop over [sorted(home_dir.rglob("*"))]. *)
Definition toc_for_subdirectory (toc_count : nat) (item : FS.path * FS.node)
    : M nat :=
  match snd item with
  | FS.File _ => ret toc_count
  | FS.Dir _ =>
      let current_dir := home_dir ++ fst item in
      if last (fst item) "" =? "pagetemplates" then ret toc_count
      else if is_subpath current_dir artifacts_dir then ret toc_count
      else
        entries <- gets (fun g =>
                     _generate_toc_for_directory (FS.iterdir current_dir g)) ;;
        match entries with
        | [] => ret toc_count
        | _ =>
            _write_toc_file (current_dir ++ ["toc.yaml"]) entries ;;
            ret (S toc_count)
        end
  end.

Definition by_parts (a b : FS.path * FS.node) : bool :=
  Sort.parts_leb (fst a) (fst b).

(** [IGGenerator._generate_toc_files] *)
Definition _generate_toc_files (guide_config : list (string * pyval)) : M nat :=
  _write_toc_file ["toc.yaml"] [TocEntry "Home" "Home"] ;;
  _generate_home_toc guide_config ;;
  below_home <- gets (fun g => Sort.sort by_parts (FS.rglob home_dir g)) ;;
  fold toc_for_subdirectory below_home 2.

(** The ids of the resources of one table of contents.  They are sorted as
    strings; the order Python gives to ids that are not strings (numbers
    compare, mixed types raise) is not modelled, and the step stops. *)
Fixpoint string_ids (resources : list info) : option (list string) :=
  match resources with
  | [] => Some []
  | r :: rest =>
      match id r, string_ids rest with
      | PStr s, Some l => Some (s :: l)
      | _, _ => None
      end
  end.

Definition index_entry : toc_entry := TocEntry "Index" "index.page.md".

(** The table of contents of a resource type or of the examples. *)
Definition type_toc (has_index : bool) (ids : list string) : list toc_entry :=
  (if has_index then [index_entry] else [])
  ++ map (fun rid => TocEntry rid (rid ++ ".page.md")%string)
       (Sort.sort Sort.str_leb ids).

(** The table of contents of [artifacts/]. *)
Definition artifacts_toc (has_index : bool) (types : list string)
    (has_examples : bool) : list toc_entry :=
  (if has_index then [index_entry] else [])
  ++ map (fun rt => TocEntry rt (PyStr.lower rt)) (Sort.sort Sort.str_leb types)
  ++ (if has_examples then [TocEntry "Examples" "examples"] else []).

Definition write_type_toc (by_type : list (string * list info))
    (index_pages : list string) (rt : string) : M unit :=
  let resources := match assoc rt by_type with Some l => l | None => [] end in
  let type_dir := FS.join artifacts_dir (PyStr.lower rt) in
  ids <- of_option (string_ids resources) ;;
  _write_toc_file (type_dir ++ ["toc.yaml"])
    (type_toc (mem (PyStr.lower rt) index_pages) ids).

(** [IGGenerator._generate_artifacts_toc] *)
Definition _generate_artifacts_toc (by_type : list (string * list info))
    (examples_list : list info) (index_pages : list string) : M unit :=
  has_index <- gets (FS.is_file (artifacts_dir ++ ["index.page.md"])) ;;
  _write_toc_file (artifacts_dir ++ ["toc.yaml"])
    (artifacts_toc has_index (map fst by_type) (negb (is_nil examples_list))) ;;
  for_each (write_type_toc by_type index_pages)
    (Sort.sort Sort.str_leb (map fst by_type)) ;;
  match examples_list with
  | [] => ret tt
  | _ =>
      ids <- of_option (string_ids examples_list) ;;
      _write_toc_file (artifacts_dir ++ ["examples"; "toc.yaml"])
        (type_toc (mem "examples" index_pages) ids)
  end.

(** *** The run *)

(** [IGGenerator._load_guide_config]: the configuration and the guide
    name, or an exception. *)
Definition _load_guide_config : option (list (string * pyval) * string) :=
  match FS.lookup ["guide.yaml"] input with
  | Some (FS.File text) =>
      match yaml_load text with
      | inr (PDict config) =>
          let url_key := dict_get config "url-key" in
          if negb (truthy (PDict config)) || negb (truthy url_key) then None
          else
            let name := PyStr.strip (str url_key) in
            if name =? "" then None else Some (config, name)
      | _ => None
      end
  | _ => None
  end.

(** [IGGenerator._load_variables_config]: what it loads is read nowhere;
    loading it may raise. *)
Definition _load_variables_config : option unit :=
  if IGInputValidator.variables_load input then Some tt else None.

Definition template_files : list (string * string) :=
  [("CodeSystem", "codesystem.md");
   ("StructureDefinition", "structuredefinition.md");
   ("ValueSet", "valueset.md");
   ("Example", "examples.md")].

(** [IGGenerator._load_templates]: [self._templates] after it.  (A file
    holds its text: a template that cannot be decoded, on which
    [read_text] raises, is outside the model.) *)
Definition _load_templates : list (string * string) :=
  match input_dir "pagetemplates-artifacts" with
  | None => []
  | Some es =>
      flat_map
        (fun t =>
           match assoc (snd t) es with
           | Some (FS.File text) => [(fst t, text)]
           | _ => []
           end)
        template_files
  end.

(** [IGGenerator._setup_output_directory], on the output root: the
    guide's directory is removed when it exists and made again, with its
    [Home]. *)
Definition _setup_output_directory (guide_output_dir : FS.path) : M unit :=
  there <- gets (FS.exists_ guide_output_dir) ;;
  (if there then effect (FS.rmtree guide_output_dir) else ret tt) ;;
  effect (FS.makedirs guide_output_dir) ;;
  effect (FS.mkdir (guide_output_dir ++ ["Home"])).

(** The result of [generate]; [output_path], the absolute path of the
    guide's directory as a string, is left out. *)
Record generation_result : Type := GenerationResult {
  success : bool;
  guide_name : string;
  resource_count : nat;
  example_count : nat;
  page_count : nat;
  toc_files_generated : nat;
  warnings : list string
}.

(** [sum(len(v) for v in resources_by_type.values())] *)
Definition count_resources (by_type : list (string * list info)) : nat :=
  list_sum (map (fun kv => List.length (snd kv)) by_type).

(** Steps 4 to 10 of [generate], on the guide's directory. *)
Definition build (guide_config : list (string * pyval))
    (templates : list (string * string)) (name : string)
    (validation_warnings : list string) : M generation_result :=
  _copy_root_files ;;
  pages <- _transform_pages ;;
  _copy_pagetemplates ;;
  artifacts <- _generate_artifacts templates ;;
  index_pages <- _copy_artifact_index_pages ;;
  tocs <- _generate_toc_files guide_config ;;
  _generate_artifacts_toc (fst artifacts) (snd artifacts) index_pages ;;
  ret (GenerationResult true name (count_resources (fst artifacts))
         (List.length (snd artifacts)) pages tocs validation_warnings).

(** A step on the directory at [p] of a larger tree. *)
Definition at_path {A : Type} (p : FS.path) (m : M A) : M A :=
  fun out =>
    match FS.lookup p out with
    | Some g => let (r, g') := m g in (r, FS.graft p g' out)
    | None => (None, out)
    end.

(** Step 1 of [generate]: the warnings of the validation, or an exception. *)
Definition validation (skip_validation : bool) : option (list string) :=
  if skip_validation then Some []
  else
    match IGInputValidator.validate input with
    | IGInputValidator.Valid w => Some w
    | _ => None
    end.

(** [IGGenerator.generate], on the output root: the result, or [None] for
    a [GenerationError], and the output root it leaves. *)
Definition generate (skip_validation : bool) : M generation_result :=
  validation_warnings <- of_option (validation skip_validation) ;;
  loaded <- of_option _load_guide_config ;;
  _ <- of_option _load_variables_config ;;
  let templates := _load_templates in
  let guide_output_dir := FS.parts (snd loaded) in
  _setup_output_directory guide_output_dir ;;
  at_path guide_output_dir
    (build (fst loaded) templates (snd loaded) validation_warnings).

End Steps.

End WithRuntime.

End IGGenerator.

(* ================================================================== *)
(** ** Readings of the specification, to compare the code with *)
(* ================================================================== *)

Module Spec.

(** "First list element wins": the name a list of [HumanName] gives when
    only its first entry is looked at. *)
Definition human_name_first_entry `{PyRuntime} (value : list pyval)
    : option string :=
  match value with
  | [] => None
  | PDict d :: _ => IGResourceGenerator.human_name_of_dict d
  | PStr s :: _ => Some s
  | _ :: _ => None
  end.

(** The display name under that reading: the name of the first entry,
    else the titled id. *)
Definition resolve_name_first_entry `{PyRuntime} (raw_name rid : pyval)
    : option string :=
  match raw_name with
  | PList value =>
      match IGResourceGenerator.nonempty (human_name_first_entry value) with
      | Some n => Some n
      | None => IGResourceGenerator.title_of_id rid
      end
  | _ => IGResourceGenerator.resolve_name raw_name rid
  end.


(** The page a menu value [name.md] stands for: what the page transform
    makes of a file of that name. *)
Definition page_of_menu_value (value : string) : string :=
  (PyStr.lower (PurePath.stem value) ++ ".page.md")%string.

End Spec.

(** A parsed resource that the program leaves out: its [resourceType] or
    its [id] is absent or empty, or it is not a mapping at all. *)
Definition lacks_type_or_id (resource : pyval) : bool :=
  match resource with
  | PDict d =>
      negb (truthy (dict_get d "resourceType")) || negb (truthy (dict_get d "id"))
  | _ => true
  end.

(** A directory entry that gives no resource: it cannot be read or parsed,
    or what is parsed lacks the type or the id. *)
Definition gives_no_resource `{PyRuntime} (item : FS.node) : bool :=
  match FS.read item with
  | None => true
  | Some text =>
      match json_load text with
      | None => true
      | Some resource => lacks_type_or_id resource
      end
  end.

(** Where the page of a resource of type [resource_type] is written. *)
Definition type_page_path `{PyRuntime} (resource_type : string)
    (resource : IGGenerator.info) : FS.path :=
  FS.join (FS.join IGGenerator.artifacts_dir (PyStr.lower resource_type))
    (IGGenerator.page_name resource).

(** [_setup_output_directory] as one function of the output root, for the
    runs in which none of its three calls raises. *)
Definition setup_tree (guide_output_dir : FS.path) (out : FS.node)
    : option FS.node :=
  match (if FS.exists_ guide_output_dir out
         then FS.rmtree guide_output_dir out else Some out) with
  | Some removed =>
      match FS.makedirs guide_output_dir removed with
      | Some made => FS.mkdir (guide_output_dir ++ ["Home"]) made
      | None => None
      end
  | None => None
  end.

(** The guide's directory as [_setup_output_directory] leaves it. *)
Definition fresh_guide : FS.node := FS.Dir [("Home", FS.Dir [])].

Definition is_dir_node (n : FS.node) : bool :=
  match n with
  | FS.Dir _ => true
  | FS.File _ => false
  end.

(** A record of the type [t]. *)
Definition has_type (t : string) (i : IGGenerator.info) : bool :=
  match IGGenerator.resourceType i with
  | PStr s => s =? t
  | _ => false
  end.

(** The records of a group, none for a type that has no group. *)
Definition group_of (t : string) (by_type : list (string * list IGGenerator.info))
    : list IGGenerator.info :=
  match assoc t by_type with Some l => l | None => [] end.

(** The records parsed from a directory of the input, none when it is no
    directory. *)
Definition parsed_dir `{PyRuntime} (input : FS.node) (name : string)
    : list IGGenerator.info :=
  match IGGenerator.input_dir input name with
  | Some es => IGGenerator.parsed_files es
  | None => []
  end.

(** An entry that is a file. *)
Definition is_file_item (item : FS.path * FS.node) : bool :=
  negb (is_dir_node (snd item)).

(** [c in s] for a character [c]. *)
Fixpoint has_char (c : ascii) (s : string) : bool :=
  match s with
  | EmptyString => false
  | String x r => Ascii.eqb x c || has_char c r
  end.

(** The name under which the item of a menu is looked up in [Home]: none
    for an item that is neither [true] nor a string. *)
Definition menu_target (display_name : string) (value : pyval)
    : option string :=
  match value with
  | PBool true => Some (PyStr.lower display_name)
  | PStr v =>
      Some (if PyStr.endswith ".md" (PyStr.lower v)
            then PyStr.replace ".md" ".page.md" v else v)
  | _ => None
  end.

(** A menu whose items are looked up inside [Home]: no name has a part
    [..] or begins with a slash. *)
Definition menu_inside (menu : list (string * pyval)) : Prop :=
  forall display_name value target,
    In (display_name, value) menu ->
    menu_target display_name value = Some target ->
    FS.inside (FS.parts target) = true.

(** A hyphen, an underscore or a blank. *)
Definition plain (x : ascii) : bool :=
  Ascii.eqb x "-" || Ascii.eqb x "_" || Ascii.eqb x " ".

(** A text of ASCII characters. *)
Definition is_ascii (s : string) : bool :=
  all_chars (fun c => (PyStr.code c <? 128)%nat) s.

(** The text of the file at a path, if a file is there. *)
Definition file_at (p : FS.path) (n : FS.node) : option string :=
  match FS.lookup p n with
  | Some (FS.File data) => Some data
  | _ => None
  end.

(** A run's file writes one after the other. *)
Fixpoint write_all (writes : list (FS.path * string)) (n : FS.node)
    : option FS.node :=
  match writes with
  | [] => Some n
  | w :: rest =>
      match FS.write_text (fst w) (snd w) n with
      | Some n' => write_all rest n'
      | None => None
      end
  end.

(** The last text written to [p] by a list of writes. *)
Fixpoint last_write (p : FS.path) (writes : list (FS.path * string))
    : option string :=
  match writes with
  | [] => None
  | w :: rest =>
      match last_write p rest with
      | Some d => Some d
      | None => if list_eq_dec string_dec (fst w) p then Some (snd w) else None
      end
  end.

(* ================================================================== *)
(** ** Vocabulary of the statements *)
(* ================================================================== *)

(** The two ends of a placeholder. *)
Definition opening : string := "{{ig-var:".
Definition closing : string := "}}".

(** The pattern from the end of group 1 on, and from its start on. *)
Definition tail_pat : list Re.atom :=
  [Re.GroupClose; Re.Star PyStr.isspace; Re.Lit "}"; Re.Lit "}"]%list.
Definition group_pat : list Re.atom :=
  (Re.GroupOpen :: Re.Plus Template.not_rbrace :: tail_pat)%list.


(** The tables of contents a run writes below [Home]: one for some of the
    directories found there, each with at least one entry. *)
Definition subdirectory_toc `{PyRuntime} (found : list FS.path)
    (w : FS.path * string) : Prop :=
  exists rel entries,
    In rel found
    /\ fst w = ((IGGenerator.home_dir ++ rel) ++ ["toc.yaml"])%list
    /\ snd w = yaml_dump entries
    /\ entries <> [].

(** The body of the loop over the resources of a type. *)
Definition write_page `{PyRuntime} (template resource_type : string)
    (resource : IGGenerator.info) : Run.M unit :=
  Run.bind (Run.of_option
              (IGGenerator.resource_page template resource_type resource))
    (fun content =>
       Run.effect (FS.write_text (type_page_path resource_type resource) content)).

(** The entries of a directory other than the one named [k]. *)
Definition other_name (k : string) (e : string * FS.node) : bool :=
  negb (fst e =? k).

(** The entry [name] of a directory, an empty directory when it has none,
    and the directory with the entry set. *)
Definition child_or_empty (name : string) (es : list (string * FS.node))
    : FS.node :=
  match assoc name es with Some c => c | None => FS.Dir [] end.

Definition put (name : string) (es : list (string * FS.node)) (c : FS.node)
    : FS.node :=
  FS.Dir (dict_set name c es).

(** A step that leaves a directory at the root when it finds one. *)
Definition keeps_dir {A : Type} (m : Run.M A) : Prop :=
  forall g, is_dir_node g = true -> is_dir_node (snd (m g)) = true.

(* ================================================================== *)
(** ** A small guide, for the examples *)
(* ================================================================== *)

Module Sample.

(** The files of the sample are named by their text: [json_load] and
    [yaml_load] read these few texts and raise on any other. *)
Definition sample_json (text : string) : option pyval :=
  if text =? "vs1" then
    Some (PDict [("resourceType", PStr "ValueSet"); ("id", PStr "my-vs");
                 ("url", PStr "http://example.org/vs")])
  else if text =? "vs2" then
    Some (PDict [("resourceType", PStr "ValueSet"); ("id", PStr "my-vs");
                 ("url", PStr "http://example.org/other")])
  else if text =? "no-id" then
    Some (PDict [("resourceType", PStr "ValueSet")])
  else if text =? "patient" then
    Some (PDict [("resourceType", PStr "Patient"); ("id", PStr "p1");
                 ("name", PList [PDict [("use", PStr "official")];
                                 PDict [("text", PStr "Bob")]])])
  else None.

Definition guide_config : list (string * pyval) :=
  [("title", PStr "My Guide"); ("url-key", PStr " my-guide ");
   ("style-name", PStr "custom"); ("id", PStr "my.guide");
   ("status", PStr "Active"); ("fhirVersion", PStr "4.0.1");
   ("canonical", PStr "http://example.org/fhir/");
   ("menu", PDict [("Home", PStr "index.md"); ("About", PStr "about.MD");
                   ("Docs", PBool true)])].

Definition sample_yaml (text : string) : string + pyval :=
  if text =? "guide" then inr (PDict guide_config)
  else if text =? "pending" then
    inr (PDict [("id", PStr "my.guide"); ("status", PStr "pending");
                ("fhirVersion", PStr "4.0.1");
                ("canonical", PStr "http://example.org/fhir")])
  else if text =? "lost-menu" then
    inr (PDict [("title", PStr "My Guide"); ("url-key", PStr "my-guide");
                ("style-name", PStr "custom");
                ("menu", PDict [("Missing", PStr "missing.md")])])
  else inl "cannot parse".

Definition sample_dump (entries : list toc_entry) : string :=
  String.concat ""
    (map (fun e => ("- name: " ++ toc_name e ++ nl ++ "  filename: "
                    ++ toc_filename e ++ nl)%string) entries).

Definition runtime : PyRuntime :=
  {| py_repr := fun _ => "?";
     json_load := sample_json;
     yaml_load := sample_yaml;
     yaml_dump := sample_dump |}.

Definition styles : FS.node :=
  FS.Dir [("custom", FS.Dir [("master.html", FS.File "");
                             ("settings.style", FS.File "");
                             ("style.css", FS.File "")])].

Definition two_value_sets : list (string * FS.node) :=
  [("b.json", FS.File "vs2"); ("a.json", FS.File "vs1")].

Definition input_with (resources : list (string * FS.node)) : FS.node :=
  FS.Dir
    [("guide.yaml", FS.File "guide");
     ("resources", FS.Dir resources);
     ("examples", FS.Dir [("p.json", FS.File "patient")]);
     ("pages", FS.Dir [("Index.md", FS.File "home"); ("about.MD", FS.File "about");
                       ("docs", FS.Dir [("my_page.md", FS.File "text");
                                        ("logo.png", FS.File "png")])]);
     ("styles", styles);
     ("pagetemplates-artifacts",
      FS.Dir [("valueset.md",
               FS.File "{{tree:{{ig-var: ValueSet.url }}}} {{ig-var:file-name}}");
              ("valueset.index.md", FS.File "index of value sets")])].

(** The guide: two value sets with one id, and a file without an id. *)
Definition input : FS.node :=
  input_with (two_value_sets ++ [("c.json", FS.File "no-id")]).

(** The entries of a directory of pages. *)
Definition directory : list (string * FS.node) :=
  [("zeta.page.md", FS.File ""); ("toc.yaml", FS.File "");
   ("Index.page.md", FS.File ""); ("beta", FS.Dir []);
   ("alpha.page.md", FS.File ""); ("notes.txt", FS.File "");
   ("_drafts", FS.Dir []); ("alpha", FS.Dir [])].

(** The same guide with a menu that names no page that exists. *)
Definition input_lost_menu : FS.node :=
  FS.Dir
    [("guide.yaml", FS.File "lost-menu");
     ("pages", FS.Dir [("index.md", FS.File "home")])].

End Sample.

(* ================================================================== *)
(** * Properties *)
(* ================================================================== *)

Local Open Scope string_scope.

(** ** Strings *)

Section StringFacts.

Lemma str_app_nil_r (s : string) : s ++ "" = s.
Proof. induction s as [|c s IH]; simpl; [reflexivity | now rewrite IH]. Qed.


Lemma str_length_app (a b : string) :
  String.length (a ++ b) = String.length a + String.length b.
Proof. induction a as [|x a IH]; simpl; [reflexivity | now rewrite IH]. Qed.

Lemma substring_0_app (a b : string) :
  String.substring 0 (String.length a) (a ++ b) = a.
Proof.
  induction a as [|x a IH]; simpl.
  - now destruct b.
  - now rewrite IH.
Qed.

Lemma upto_app (a b : string) : Re.upto (a ++ b) b = a.
Proof.
  unfold Re.upto. rewrite str_length_app.
  replace (String.length a + String.length b - String.length b)
    with (String.length a) by lia.
  apply substring_0_app.
Qed.

Lemma all_chars_app (p : ascii -> bool) (a b : string) :
  all_chars p (a ++ b) = all_chars p a && all_chars p b.
Proof.
  induction a as [|x a IH]; simpl; [reflexivity|].
  now rewrite IH, andb_assoc.
Qed.

End StringFacts.

(** ** The placeholder pattern *)

Section PlaceholderMatch.

Import Re.




Lemma tail_pat_closing rest :
  match_at tail_pat (closing ++ rest) =
    Some (Marks rest (closing ++ rest) rest).
Proof. reflexivity. Qed.





Lemma strip_one_space c :
  PyStr.isspace c = true -> PyStr.strip (String c "") = "".
Proof. intros H. unfold PyStr.strip. simpl. now rewrite H. Qed.


Lemma pattern_split :
  Template.pattern = (lits opening ++ Star PyStr.isspace :: group_pat)%list.
Proof. reflexivity. Qed.


Lemma no_match_other c s :
  Ascii.eqb c "{" = false -> match_at Template.pattern (String c s) = None.
Proof. intros H. cbn. now rewrite H. Qed.

End PlaceholderMatch.

(** ** [re.sub] over a template *)

Section Placeholders.

Import Re Template.

Lemma sub_go_skip pat repl (a s : string) :
  sub_go pat repl (String.length a) (a ++ s) = sub_go pat repl 0 s.
Proof. induction a as [|c a IH]; simpl; [reflexivity | exact IH]. Qed.

Lemma sub_go_match pat repl c r m :
  match_at pat (String c r) = Some m ->
  sub_go pat repl 0 (String c r) =
    match repl (group1 m) (group0 (String c r) m) with
    | Some out =>
        option_map (String.append out)
          (sub_go pat repl (String.length (group0 (String c r) m) - 1) r)
    | None => None
    end.
Proof. intros H. simpl. now rewrite H. Qed.

Lemma sub_go_no_match pat repl c r :
  match_at pat (String c r) = None ->
  sub_go pat repl 0 (String c r) = option_map (String c) (sub_go pat repl 0 r).
Proof. intros H. simpl. now rewrite H. Qed.

Lemma match_at_needs_prefix (p : string) pat s :
  PyStr.startswith p s = false -> match_at (lits p ++ pat)%list s = None.
Proof.
  revert s. induction p as [|a p IH]; intros s H; [discriminate|].
  destruct s as [|b s]; [reflexivity|].
  simpl in *. rewrite Ascii.eqb_sym.
  destruct (Ascii.eqb a b); [now apply IH | reflexivity].
Qed.




End Placeholders.



(** The no-break space U+00A0 and NEL U+0085 are blanks of the pattern and
    of [strip], as the blank is: the name between them is resolved. *)
Example placeholder_with_no_break_space :
  let nbsp := String (ascii_of_nat 160) "" in
  let nel := String (ascii_of_nat 133) "" in
  Template._resolve_template_variables
    ("{{ig-var:" ++ nbsp ++ "name" ++ nel ++ " }}") [("name", PStr "V")]
  = Some "V".
Proof. reflexivity. Qed.

(** ** The status of the guide (ig_resource.py) *)

Section Preflight.
Context `{PyRuntime}.
Import IGResourceGenerator.

Lemma mem_In (x : string) (l : list string) : mem x l = true <-> In x l.
Proof.
  unfold mem. rewrite existsb_exists. split.
  - intros [y [Hy E]]. apply String.eqb_eq in E. now subst.
  - intros Hx. exists x. split; [exact Hx | apply String.eqb_refl].
Qed.

Lemma present_not_blank (v : pyval) :
  truthy v && negb (PyStr.strip (str v) =? "") = negb (blank v).
Proof. unfold blank. now destruct (truthy v), (PyStr.strip (str v) =? ""). Qed.

Lemma lower_empty (s : string) : s = "" -> PyStr.lower s = "".
Proof. now intros ->. Qed.

(** A status whose normal form is one of the four values is not blank. *)
Lemma valid_status_not_blank (v : pyval) :
  truthy v = true ->
  In (PyStr.lower (PyStr.strip (str v))) valid_statuses ->
  blank v = false.
Proof.
  intros Ht Hin. unfold blank. rewrite Ht. cbn [negb orb].
  destruct (PyStr.strip (str v) =? "") eqn:E; [|reflexivity].
  apply String.eqb_eq in E. rewrite E in Hin.
  cbn in Hin. intuition discriminate.
Qed.

Lemma preflight_errors_status (config : list (string * pyval)) :
  truthy (dict_get config "status") = true ->
  blank (dict_get config "id") = false ->
  blank (dict_get config "fhirVersion") = false ->
  blank (dict_get config "canonical") = false ->
  let status_val := dict_get config "status" in
  let sv := PyStr.lower (PyStr.strip (str status_val)) in
  preflight_errors config =
    ((if blank status_val then [missing_field_message "status"] else [])
     ++ (if mem sv valid_statuses then [] else [invalid_status_message sv]))%list.
Proof.
  intros Ht Hid Hfv Hca. cbv zeta.
  unfold preflight_errors, required_fields. cbn [flat_map].
  rewrite Hid, Hfv, Hca, Ht.
  cbn [app]. rewrite app_nil_r.
  now destruct (mem _ valid_statuses); rewrite ?app_nil_r.
Qed.

Lemma truthy_get_nonempty (config : list (string * pyval)) (k : string) :
  truthy (dict_get config k) = true -> truthy (PDict config) = true.
Proof. now destruct config. Qed.

End Preflight.

Section StatusOfTheGuide.
Context `{PyRuntime}.
Import IGResourceGenerator.

(** What [load_fields] stores when the four required fields are present. *)
Lemma load_fields_present (config : list (string * pyval)) :
  blank (dict_get config "id") = false ->
  blank (dict_get config "status") = false ->
  blank (dict_get config "fhirVersion") = false ->
  blank (dict_get config "canonical") = false ->
  exists cfg,
    load_fields config = (cfg, [])
    /\ assoc "id" cfg = Some (PyStr.strip (str (dict_get config "id")))
    /\ assoc "status" cfg =
         Some (PyStr.lower (PyStr.strip (str (dict_get config "status"))))
    /\ assoc "fhirVersion" cfg =
         Some (PyStr.strip (str (dict_get config "fhirVersion")))
    /\ assoc "canonical" cfg =
         Some (PyStr.strip (str (dict_get config "canonical"))).
Proof.
  intros Hid Hst Hfv Hca.
  unfold load_fields, required_fields. cbn [fold_left fst snd].
  rewrite !present_not_blank, Hid, Hst, Hfv, Hca. cbn [negb].
  set (a := PyStr.strip (str (dict_get config "id"))).
  set (b := PyStr.strip (str (dict_get config "status"))).
  set (c := PyStr.strip (str (dict_get config "fhirVersion"))).
  set (d := PyStr.strip (str (dict_get config "canonical"))).
  cbn [dict_set String.eqb Ascii.eqb Bool.eqb assoc fst snd].
  destruct (negb (blank (dict_get config "version")));
    destruct (negb (blank (dict_get config "title")));
    cbn [dict_set String.eqb Ascii.eqb Bool.eqb assoc fst snd];
    eexists; (split; [reflexivity | repeat split; reflexivity]).
Qed.

Lemma status_in_document (cfg : list (string * string))
    (i s f c : string) resources root_page :
  assoc "id" cfg = Some i ->
  assoc "status" cfg = Some s ->
  assoc "fhirVersion" cfg = Some f ->
  assoc "canonical" cfg = Some c ->
  exists ig,
    _create_ig_resource_r4 cfg resources root_page = Some (PDict ig)
    /\ assoc "status" ig = Some (PStr s).
Proof.
  intros Hi Hs Hf Hc. unfold _create_ig_resource_r4.
  rewrite Hi, Hs, Hf, Hc. eexists. split; [reflexivity|].
  destruct (nonempty (assoc "version" cfg)), (nonempty (assoc "title" cfg));
    reflexivity.
Qed.

(** C5.  For a [guide.yaml] that loads as a mapping whose [status] is not
    empty and whose other three required fields are present: the pre-flight
    check passes exactly when the status, stripped and put in lower case,
    is one of draft, active, retired, unknown.  When it is not, the check
    fails and its errors hold the message that quotes this form of the
    value and lists the four valid ones.  When it is, the document that is
    written has this form of the value as its [status]. *)
Theorem preflight_status (text : string) (config : list (string * pyval))
    (resources : list resource_entry) (root_page : page_node) :
  yaml_load text = inr (PDict config) ->
  truthy (dict_get config "status") = true ->
  blank (dict_get config "id") = false ->
  blank (dict_get config "fhirVersion") = false ->
  blank (dict_get config "canonical") = false ->
  let sv := PyStr.lower (PyStr.strip (str (dict_get config "status"))) in
  let outcome := validate_guide_yaml_for_ig_resource (Some text) in
  (fst outcome = true <-> In sv valid_statuses)
  /\ (~ In sv valid_statuses ->
      In ("Invalid status value '" ++ sv
          ++ "'. Must be one of: draft, active, retired, unknown")
        (snd outcome))
  /\ (In sv valid_statuses ->
      exists ig,
        ig_document (Some text) resources root_page = Some (PDict ig)
        /\ assoc "status" ig = Some (PStr sv)).
Proof.
  intros Hload Ht Hid Hfv Hca sv outcome.
  assert (Hout : outcome =
            (is_nil (preflight_errors config), preflight_errors config)).
  { unfold outcome, validate_guide_yaml_for_ig_resource.
    now rewrite Hload, (truthy_get_nonempty _ _ Ht). }
  pose proof (preflight_errors_status config Ht Hid Hfv Hca) as Herr.
  cbv zeta in Herr. fold sv in Herr.
  rewrite Hout, Herr. cbn [fst snd].
  split; [|split].
  - split.
    + intros Hnil. apply mem_In.
      destruct (mem sv valid_statuses); [reflexivity|].
      now destruct (blank (dict_get config "status")).
    + intros Hin.
      rewrite (valid_status_not_blank _ Ht Hin).
      apply mem_In in Hin. now rewrite Hin.
  - intros Hnot.
    destruct (mem sv valid_statuses) eqn:Hm;
      [now apply mem_In in Hm|].
    apply in_or_app. right. now left.
  - intros Hin.
    pose proof (valid_status_not_blank _ Ht Hin) as Hst.
    destruct (load_fields_present config Hid Hst Hfv Hca)
      as [cfg [Hcfg [Hi [Hs [Hf Hc]]]]].
    unfold ig_document, _load_config.
    rewrite Hload, (truthy_get_nonempty _ _ Ht). cbn [negb].
    rewrite Hcfg.
    exact (status_in_document cfg _ _ _ _ resources root_page Hi Hs Hf Hc).
Qed.

End StatusOfTheGuide.

Lemma preflight_status_witness :
  fst (IGResourceGenerator.validate_guide_yaml_for_ig_resource
         (H := Sample.runtime) (Some "guide")) = true.
Proof.
  pose proof (preflight_status (H := Sample.runtime) "guide" Sample.guide_config
                [] (IGResourceGenerator.PageNode "Home" "Home" "generated" [])
                eq_refl eq_refl eq_refl eq_refl eq_refl) as [Hpass _].
  apply Hpass. vm_compute. tauto.
Defined.

(** A status that ends in the no-break space U+00A0 is stripped of it,
    and one in upper case with a letter of Latin-1 is put in lower case. *)
Example status_with_no_break_space :
  IGResourceGenerator.preflight_errors (H := Sample.runtime)
    [("id", PStr "g"); ("status", PStr ("Active" ++ String (ascii_of_nat 160) ""));
     ("fhirVersion", PStr "4.0.1"); ("canonical", PStr "http://example.org")]
  = []
  /\ PyStr.lower (String (ascii_of_nat 201) "TAT")
     = String (ascii_of_nat 233) "tat".
Proof. split; reflexivity. Qed.

(** ** Sorting *)

Section SortFacts.
Context {A : Type} (leb : A -> A -> bool).

Let le (a b : A) : Prop := leb a b = true.

Lemma insert_perm (x : A) (l : list A) :
  Permutation (x :: l) (Sort.insert leb x l).
Proof.
  induction l as [|y l IH]; cbn [Sort.insert]; [reflexivity|].
  destruct (leb x y); [reflexivity|].
  rewrite perm_swap. now apply perm_skip.
Qed.

Lemma sort_perm (l : list A) : Permutation l (Sort.sort leb l).
Proof.
  induction l as [|x l IH]; cbn; [reflexivity|].
  rewrite <- insert_perm. now apply perm_skip.
Qed.

Lemma sort_length (l : list A) : List.length (Sort.sort leb l) = List.length l.
Proof. symmetry. apply Permutation_length, sort_perm. Qed.

Lemma sort_in (x : A) (l : list A) : In x (Sort.sort leb l) <-> In x l.
Proof.
  split; apply Permutation_in; [symmetry|]; apply sort_perm.
Qed.

Hypothesis leb_total : forall a b, leb a b = true \/ leb b a = true.
Hypothesis leb_trans :
  forall a b c, leb a b = true -> leb b c = true -> leb a c = true.

Lemma insert_sorted (x : A) (l : list A) :
  StronglySorted le l -> StronglySorted le (Sort.insert leb x l).
Proof.
  induction 1 as [|y l Hl IH Hy]; cbn [Sort.insert].
  - constructor; constructor.
  - destruct (leb x y) eqn:E.
    + constructor; [now constructor|].
      constructor; [exact E|].
      eapply Forall_impl; [|exact Hy]. intros z Hz. now apply (leb_trans x y z).
    + constructor; [exact IH|].
      assert (Hyx : le y x) by (destruct (leb_total x y); [congruence | assumption]).
      apply (Permutation_Forall (insert_perm x l)).
      now constructor.
Qed.

Lemma sort_sorted (l : list A) : StronglySorted le (Sort.sort leb l).
Proof.
  induction l as [|x l IH]; cbn; [constructor | now apply insert_sorted].
Qed.

(** Leaving elements out and sorting commute. *)
Lemma filter_insert (p : A -> bool) (x : A) (l : list A) :
  StronglySorted le l ->
  filter p (Sort.insert leb x l) =
    if p x then Sort.insert leb x (filter p l) else filter p l.
Proof.
  induction 1 as [|y l Hl IH Hy]; cbn [Sort.insert filter].
  - now destruct (p x).
  - destruct (leb x y) eqn:E.
    + cbn [filter]. destruct (p x) eqn:Px; [|reflexivity].
      destruct (p y); cbn [Sort.insert]; [now rewrite E|].
      (* [y] is left out: [x] still comes before what is kept of [l] *)
      assert (Hx : Forall (le x) l).
      { eapply Forall_impl; [|exact Hy]. intros z Hz. now apply (leb_trans x y z). }
      clear - Hx. induction l as [|z l IHl]; cbn [filter]; [reflexivity|].
      inversion Hx as [|? ? Hz Hl']; subst.
      destruct (p z); cbn [Sort.insert]; [now rewrite Hz | now apply IHl].
    + cbn [filter]. rewrite IH.
      destruct (p x), (p y); cbn [Sort.insert]; try reflexivity.
      now rewrite E.
Qed.

Lemma filter_sort (p : A -> bool) (l : list A) :
  filter p (Sort.sort leb l) = Sort.sort leb (filter p l).
Proof.
  induction l as [|x l IH]; cbn [Sort.sort fold_right filter]; [reflexivity|].
  rewrite filter_insert by apply sort_sorted.
  fold (Sort.sort leb l). rewrite IH.
  now destruct (p x).
Qed.

End SortFacts.



(** ** The order of strings *)

Section StringOrder.

Lemma str_leb_spec (a b : string) :
  Sort.str_leb a b = true <-> a = b \/ PyStr.lt a b.
Proof.
  unfold Sort.str_leb, PyStr.lt.
  destruct (String_as_OT.compare_spec a b) as [E|L|G].
  - split; [now left | reflexivity].
  - split; [now right | reflexivity].
  - split; [discriminate|].
    intros [->|L].
    + now apply (StrictOrder_Irreflexive b) in G.
    + exfalso. apply (StrictOrder_Irreflexive a).
      now apply (StrictOrder_Transitive a b a).
Qed.

Lemma str_leb_total (a b : string) :
  Sort.str_leb a b = true \/ Sort.str_leb b a = true.
Proof.
  rewrite !str_leb_spec. unfold PyStr.lt.
  destruct (String_as_OT.compare_spec a b) as [E|L|G]; auto.
Qed.

Lemma str_leb_trans (a b c : string) :
  Sort.str_leb a b = true -> Sort.str_leb b c = true -> Sort.str_leb a c = true.
Proof.
  rewrite !str_leb_spec. unfold PyStr.lt.
  intros [->|Hab] [->|Hbc]; auto.
  right. now apply (StrictOrder_Transitive a b c).
Qed.

Lemma str_lt_irrefl (a : string) : ~ PyStr.lt a a.
Proof. apply (StrictOrder_Irreflexive a). Qed.


End StringOrder.

(** ** The order of a table of contents *)

Section TocOrder.
Import IGGenerator.














(** The filenames of a directory's table of contents. *)
Lemma toc_filenames (items : list (string * FS.node)) :
  map toc_filename (_generate_toc_for_directory items) =
    (Sort.sort file_leb (page_files items)
     ++ Sort.sort Sort.str_leb (visible_dirs items))%list.
Proof.
  unfold _generate_toc_for_directory.
  rewrite map_app, !map_map. cbn [toc_filename]. now rewrite !map_id.
Qed.

End TocOrder.




(** ** Display names *)

(** C2 (the code departs from the claim).  In the table of contents of a
    directory the page [my_page.page.md] is shown as [My_Page]: only the
    hyphens of the stem become blanks.  [format_title], which titles the
    same page in the resource document, gives [My Page]. *)
Theorem toc_display_keeps_underscores :
  IGGenerator._generate_toc_for_directory [("my_page.page.md", FS.File "")]
    = [TocEntry "My_Page" "my_page.page.md"]
  /\ Utils.format_title "my_page" = "My Page".
Proof. split; vm_compute; reflexivity. Qed.

(** C8 (the code departs from the claim).  For the list of names
    [[{"use": "official"}, {"text": "Bob"}]] and the id [p1], the first
    entry gives no name.  With "first list element wins", as the comment
    in [_extract_human_name] also has it ("pick the first entry"), the
    display name is the titled id [P1]; the loop goes on to the second
    entry and the display name is [Bob]. *)
Theorem extract_human_name_goes_past_first_entry :
  let names := PList [PDict [("use", PStr "official")];
                      PDict [("text", PStr "Bob")]] in
  IGResourceGenerator.resolve_name (H := Sample.runtime) names (PStr "p1")
    = Some "Bob"
  /\ Spec.resolve_name_first_entry (H := Sample.runtime) names (PStr "p1")
     = Some "P1"
  /\ IGResourceGenerator._extract_human_name (H := Sample.runtime) names
     <> Spec.human_name_first_entry (H := Sample.runtime)
          [PDict [("use", PStr "official")]; PDict [("text", PStr "Bob")]].
Proof. cbv zeta. repeat split. discriminate. Qed.

(** C3 (the code departs from the claim).  The page [pages/about.MD]
    becomes [Home/about.page.md], the page the menu value [about.MD]
    stands for.  The menu entry ends in [.md] when put in lower case, but
    [.md] is replaced in the value as written: the file looked for is
    [Home/about.MD], and the Home table of contents gets no entry. *)
Theorem menu_page_lookup_keeps_case :
  let input := FS.Dir [("pages", FS.Dir [("about.MD", FS.File "about")])] in
  let g := snd (IGGenerator._transform_pages input (FS.Dir [("Home", FS.Dir [])])) in
  PyStr.endswith ".md" (PyStr.lower "about.MD") = true
  /\ Spec.page_of_menu_value "about.MD" = "about.page.md"
  /\ file_at ["Home"; "about.page.md"] g = Some "about"
  /\ IGGenerator.menu_toc g [("About", PStr "about.MD")] = [].
Proof. repeat split. Qed.

(** ** Files that give no resource *)

Section SkippedFiles.
Context `{PyRuntime}.

Lemma by_name_total (a b : string * FS.node) :
  FS.by_name a b = true \/ FS.by_name b a = true.
Proof. apply str_leb_total. Qed.

Lemma by_name_trans (a b c : string * FS.node) :
  FS.by_name a b = true -> FS.by_name b c = true -> FS.by_name a c = true.
Proof. apply str_leb_trans. Qed.

Lemma flat_map_filter {A B : Type} (f : A -> list B) (keep : A -> bool)
    (l : list A) :
  (forall x, keep x = false -> f x = []) ->
  flat_map f (filter keep l) = flat_map f l.
Proof.
  intros Hk. induction l as [|x l IH]; cbn [filter flat_map]; [reflexivity|].
  destruct (keep x) eqn:E; cbn [flat_map]; rewrite IH; [reflexivity|].
  now rewrite (Hk x E).
Qed.

Lemma filter_without {A : Type} (p : A -> bool) (before after : list A) (x : A) :
  p x = false -> filter p (before ++ x :: after) = filter p (before ++ after).
Proof.
  intros Hx. rewrite !filter_app. cbn [filter]. now rewrite Hx.
Qed.

(** A loop over the sorted [*.json] files does not see a file for which
    its body does nothing. *)
Lemma sorted_loop_without {B : Type} (f : string * FS.node -> list B)
    (before after : list (string * FS.node)) (e : string * FS.node) :
  f e = [] ->
  flat_map f (Sort.sort FS.by_name (FS.glob_suffix ".json" (before ++ e :: after)))
  = flat_map f (Sort.sort FS.by_name (FS.glob_suffix ".json" (before ++ after))).
Proof.
  intros He.
  set (keep := fun x => negb (is_nil (f x))).
  assert (Hk : forall x, keep x = false -> f x = []).
  { intros x. unfold keep. now destruct (f x). }
  rewrite <- (flat_map_filter f keep _ Hk).
  rewrite <- (flat_map_filter f keep (Sort.sort _ (FS.glob_suffix _ (before ++ after))) Hk).
  rewrite !(filter_sort _ by_name_total by_name_trans).
  assert (Ke : keep e = false) by (unfold keep; now rewrite He).
  do 2 f_equal. unfold FS.glob_suffix.
  destruct (PyStr.endswith ".json" (fst e)) eqn:Ee.
  - rewrite !filter_app. cbn [filter]. rewrite Ee.
    cbn [filter]. now rewrite Ke.
  - now rewrite (filter_without _ before after e Ee).
Qed.

Lemma parse_fhir_resource_none (name : string) (item : FS.node) :
  gives_no_resource item = true ->
  IGGenerator._parse_fhir_resource name item = None.
Proof.
  unfold gives_no_resource, IGGenerator._parse_fhir_resource.
  destruct (negb _); [reflexivity|].
  destruct (FS.read item) as [text|]; [|reflexivity].
  destruct (json_load text) as [[| | | | |d]|]; try reflexivity.
  cbn [lacks_type_or_id]. now intros ->.
Qed.

Lemma parse_resource_file_none (item : FS.node) (is_example : bool) :
  gives_no_resource item = true ->
  IGResourceGenerator._parse_resource_file (FS.read item) is_example = None.
Proof.
  unfold gives_no_resource, IGResourceGenerator._parse_resource_file.
  destruct (FS.read item) as [text|]; [|reflexivity].
  destruct (json_load text) as [[| | | | |d]|]; try reflexivity.
  cbn [lacks_type_or_id IGResourceGenerator.entry_of_resource]. now intros ->.
Qed.

Lemma parsed_files_without before after name item :
  gives_no_resource item = true ->
  IGGenerator.parsed_files (before ++ (name, item) :: after)
  = IGGenerator.parsed_files (before ++ after).
Proof.
  intros Hs. unfold IGGenerator.parsed_files.
  apply sorted_loop_without. cbn [fst snd].
  now rewrite parse_fhir_resource_none.
Qed.

Lemma collect_from_without before after name item is_example :
  gives_no_resource item = true ->
  IGResourceGenerator.collect_from (before ++ (name, item) :: after) is_example
  = IGResourceGenerator.collect_from (before ++ after) is_example.
Proof.
  intros Hs. unfold IGResourceGenerator.collect_from.
  apply sorted_loop_without. cbn [fst snd].
  now rewrite parse_resource_file_none.
Qed.

End SkippedFiles.

(** ** Steps *)

Lemma bind_ext {A B : Type} (m : Run.M A) (k k' : A -> Run.M B) (g : FS.node) :
  (forall a g', k a g' = k' a g') -> Run.bind m k g = Run.bind m k' g.
Proof.
  intros Hk. unfold Run.bind. destruct (m g) as [[a|] g']; [apply Hk | reflexivity].
Qed.

(** ** Two inputs with the same resources give the same run *)

Section SameRun.
Context `{PyRuntime}.
Variables (input input' : FS.node) (dir : string).
Variables (es es' : list (string * FS.node)).
Hypothesis Hdir : dir = "resources" \/ dir = "examples".
Hypothesis Hes : FS.lookup [dir] input = Some (FS.Dir es).
Hypothesis Hes' : FS.lookup [dir] input' = Some (FS.Dir es').
Hypothesis Hparsed : IGGenerator.parsed_files es' = IGGenerator.parsed_files es.
Hypothesis Hother :
  forall other, other <> dir -> FS.lookup [other] input' = FS.lookup [other] input.

Lemma lookup_cons (x : string) (p : FS.path) (n : FS.node) :
  FS.lookup (x :: p) n =
    match FS.lookup [x] n with
    | Some c => FS.lookup p c
    | None => None
    end.
Proof.
  destruct n as [data|entries]; cbn [FS.lookup]; [reflexivity|].
  now destruct (assoc x entries).
Qed.

Ltac other_name :=
  let E := fresh in
  intro E; destruct Hdir as [D|D]; rewrite D in E; discriminate E.

Lemma lookup_other (x : string) (p : FS.path) :
  x <> dir -> FS.lookup (x :: p) input' = FS.lookup (x :: p) input.
Proof.
  intros Hx. rewrite (lookup_cons x p input'), (lookup_cons x p input).
  now rewrite (Hother x Hx).
Qed.

Lemma is_dir_other (x : string) (p : FS.path) :
  x <> dir -> FS.is_dir (x :: p) input' = FS.is_dir (x :: p) input.
Proof. intros Hx. unfold FS.is_dir. now rewrite lookup_other. Qed.

Lemma is_file_other (x : string) (p : FS.path) :
  x <> dir -> FS.is_file (x :: p) input' = FS.is_file (x :: p) input.
Proof. intros Hx. unfold FS.is_file. now rewrite lookup_other. Qed.

Lemma is_dir_there : FS.is_dir [dir] input' = FS.is_dir [dir] input.
Proof. unfold FS.is_dir. now rewrite Hes, Hes'. Qed.

Lemma required_folders_same :
  filter (fun f => negb (FS.is_dir [f] input'))
    IGInputValidator.REQUIRED_INPUT_FOLDERS
  = filter (fun f => negb (FS.is_dir [f] input))
      IGInputValidator.REQUIRED_INPUT_FOLDERS.
Proof.
  apply filter_ext_in. intros f Hf. f_equal.
  destruct (string_dec f dir) as [->|Hne];
    [apply is_dir_there | now apply is_dir_other].
Qed.

Lemma variables_load_same :
  IGInputValidator.variables_load input' = IGInputValidator.variables_load input.
Proof.
  unfold IGInputValidator.variables_load.
  now rewrite (Hother "variables.yaml") by other_name.
Qed.

Lemma validate_styles_same (config : list (string * pyval)) :
  IGInputValidator.validate_styles input' config
  = IGInputValidator.validate_styles input config.
Proof.
  unfold IGInputValidator.validate_styles, IGInputValidator.optional_folder_warnings.
  unfold FS.join. cbn [app].
  rewrite (is_dir_other "styles") by other_name.
  rewrite (Hother "pagetemplates") by other_name.
  destruct (negb (FS.is_dir _ input)); [reflexivity|].
  f_equal.
  set (custom_dir := FS.parts (PyStr.strip (str (dict_get config "style-name")))).
  assert (E : filter (fun f => negb (FS.is_file ("styles" :: custom_dir ++ [f])%list input'))
                IGInputValidator.REQUIRED_STYLE_FILES
              = filter (fun f => negb (FS.is_file ("styles" :: custom_dir ++ [f])%list input))
                IGInputValidator.REQUIRED_STYLE_FILES).
  { apply filter_ext. intros f. f_equal.
    apply is_file_other. other_name. }
  now rewrite E.
Qed.

Lemma validate_same :
  IGInputValidator.validate input' = IGInputValidator.validate input.
Proof.
  unfold IGInputValidator.validate. rewrite required_folders_same.
  rewrite (Hother "guide.yaml") by other_name.
  destruct (negb _); [reflexivity|].
  destruct (FS.lookup ["guide.yaml"] input) as [[text|]|]; try reflexivity.
  destruct (yaml_load text) as [e|config]; [reflexivity|].
  unfold IGInputValidator.validate_config.
  destruct (negb (truthy config)); [reflexivity|].
  destruct config as [| | | | |d]; try reflexivity.
  now rewrite variables_load_same, validate_styles_same.
Qed.

Lemma input_dir_other (x : string) :
  x <> dir -> IGGenerator.input_dir input' x = IGGenerator.input_dir input x.
Proof. intros Hx. unfold IGGenerator.input_dir. now rewrite (Hother x Hx). Qed.

Lemma input_dir_there :
  IGGenerator.input_dir input dir = Some es
  /\ IGGenerator.input_dir input' dir = Some es'.
Proof. unfold IGGenerator.input_dir. now rewrite Hes, Hes'. Qed.

Lemma load_guide_config_same :
  IGGenerator._load_guide_config input' = IGGenerator._load_guide_config input.
Proof.
  unfold IGGenerator._load_guide_config.
  now rewrite (Hother "guide.yaml") by other_name.
Qed.

Lemma load_variables_config_same :
  IGGenerator._load_variables_config input'
  = IGGenerator._load_variables_config input.
Proof.
  unfold IGGenerator._load_variables_config. now rewrite variables_load_same.
Qed.

Lemma load_templates_same :
  IGGenerator._load_templates input' = IGGenerator._load_templates input.
Proof.
  unfold IGGenerator._load_templates.
  now rewrite (input_dir_other "pagetemplates-artifacts") by other_name.
Qed.

Lemma copy_root_files_same :
  IGGenerator._copy_root_files input' = IGGenerator._copy_root_files input.
Proof.
  unfold IGGenerator._copy_root_files, IGGenerator.copy_file_if_present,
    IGGenerator.copy_tree_if_present.
  rewrite (Hother "guide.yaml") by other_name.
  rewrite (Hother "variables.yaml") by other_name.
  rewrite (Hother "styles") by other_name.
  now rewrite (Hother "images") by other_name.
Qed.

Lemma transform_pages_same :
  IGGenerator._transform_pages input' = IGGenerator._transform_pages input.
Proof.
  unfold IGGenerator._transform_pages.
  now rewrite (Hother "pages") by other_name.
Qed.

Lemma copy_pagetemplates_same :
  IGGenerator._copy_pagetemplates input' = IGGenerator._copy_pagetemplates input.
Proof.
  unfold IGGenerator._copy_pagetemplates, IGGenerator.copy_tree_if_present.
  now rewrite (Hother "pagetemplates") by other_name.
Qed.

Lemma copy_artifact_index_pages_same :
  IGGenerator._copy_artifact_index_pages input'
  = IGGenerator._copy_artifact_index_pages input.
Proof.
  unfold IGGenerator._copy_artifact_index_pages.
  now rewrite (input_dir_other "pagetemplates-artifacts") by other_name.
Qed.

Lemma generate_artifacts_same (templates : list (string * string)) :
  IGGenerator._generate_artifacts input' templates
  = IGGenerator._generate_artifacts input templates.
Proof.
  destruct input_dir_there as [Hi Hi'].
  unfold IGGenerator._generate_artifacts.
  destruct Hdir as [D|D]; rewrite D in Hi, Hi'.
  - rewrite Hi, Hi', Hparsed.
    rewrite (input_dir_other "examples"); [reflexivity|].
    rewrite D. discriminate.
  - rewrite Hi, Hi', Hparsed.
    rewrite (input_dir_other "resources"); [reflexivity|].
    rewrite D. discriminate.
Qed.

Lemma build_same guide_config templates name validation_warnings :
  IGGenerator.build input' guide_config templates name validation_warnings
  = IGGenerator.build input guide_config templates name validation_warnings.
Proof.
  unfold IGGenerator.build.
  now rewrite copy_root_files_same, transform_pages_same, copy_pagetemplates_same,
    generate_artifacts_same, copy_artifact_index_pages_same.
Qed.

Lemma generate_same (skip_validation : bool) (out : FS.node) :
  IGGenerator.generate input' skip_validation out
  = IGGenerator.generate input skip_validation out.
Proof.
  unfold IGGenerator.generate, IGGenerator.validation.
  rewrite validate_same, load_guide_config_same, load_variables_config_same,
    load_templates_same.
  apply bind_ext. intros validation_warnings out1.
  apply bind_ext. intros loaded out2.
  apply bind_ext. intros u out3.
  now rewrite build_same.
Qed.

End SameRun.

(** C4.  A file of [resources/] or [examples/] that cannot be read or
    parsed, or whose content lacks a [resourceType] or an [id], leaves no
    trace: the run on the input gives the same result (with the same
    [resource_count] and [example_count]) and the same output tree, page
    for page, as the run on the input without the file, and the resources
    collected for [definition.resource] are the same. *)
Theorem file_without_type_or_id_leaves_no_trace `{PyRuntime}
    (input input' : FS.node) (dir name : string) (item : FS.node)
    (before after : list (string * FS.node)) :
  dir = "resources" \/ dir = "examples" ->
  gives_no_resource item = true ->
  FS.lookup [dir] input = Some (FS.Dir (before ++ (name, item) :: after)) ->
  FS.lookup [dir] input' = Some (FS.Dir (before ++ after)) ->
  (forall other, other <> dir -> FS.lookup [other] input' = FS.lookup [other] input) ->
  (forall templates g,
      IGGenerator._generate_artifacts input templates g
      = IGGenerator._generate_artifacts input' templates g)
  /\ (forall skip_validation out,
        IGGenerator.generate input skip_validation out
        = IGGenerator.generate input' skip_validation out)
  /\ IGResourceGenerator._collect_resources input
     = IGResourceGenerator._collect_resources input'.
Proof.
  intros Hdir Hno Hes Hes' Hother.
  assert (Hparsed : IGGenerator.parsed_files (before ++ after)
                    = IGGenerator.parsed_files (before ++ (name, item) :: after))
    by (symmetry; now apply parsed_files_without).
  split; [|split].
  - intros templates g. symmetry.
    now rewrite (generate_artifacts_same input input' dir _ _ Hdir Hes Hes' Hparsed Hother).
  - intros skip_validation out. symmetry.
    exact (generate_same input input' dir _ _ Hdir Hes Hes' Hparsed Hother
             skip_validation out).
  - unfold IGResourceGenerator._collect_resources.
    destruct Hdir as [D|D]; rewrite D in *.
    + rewrite Hes, Hes', (Hother "examples") by discriminate.
      now rewrite collect_from_without.
    + rewrite Hes, Hes', (Hother "resources") by discriminate.
      now rewrite collect_from_without.
Qed.

Lemma file_without_type_or_id_leaves_no_trace_witness :
  IGResourceGenerator._collect_resources (H := Sample.runtime) Sample.input
  = IGResourceGenerator._collect_resources (H := Sample.runtime)
      (Sample.input_with Sample.two_value_sets).
Proof.
  refine (proj2 (proj2
    (file_without_type_or_id_leaves_no_trace (H := Sample.runtime)
       Sample.input (Sample.input_with Sample.two_value_sets)
       "resources" "c.json" (FS.File "no-id") Sample.two_value_sets []
       (or_introl eq_refl) eq_refl eq_refl _ _))).
  - now rewrite app_nil_r.
  - intros other Hne. unfold Sample.input, Sample.input_with.
    cbn [FS.lookup assoc].
    repeat match goal with
           | |- context [String.eqb ?k other] =>
               destruct (String.eqb_spec k other);
               [try reflexivity; try congruence|]
           end.
    reflexivity.
Defined.

(** ** Counting the tables of contents *)

Section TocCount.
Context `{PyRuntime}.
Import IGGenerator.

(** What one round of the loop over the subdirectories does: nothing, or
    one write of a table of contents that is counted. *)
Lemma toc_for_subdirectory_step (count : nat) (item : FS.path * FS.node)
    (g g1 : FS.node) (count1 : nat) :
  toc_for_subdirectory count item g = (Some count1, g1) ->
  (count1 = count /\ g1 = g)
  \/ (count1 = S count
      /\ exists entries,
           entries <> []
           /\ FS.write_text ((home_dir ++ fst item) ++ ["toc.yaml"])%list
                (yaml_dump entries) g = Some g1).
Proof.
  unfold toc_for_subdirectory.
  destruct (snd item) as [data|sub].
  - intros E. inversion E. now left.
  - destruct (last (fst item) "" =? "pagetemplates");
      [intros E; inversion E; now left|].
    destruct (is_subpath _ _); [intros E; inversion E; now left|].
    unfold Run.bind, Run.gets.
    destruct (_generate_toc_for_directory _) as [|e entries] eqn:Entries;
      [intros E; inversion E; now left|].
    unfold _write_toc_file, Run.effect.
    destruct (FS.write_text _ _ g) as [g2|] eqn:W; [|discriminate].
    cbn [Run.ret]. intros E. inversion E; subst. right. split; [reflexivity|].
    exists (e :: entries). split; [discriminate | exact W].
Qed.

Lemma toc_loop_counts (items : list (FS.path * FS.node)) :
  forall (count : nat) (g g' : FS.node) (n : nat),
    Run.fold toc_for_subdirectory items count g = (Some n, g') ->
    exists written,
      n = count + List.length written
      /\ write_all written g = Some g'
      /\ Forall (subdirectory_toc (map fst items)) written.
Proof.
  induction items as [|item items IH]; intros count g g' n.
  - cbn. intros E. inversion E; subst. exists [].
    split; [cbn; lia|]. split; [reflexivity | constructor].
  - cbn [Run.fold]. unfold Run.bind at 1.
    destruct (toc_for_subdirectory count item g) as [[count1|] g1] eqn:Step;
      [|discriminate].
    intros Hrest. destruct (IH _ _ _ _ Hrest) as [written [Hn [Hw Hall]]].
    assert (Hall' : Forall (subdirectory_toc (map fst (item :: items))) written).
    { eapply Forall_impl; [|exact Hall].
      intros w [rel [entries [Hin Hw']]]. exists rel, entries.
      split; [now right | exact Hw']. }
    apply toc_for_subdirectory_step in Step
      as [[-> ->] | [-> [entries [Hne Hwrite]]]].
    + exists written. now repeat split.
    + exists ((((home_dir ++ fst item) ++ ["toc.yaml"])%list, yaml_dump entries)
              :: written).
      split; [cbn [List.length]; lia|]. split.
      * cbn [write_all fst snd]. now rewrite Hwrite.
      * constructor; [|exact Hall'].
        exists (fst item), entries. repeat split; [now left | exact Hne].
Qed.


End TocCount.



(** ** Writing files *)

Section Writes.

Lemma assoc_dict_set_same {A : Type} (k : string) (v : A) (d : list (string * A)) :
  assoc k (dict_set k v d) = Some v.
Proof.
  induction d as [|[k' v'] d IH]; cbn [dict_set assoc].
  - now rewrite String.eqb_refl.
  - destruct (k' =? k) eqn:E; cbn [assoc]; rewrite ?E; [|exact IH].
    now rewrite String.eqb_refl.
Qed.

Lemma assoc_dict_set_other {A : Type} (k k' : string) (v : A)
    (d : list (string * A)) :
  k' <> k -> assoc k' (dict_set k v d) = assoc k' d.
Proof.
  intros Hne. induction d as [|[k0 v0] d IH]; cbn [dict_set assoc].
  - destruct (k =? k') eqn:E; [|reflexivity].
    apply String.eqb_eq in E. congruence.
  - destruct (k0 =? k) eqn:E; cbn [assoc].
    + apply String.eqb_eq in E. subst k0.
      destruct (k =? k') eqn:E'; [|reflexivity].
      apply String.eqb_eq in E'. congruence.
    + now rewrite IH.
Qed.

(** After a write the file written holds the text, and every other path
    holds the file it held. *)
Lemma file_at_write_text (q : FS.path) (data : string) :
  forall (p : FS.path) (n n' : FS.node),
    FS.write_text q data n = Some n' ->
    file_at p n' = if list_eq_dec string_dec q p then Some data else file_at p n.
Proof.
  induction q as [|name q IH]; intros p n n' Hw.
  - destruct n; discriminate.
  - destruct n as [old|entries]; [discriminate|].
    cbn [FS.write_text] in Hw.
    destruct q as [|name2 q].
    + (* the file is an entry of this directory *)
      destruct (assoc name entries) as [[old|sub]|] eqn:Hthere; try discriminate;
        (destruct (name =? "..")%string; [discriminate|]);
        inversion Hw; subst n'; clear Hw;
        (destruct p as [|x p]; [now destruct (list_eq_dec string_dec [name] [])|]);
        unfold file_at; cbn [FS.lookup];
        (destruct (string_dec x name) as [->|Hx];
         [ rewrite assoc_dict_set_same, Hthere;
           destruct p as [|y p];
           [ now destruct (list_eq_dec string_dec [name] [name])
           | destruct (list_eq_dec string_dec [name] (name :: y :: p));
             [discriminate | reflexivity] ]
         | rewrite assoc_dict_set_other by exact Hx;
           destruct (list_eq_dec string_dec [name] (x :: p)) as [E|_];
           [inversion E; congruence | reflexivity] ]).
    + (* the file is further down *)
      destruct (assoc name entries) as [child|] eqn:Hthere; [|discriminate].
      destruct (FS.write_text (name2 :: q) data child) as [child'|] eqn:Hchild;
        [|discriminate].
      inversion Hw; subst n'; clear Hw.
      destruct p as [|x p].
      * now destruct (list_eq_dec string_dec (name :: name2 :: q) []).
      * unfold file_at. cbn [FS.lookup].
        destruct (string_dec x name) as [->|Hx].
        -- rewrite assoc_dict_set_same, Hthere.
           pose proof (IH p child child' Hchild) as Hp. unfold file_at in Hp.
           rewrite Hp.
           destruct (list_eq_dec string_dec (name2 :: q) p) as [E|E];
             destruct (list_eq_dec string_dec (name :: name2 :: q) (name :: p))
               as [E'|E']; try reflexivity.
           ++ exfalso. apply E'. now rewrite E.
           ++ exfalso. apply E. now inversion E'.
        -- rewrite assoc_dict_set_other by exact Hx.
           destruct (list_eq_dec string_dec (name :: name2 :: q) (x :: p)) as [E|_];
             [inversion E; congruence | reflexivity].
Qed.

End Writes.

(** ** Pages of resources with one id *)

Section SameId.
Context `{PyRuntime}.
Import IGGenerator.

Lemma fold_app {A B : Type} (body : B -> A -> Run.M B) (l1 l2 : list A)
    (acc : B) (g : FS.node) :
  Run.fold body (l1 ++ l2)%list acc g =
    match Run.fold body l1 acc g with
    | (Some acc1, g1) => Run.fold body l2 acc1 g1
    | (None, g1) => (None, g1)
    end.
Proof.
  revert acc g. induction l1 as [|x l1 IH]; intros acc g; [reflexivity|].
  cbn [app Run.fold]. unfold Run.bind.
  destruct (body acc x g) as [[acc1|] g1]; [apply IH | reflexivity].
Qed.

Lemma list_sum_cons (a : nat) (l : list nat) : list_sum (a :: l) = a + list_sum l.
Proof. reflexivity. Qed.

Lemma count_dict_set (rt : string) (i : info) (acc : list (string * list info)) :
  count_resources
    (dict_set rt ((match assoc rt acc with Some l => l | None => [] end) ++ [i])%list acc)
  = S (count_resources acc).
Proof.
  unfold count_resources.
  induction acc as [|[k l] acc IH]; cbn [dict_set assoc map list_sum snd app List.length];
    [reflexivity|].
  destruct (k =? rt) eqn:E; cbn [map list_sum snd].
  - rewrite length_app, !list_sum_cons. cbn [List.length]. lia.
  - rewrite !list_sum_cons, IH. lia.
Qed.

(** Every record that is grouped is counted once. *)
Lemma group_by_type_counts (infos : list info) :
  forall acc by_type,
    group_by_type infos acc = Some by_type ->
    count_resources by_type = count_resources acc + List.length infos.
Proof.
  induction infos as [|i infos IH]; intros acc by_type; cbn [group_by_type].
  - intros E. inversion E. cbn. lia.
  - destruct (resourceType i) as [| | |rt| |]; try discriminate.
    intros Hg. rewrite (IH _ _ Hg), count_dict_set. cbn [List.length]. lia.
Qed.

Section OneType.
Variables (template resource_type : string).

Lemma write_page_step (r : info) (g g1 : FS.node) :
  write_page template resource_type r g = (Some tt, g1) ->
  exists content,
    resource_page template resource_type r = Some content
    /\ FS.write_text (type_page_path resource_type r) content g = Some g1.
Proof.
  unfold write_page, Run.bind, Run.of_option.
  destruct (resource_page template resource_type r) as [content|];
    [|discriminate].
  cbn [Run.ret]. unfold Run.effect.
  destruct (FS.write_text _ content g) as [g2|] eqn:W; [|discriminate].
  intros E. inversion E; subst. now exists content.
Qed.

Lemma pages_kept (p : FS.path) (l : list info) :
  forall g g',
    Run.for_each (write_page template resource_type) l g = (Some tt, g') ->
    Forall (fun r => type_page_path resource_type r <> p) l ->
    file_at p g' = file_at p g.
Proof.
  induction l as [|r l IH]; intros g g' Hrun Hother.
  - inversion Hrun. reflexivity.
  - unfold Run.for_each in Hrun. cbn [Run.fold] in Hrun.
    unfold Run.bind at 1 in Hrun.
    destruct (write_page template resource_type r g) as [[[]|] g1] eqn:Hr; [|discriminate].
    apply write_page_step in Hr as [content [_ Hw]].
    inversion Hother as [|? ? Hrp Hl]; subst.
    rewrite (IH g1 g' Hrun Hl), (file_at_write_text _ _ p _ _ Hw).
    now destruct (list_eq_dec string_dec (type_page_path resource_type r) p).
Qed.

(** The page that stays at a path is the page of the last resource written
    there. *)
Lemma page_of_last (earlier later : list info) (r : info) (g g' : FS.node) :
  Run.for_each (write_page template resource_type) (earlier ++ r :: later)%list g = (Some tt, g') ->
  Forall (fun r' => type_page_path resource_type r'
                    <> type_page_path resource_type r) later ->
  file_at (type_page_path resource_type r) g'
  = resource_page template resource_type r.
Proof.
  intros Hrun Hlater. unfold Run.for_each in Hrun.
  rewrite fold_app in Hrun.
  destruct (Run.fold _ earlier tt g) as [[[]|] g1]; [|discriminate].
  cbn [Run.fold] in Hrun. unfold Run.bind at 1 in Hrun.
  destruct (write_page template resource_type r g1) as [[[]|] g2] eqn:Hr; [|discriminate].
  apply write_page_step in Hr as [content [Hcontent Hw]].
  rewrite (pages_kept _ later g2 g' Hrun Hlater),
    (file_at_write_text _ _ _ _ _ Hw), Hcontent.
  now destruct (list_eq_dec string_dec _ _).
Qed.

End OneType.

End SameId.

Lemma write_type_pages_steps `{PyRuntime} (templates : list (string * string))
    (by_type : list (string * list IGGenerator.info)) (t : string)
    (resources : list IGGenerator.info) (g g' : FS.node) :
  assoc t by_type = Some resources ->
  IGGenerator.write_type_pages templates by_type t g = (Some tt, g') ->
  exists g1,
    FS.mkdir (FS.join IGGenerator.artifacts_dir (PyStr.lower t)) g = Some g1
    /\ Run.for_each (write_page (IGGenerator.template_for templates t) t)
         resources g1 = (Some tt, g').
Proof.
  intros Hres. unfold IGGenerator.write_type_pages. rewrite Hres.
  unfold Run.bind at 1, Run.effect at 1.
  destruct (FS.mkdir _ g) as [g1|]; [|discriminate].
  intros Hloop. exists g1. split; [reflexivity | exact Hloop].
Qed.

(** C9.  Every parsed resource is counted in [resource_count].  Two
    resources of one type with one id have one page path.  When the pages
    of a type have been written, the file at the path of a resource after
    which no resource with the same path comes holds its page: a later
    write replaces an earlier one, in the order of the sorted filenames.
    In the sample guide, where [a.json] and [b.json] hold value sets with
    the id [my-vs], [resource_count] is 2 and the one page
    [valueset/my-vs.page.md] is the page of [b.json]. *)
Theorem pages_of_one_id_overwrite `{PyRuntime} :
  (forall infos by_type,
      IGGenerator.group_by_type infos [] = Some by_type ->
      IGGenerator.count_resources by_type = List.length infos)
  /\ (forall t r1 r2,
        IGGenerator.id r1 = IGGenerator.id r2 ->
        type_page_path t r1 = type_page_path t r2)
  /\ (forall templates by_type t earlier r later g g',
        assoc t by_type = Some (earlier ++ r :: later)%list ->
        Forall (fun r' => type_page_path t r' <> type_page_path t r) later ->
        IGGenerator.write_type_pages templates by_type t g = (Some tt, g') ->
        file_at (type_page_path t r) g'
        = IGGenerator.resource_page (IGGenerator.template_for templates t) t r)
  /\ (let run := IGGenerator.generate (H := Sample.runtime) Sample.input false
                   (FS.Dir []) in
      let valueset := ["my-guide"; "Home"; "artifacts"; "valueset"] in
      option_map IGGenerator.resource_count (fst run) = Some 2
      /\ map fst (FS.iterdir valueset (snd run))
         = ["my-vs.page.md"; "index.page.md"; "toc.yaml"]
      /\ file_at (valueset ++ ["my-vs.page.md"])%list (snd run)
         = Some "{{tree:http://example.org/other}} my-vs").
Proof.
  split; [|split; [|split]].
  - intros infos by_type Hg.
    now rewrite (group_by_type_counts _ _ _ Hg).
  - intros t r1 r2 Hid. unfold type_page_path, IGGenerator.page_name.
    now rewrite Hid.
  - intros templates by_type t earlier r later g g' Hres Hlater Hrun.
    destruct (write_type_pages_steps _ _ _ _ _ _ Hres Hrun) as [g1 [_ Hloop]].
    exact (page_of_last _ _ earlier later r g1 g' Hloop Hlater).
  - vm_compute. repeat split.
Qed.

Lemma pages_of_one_id_overwrite_witness :
  IGGenerator.count_resources
    [("ValueSet",
      [IGGenerator.Info (PStr "ValueSet") (PStr "my-vs") "a" (PStr "");
       IGGenerator.Info (PStr "ValueSet") (PStr "my-vs") "b" (PStr "")])]
  = 2.
Proof.
  exact (proj1 (pages_of_one_id_overwrite (H := Sample.runtime))
           [IGGenerator.Info (PStr "ValueSet") (PStr "my-vs") "a" (PStr "");
            IGGenerator.Info (PStr "ValueSet") (PStr "my-vs") "b" (PStr "")]
           _ eq_refl).
Defined.

(** ** Setting up the output directory *)

Section Setup.
Context `{PyRuntime}.

Lemma setup_success (gp : FS.path) (out o : FS.node) :
  IGGenerator._setup_output_directory gp out = (Some tt, o)
  <-> setup_tree gp out = Some o.
Proof.
  unfold IGGenerator._setup_output_directory, setup_tree.
  unfold Run.bind, Run.gets, Run.effect, Run.ret.
  destruct (FS.exists_ gp out).
  - destruct (FS.rmtree gp out) as [removed|]; [|split; discriminate].
    destruct (FS.makedirs gp removed) as [made|]; [|split; discriminate].
    destruct (FS.mkdir _ made) as [o'|]; split; intros E; inversion E;
      reflexivity.
  - destruct (FS.makedirs gp out) as [made|]; [|split; discriminate].
    destruct (FS.mkdir _ made) as [o'|]; split; intros E; inversion E;
      reflexivity.
Qed.

Lemma dict_set_twice {A : Type} (k : string) (v1 v2 : A) (d : list (string * A)) :
  dict_set k v2 (dict_set k v1 d) = dict_set k v2 d.
Proof.
  induction d as [|[k' v'] d IH]; cbn [dict_set].
  - now rewrite String.eqb_refl.
  - destruct (k' =? k) eqn:E; cbn [dict_set]; rewrite ?E, ?String.eqb_refl;
      [reflexivity | now rewrite IH].
Qed.

Lemma dict_set_same {A : Type} (k : string) (v : A) (d : list (string * A)) :
  assoc k d = Some v -> dict_set k v d = d.
Proof.
  induction d as [|[k' v'] d IH]; cbn [dict_set assoc]; [discriminate|].
  destruct (k' =? k) eqn:E.
  - apply String.eqb_eq in E. intros E'. inversion E'. now subst.
  - intros Hd. now rewrite IH.
Qed.

Lemma assoc_without (k : string) (d : list (string * FS.node)) :
  assoc k (filter (other_name k) d) = None.
Proof.
  induction d as [|[k' v'] d IH]; cbn [filter]; [reflexivity|].
  unfold other_name at 1. cbn [fst].
  destruct (k' =? k) eqn:E; cbn [negb]; [exact IH|].
  cbn [assoc]. now rewrite E.
Qed.

Lemma filter_absent (k : string) (d : list (string * FS.node)) :
  assoc k d = None -> filter (other_name k) d = d.
Proof.
  induction d as [|[k' v'] d IH]; cbn [filter assoc]; [reflexivity|].
  unfold other_name at 1. cbn [fst].
  destruct (k' =? k); [discriminate|]. cbn [negb]. intros Hd. now rewrite IH.
Qed.

Lemma filter_dict_set (k : string) (v : FS.node) (d : list (string * FS.node)) :
  filter (other_name k) (dict_set k v d) = filter (other_name k) d.
Proof.
  assert (Hpair : forall k' x, other_name k (k', x) = negb (k' =? k))
    by reflexivity.
  induction d as [|[k' v'] d IH]; cbn [dict_set filter].
  - now rewrite Hpair, String.eqb_refl.
  - destruct (k' =? k) eqn:E; cbn [filter]; rewrite !Hpair, ?E, ?String.eqb_refl;
      cbn [negb]; [reflexivity | now rewrite IH].
Qed.

Lemma inside_cons (name : string) (rest : FS.path) :
  FS.inside (name :: rest) = negb (name =? "..") && FS.inside rest.
Proof.
  unfold FS.inside, mem. cbn [existsb]. rewrite (String.eqb_sym ".." name).
  now destruct (name =? "..").
Qed.

Lemma mkdir_under (name y : string) (rest : FS.path)
    (es : list (string * FS.node)) :
  FS.mkdir (name :: y :: rest) (FS.Dir es) =
    match assoc name es with
    | Some c => option_map (put name es) (FS.mkdir (y :: rest) c)
    | None => None
    end.
Proof. reflexivity. Qed.

Lemma mkdir_home_empty : FS.mkdir ["Home"] (FS.Dir []) = Some fresh_guide.
Proof. reflexivity. Qed.

Lemma setup_tree_file (gp : FS.path) (data : string) :
  setup_tree gp (FS.File data) = None.
Proof. now destruct gp. Qed.

Lemma setup_tree_nil (es : list (string * FS.node)) :
  setup_tree [] (FS.Dir es) = Some fresh_guide.
Proof. reflexivity. Qed.

Lemma setup_tree_one (name : string) (es : list (string * FS.node)) :
  setup_tree [name] (FS.Dir es) =
    if name =? ".." then None
    else
      match assoc name es with
      | Some (FS.File _) => None
      | _ => Some (put name (filter (other_name name) es) fresh_guide)
      end.
Proof.
  unfold setup_tree, FS.exists_. rewrite inside_cons.
  cbn [FS.lookup FS.inside mem existsb negb andb app].
  destruct (name =? "..") eqn:Edots.
  - cbn [negb andb]. destruct (assoc name es); cbn [FS.makedirs]; now rewrite Edots.
  - cbn [negb andb]. destruct (assoc name es) as [[data|sub]|] eqn:Hthere.
    + cbn [FS.rmtree]. now rewrite Hthere.
    + cbn [FS.rmtree]. rewrite Hthere.
      change (filter (fun e : string * FS.node => negb (fst e =? name)) es)
        with (filter (other_name name) es).
      cbn [FS.makedirs]. rewrite Edots, assoc_without.
      cbn [option_map]. rewrite mkdir_under, assoc_dict_set_same, mkdir_home_empty.
      cbn [option_map]. unfold put. now rewrite dict_set_twice.
    + cbn [FS.makedirs]. rewrite Edots, Hthere.
      cbn [option_map]. rewrite mkdir_under, assoc_dict_set_same, mkdir_home_empty.
      cbn [option_map]. unfold put.
      now rewrite dict_set_twice, (filter_absent _ _ Hthere).
Qed.

Lemma rmtree_under (name y : string) (rest : FS.path)
    (es : list (string * FS.node)) :
  FS.rmtree (name :: y :: rest) (FS.Dir es) =
    match assoc name es with
    | Some c => option_map (put name es) (FS.rmtree (y :: rest) c)
    | None => None
    end.
Proof. reflexivity. Qed.

Lemma makedirs_under (name : string) (rest : FS.path)
    (es : list (string * FS.node)) :
  FS.makedirs (name :: rest) (FS.Dir es) =
    if name =? ".." then None
    else option_map (put name es) (FS.makedirs rest (child_or_empty name es)).
Proof. reflexivity. Qed.

Lemma child_of_put (name : string) (es : list (string * FS.node)) (c : FS.node) :
  child_or_empty name (dict_set name c es) = c.
Proof. unfold child_or_empty. now rewrite assoc_dict_set_same. Qed.

(** The last two calls of the set-up, below a directory entry. *)
Lemma make_under (name y : string) (rest : FS.path)
    (es : list (string * FS.node)) :
  (name =? "..") = false ->
  match FS.makedirs (name :: y :: rest) (FS.Dir es) with
  | Some made => FS.mkdir ((name :: y :: rest) ++ ["Home"])%list made
  | None => None
  end
  = option_map (put name es)
      match FS.makedirs (y :: rest) (child_or_empty name es) with
      | Some made => FS.mkdir ((y :: rest) ++ ["Home"])%list made
      | None => None
      end.
Proof.
  intros Edots. rewrite makedirs_under, Edots.
  destruct (FS.makedirs (y :: rest) (child_or_empty name es)) as [made|];
    [|reflexivity].
  cbn [option_map]. unfold put at 1.
  change ((name :: y :: rest) ++ ["Home"])%list
    with (name :: y :: (rest ++ ["Home"]))%list.
  rewrite mkdir_under, assoc_dict_set_same.
  change (y :: rest ++ ["Home"])%list with ((y :: rest) ++ ["Home"])%list.
  destruct (FS.mkdir _ made) as [o|]; [|reflexivity].
  cbn [option_map]. unfold put. now rewrite dict_set_twice.
Qed.

Lemma setup_tree_step (name y : string) (rest : FS.path)
    (es : list (string * FS.node)) :
  setup_tree (name :: y :: rest) (FS.Dir es) =
    if name =? ".." then None
    else option_map (put name es) (setup_tree (y :: rest) (child_or_empty name es)).
Proof.
  unfold setup_tree at 1, FS.exists_. rewrite inside_cons.
  destruct (name =? "..") eqn:Edots.
  - cbn [negb andb]. destruct (FS.lookup _ _); rewrite makedirs_under; now rewrite Edots.
  - cbn [negb andb].
    rewrite (lookup_cons name (y :: rest)).
    assert (Hlook : FS.lookup [name] (FS.Dir es) = assoc name es).
    { cbn [FS.lookup]. now destruct (assoc name es). }
    rewrite Hlook.
    unfold setup_tree, FS.exists_.
    destruct (assoc name es) as [c|] eqn:Hthere.
    + assert (Hc : child_or_empty name es = c)
        by (unfold child_or_empty; now rewrite Hthere).
      rewrite Hc.
      destruct (FS.lookup (y :: rest) c) as [found|].
      * destruct (FS.inside (y :: rest)).
        -- rewrite rmtree_under, Hthere.
           destruct (FS.rmtree (y :: rest) c) as [removed|]; [|reflexivity].
           cbn [option_map]. unfold put at 1.
           rewrite (make_under name y rest _ Edots), child_of_put.
           destruct (match FS.makedirs (y :: rest) removed with
                     | Some made => _ | None => None end) as [o|]; [|reflexivity].
           cbn [option_map]. unfold put. now rewrite dict_set_twice.
        -- rewrite (make_under name y rest _ Edots). now rewrite Hc.
      * rewrite (make_under name y rest _ Edots). now rewrite Hc.
    + assert (Hc : child_or_empty name es = FS.Dir [])
        by (unfold child_or_empty; now rewrite Hthere).
      rewrite Hc. cbn [FS.lookup assoc].
      rewrite (make_under name y rest _ Edots). now rewrite Hc.
Qed.

Lemma graft_under (name : string) (rest : FS.path) (g : FS.node)
    (es : list (string * FS.node)) :
  FS.graft (name :: rest) g (FS.Dir es) =
    match assoc name es with
    | Some c => FS.Dir (dict_set name (FS.graft rest g c) es)
    | None => FS.Dir es
    end.
Proof. reflexivity. Qed.

(** After the set-up the guide's directory holds an empty [Home] and
    nothing else. *)
Lemma setup_tree_fresh (gp : FS.path) :
  forall out o1,
    setup_tree gp out = Some o1 -> FS.lookup gp o1 = Some fresh_guide.
Proof.
  induction gp as [|name rest IH]; intros out o1 Hs;
    (destruct out as [data|es]; [now rewrite setup_tree_file in Hs|]).
  - rewrite setup_tree_nil in Hs. now inversion Hs.
  - destruct rest as [|y rest].
    + rewrite setup_tree_one in Hs.
      destruct (name =? ".."); [discriminate|].
      assert (Ho : o1 = put name (filter (other_name name) es) fresh_guide)
        by (destruct (assoc name es) as [[?|?]|]; now inversion Hs).
      subst o1. unfold put. cbn [FS.lookup]. now rewrite assoc_dict_set_same.
    + rewrite setup_tree_step in Hs.
      destruct (name =? ".."); [discriminate|].
      destruct (setup_tree (y :: rest) (child_or_empty name es)) as [c1|] eqn:Hc;
        [|discriminate].
      inversion Hs; subst o1. unfold put.
      rewrite lookup_cons. cbn [FS.lookup]. rewrite assoc_dict_set_same.
      exact (IH _ _ Hc).
Qed.

(** Whatever directory a run has made of the guide's directory, the set-up
    of the next run leaves the same output root. *)
Lemma setup_tree_again (gp : FS.path) :
  forall out o1 g,
    setup_tree gp out = Some o1 ->
    is_dir_node g = true ->
    setup_tree gp (FS.graft gp g o1) = Some o1.
Proof.
  induction gp as [|name rest IH]; intros out o1 g Hs Hg;
    (destruct out as [data|es]; [now rewrite setup_tree_file in Hs|]).
  - rewrite setup_tree_nil in Hs. inversion Hs; subst o1.
    cbn [FS.graft]. now destruct g.
  - destruct rest as [|y rest].
    + rewrite setup_tree_one in Hs.
      destruct (name =? "..") eqn:Edots; [discriminate|].
      assert (Ho : o1 = put name (filter (other_name name) es) fresh_guide)
        by (destruct (assoc name es) as [[?|?]|]; now inversion Hs).
      subst o1. unfold put. cbn [FS.graft].
      rewrite assoc_dict_set_same, dict_set_twice.
      rewrite setup_tree_one, Edots, assoc_dict_set_same.
      destruct g as [data|sub]; [discriminate|].
      unfold put.
      now rewrite filter_dict_set, (filter_absent _ _ (assoc_without name es)).
    + rewrite setup_tree_step in Hs.
      destruct (name =? "..") eqn:Edots; [discriminate|].
      destruct (setup_tree (y :: rest) (child_or_empty name es)) as [c1|] eqn:Hc;
        [|discriminate].
      inversion Hs; subst o1. unfold put.
      rewrite graft_under, assoc_dict_set_same, dict_set_twice.
      rewrite setup_tree_step, Edots, child_of_put.
      rewrite (IH _ _ g Hc Hg). cbn [option_map]. unfold put.
      now rewrite dict_set_twice.
Qed.

End Setup.

(** ** The guide's directory stays a directory *)

Section KeepsDirectory.
Context `{PyRuntime}.

Ltac made_dir :=
  unfold option_map;
  repeat match goal with
         | |- context [match ?x with _ => _ end] => destruct x
         end;
  intros E; first [discriminate E | now inversion E].

Lemma write_text_dir p data n n' :
  FS.write_text p data n = Some n' -> is_dir_node n' = true.
Proof.
  destruct p as [|x [|y p]]; destruct n as [old|es]; cbn [FS.write_text];
    made_dir.
Qed.

Lemma mkdir_dir p n n' : FS.mkdir p n = Some n' -> is_dir_node n' = true.
Proof.
  destruct p as [|x [|y p]]; destruct n as [old|es]; cbn [FS.mkdir]; made_dir.
Qed.

Lemma makedirs_dir p n n' : FS.makedirs p n = Some n' -> is_dir_node n' = true.
Proof.
  destruct p as [|x p]; destruct n as [old|es]; cbn [FS.makedirs]; made_dir.
Qed.

Lemma copytree_dir tree p n n' :
  FS.copytree tree p n = Some n' -> is_dir_node n' = true.
Proof.
  destruct p as [|x [|y p]]; destruct n as [old|es]; cbn [FS.copytree];
    made_dir.
Qed.

Lemma copy2_dir src data p n n' :
  FS.copy2 src data p n = Some n' -> is_dir_node n' = true.
Proof. unfold FS.copy2. destruct (FS.is_dir p n); apply write_text_dir. Qed.

Lemma keeps_ret {A : Type} (a : A) : keeps_dir (Run.ret a).
Proof. intros g Hg. exact Hg. Qed.

Lemma keeps_raise {A : Type} : keeps_dir (@Run.raise A).
Proof. intros g Hg. exact Hg. Qed.

Lemma keeps_gets {A : Type} (f : FS.node -> A) : keeps_dir (Run.gets f).
Proof. intros g Hg. exact Hg. Qed.

Lemma keeps_of_option {A : Type} (o : option A) : keeps_dir (Run.of_option o).
Proof. intros g Hg. now destruct o. Qed.

Lemma keeps_effect (f : FS.node -> option FS.node) :
  (forall n n', f n = Some n' -> is_dir_node n' = true) ->
  keeps_dir (Run.effect f).
Proof.
  intros Hf g Hg. unfold Run.effect.
  destruct (f g) as [g'|] eqn:E; [exact (Hf _ _ E) | exact Hg].
Qed.

Lemma keeps_bind {A B : Type} (m : Run.M A) (k : A -> Run.M B) :
  keeps_dir m -> (forall a, keeps_dir (k a)) -> keeps_dir (Run.bind m k).
Proof.
  intros Hm Hk g Hg. unfold Run.bind.
  pose proof (Hm g Hg) as Hg1.
  destruct (m g) as [[a|] g1]; [now apply Hk | exact Hg1].
Qed.

Lemma keeps_fold {A B : Type} (body : B -> A -> Run.M B) (l : list A) :
  (forall b a, keeps_dir (body b a)) ->
  forall acc, keeps_dir (Run.fold body l acc).
Proof.
  intros Hb. induction l as [|x l IH]; intros acc; cbn [Run.fold].
  - apply keeps_ret.
  - apply keeps_bind; [apply Hb | exact IH].
Qed.

Lemma keeps_for_each {A : Type} (body : A -> Run.M unit) (l : list A) :
  (forall a, keeps_dir (body a)) -> keeps_dir (Run.for_each body l).
Proof. intros Hb. unfold Run.for_each. apply keeps_fold. intros _. exact Hb. Qed.

Ltac keeps :=
  repeat first
    [ apply keeps_ret | apply keeps_raise | apply keeps_gets
    | apply keeps_of_option
    | apply keeps_bind; [|intros ?]
    | apply keeps_for_each; intros ?
    | apply keeps_fold; intros ? ?
    | apply keeps_effect; intros ? ?;
      first [ apply write_text_dir | apply mkdir_dir | apply makedirs_dir
            | apply copytree_dir | apply copy2_dir ]
    | match goal with
      | |- keeps_dir (match ?x with _ => _ end) => destruct x
      end ].

Import IGGenerator.

Lemma keeps_copy_root_files input : keeps_dir (_copy_root_files input).
Proof.
  unfold _copy_root_files, copy_file_if_present, copy_tree_if_present. keeps.
Qed.

Lemma keeps_transform_pages input : keeps_dir (_transform_pages input).
Proof. unfold _transform_pages. keeps. Qed.

Lemma keeps_copy_pagetemplates input : keeps_dir (_copy_pagetemplates input).
Proof. unfold _copy_pagetemplates, copy_tree_if_present. keeps. Qed.

Lemma keeps_generate_artifacts input templates :
  keeps_dir (_generate_artifacts input templates).
Proof.
  unfold _generate_artifacts, write_type_pages, write_example_page. keeps.
Qed.

Lemma keeps_copy_artifact_index_pages input :
  keeps_dir (_copy_artifact_index_pages input).
Proof. unfold _copy_artifact_index_pages. keeps. Qed.

Lemma keeps_generate_toc_files guide_config :
  keeps_dir (_generate_toc_files guide_config).
Proof.
  unfold _generate_toc_files, _generate_home_toc, toc_for_subdirectory,
    _write_toc_file.
  keeps.
Qed.

Lemma keeps_generate_artifacts_toc by_type examples_list index_pages :
  keeps_dir (_generate_artifacts_toc by_type examples_list index_pages).
Proof.
  unfold _generate_artifacts_toc, write_type_toc, _write_toc_file. keeps.
Qed.

Lemma keeps_build input guide_config templates name validation_warnings :
  keeps_dir (build input guide_config templates name validation_warnings).
Proof.
  unfold build.
  apply keeps_bind; [apply keeps_copy_root_files | intros _].
  apply keeps_bind; [apply keeps_transform_pages | intros pages].
  apply keeps_bind; [apply keeps_copy_pagetemplates | intros _].
  apply keeps_bind; [apply keeps_generate_artifacts | intros artifacts].
  apply keeps_bind; [apply keeps_copy_artifact_index_pages | intros index_pages].
  apply keeps_bind; [apply keeps_generate_toc_files | intros tocs].
  apply keeps_bind; [apply keeps_generate_artifacts_toc | intros _].
  apply keeps_ret.
Qed.

End KeepsDirectory.

(** ** Running twice *)

Lemma bind_of_option {A B : Type} (o : option A) (k : A -> Run.M B) (g : FS.node) :
  Run.bind (Run.of_option o) k g =
    match o with
    | Some a => k a g
    | None => (None, g)
    end.
Proof. now destruct o. Qed.

(** C7.  When a run of [generate] on an output root succeeds, a second run
    with the same input on the output root it left succeeds with the same
    result and leaves the same tree: the guide's directory is removed and
    made again, and everything in it is made from the input. *)
Theorem generate_twice `{PyRuntime} (input : FS.node) (skip_validation : bool)
    (out out1 : FS.node) (result : IGGenerator.generation_result) :
  IGGenerator.generate input skip_validation out = (Some result, out1) ->
  IGGenerator.generate input skip_validation out1 = (Some result, out1).
Proof.
  unfold IGGenerator.generate. rewrite !bind_of_option.
  destruct (IGGenerator.validation input skip_validation)
    as [validation_warnings|]; [|discriminate].
  rewrite !bind_of_option.
  destruct (IGGenerator._load_guide_config input) as [loaded|]; [|discriminate].
  rewrite !bind_of_option.
  destruct (IGGenerator._load_variables_config input) as [[]|]; [|discriminate].
  set (gp := FS.parts (snd loaded)).
  set (steps := IGGenerator.build input (fst loaded)
                  (IGGenerator._load_templates input) (snd loaded)
                  validation_warnings).
  unfold Run.bind.
  destruct (IGGenerator._setup_output_directory gp out) as [[[]|] o1] eqn:Hsetup;
    [|discriminate].
  apply setup_success in Hsetup.
  unfold IGGenerator.at_path at 1.
  rewrite (setup_tree_fresh gp out o1 Hsetup).
  destruct (steps fresh_guide) as [r g'] eqn:Hsteps.
  intros Hrun. inversion Hrun; subst r out1; clear Hrun.
  assert (Hdir : is_dir_node g' = true).
  { pose proof (keeps_build input (fst loaded) (IGGenerator._load_templates input)
                  (snd loaded) validation_warnings fresh_guide eq_refl) as Hk.
    fold steps in Hk. now rewrite Hsteps in Hk. }
  pose proof (setup_tree_again gp out o1 g' Hsetup Hdir) as Hagain.
  apply setup_success in Hagain. rewrite Hagain.
  unfold IGGenerator.at_path.
  now rewrite (setup_tree_fresh gp out o1 Hsetup), Hsteps.
Qed.

Lemma generate_twice_witness :
  exists result out1,
    IGGenerator.generate (H := Sample.runtime) Sample.input false
      (FS.Dir [("my-guide", FS.Dir [("stale.txt", FS.File "old")])])
    = (Some result, out1)
    /\ IGGenerator.generate (H := Sample.runtime) Sample.input false out1
       = (Some result, out1).
Proof.
  destruct (IGGenerator.generate (H := Sample.runtime) Sample.input false
              (FS.Dir [("my-guide", FS.Dir [("stale.txt", FS.File "old")])]))
    as [[result|] out1] eqn:Hrun.
  - exists result, out1. split; [reflexivity|].
    exact (generate_twice (H := Sample.runtime) Sample.input false _ out1 result Hrun).
  - vm_compute in Hrun. discriminate Hrun.
Defined.

(* ================================================================== *)
(** * Further properties of the code *)
(* ================================================================== *)

(** ** Characters and their case *)

Section CaseOfCharacters.

Ltac each_char c := destruct c as [[] [] [] [] [] [] [] []].

Lemma tolower_twice (c : ascii) :
  PyStr.tolower (PyStr.tolower c) = PyStr.tolower c.
Proof. each_char c; reflexivity. Qed.

Lemma toupper_twice (c : ascii) :
  PyStr.toupper (PyStr.toupper c) = PyStr.toupper c.
Proof. each_char c; reflexivity. Qed.

Lemma tolower_toupper (c : ascii) :
  PyStr.tolower (PyStr.toupper c) = PyStr.tolower c.
Proof. each_char c; reflexivity. Qed.

Lemma iscased_tolower (c : ascii) :
  PyStr.iscased (PyStr.tolower c) = PyStr.iscased c.
Proof. each_char c; reflexivity. Qed.

Lemma iscased_toupper (c : ascii) :
  PyStr.iscased (PyStr.toupper c) = PyStr.iscased c.
Proof. each_char c; reflexivity. Qed.

Lemma plain_cases (x : ascii) :
  plain x = true -> x = "-"%char \/ x = "_"%char \/ x = " "%char.
Proof.
  unfold plain. intros Hx.
  apply orb_true_iff in Hx as [Hx|Hx]; [apply orb_true_iff in Hx as [Hx|Hx]|];
    apply Ascii.eqb_eq in Hx; tauto.
Qed.

(** A hyphen, an underscore and a blank are what they were before a change
    of case, and no change of case makes one. *)
Lemma eqb_tolower (x c : ascii) :
  plain x = true -> Ascii.eqb (PyStr.tolower c) x = Ascii.eqb c x.
Proof.
  intros Hx. destruct (plain_cases x Hx) as [->|[->| ->]];
    each_char c; reflexivity.
Qed.

Lemma has_char_totitle (x c : ascii) :
  plain x = true -> has_char x (PyStr.totitle c) = Ascii.eqb c x.
Proof.
  intros Hx. destruct (plain_cases x Hx) as [->|[->| ->]];
    each_char c; reflexivity.
Qed.

(** The ASCII characters. *)
Lemma totitle_ascii (c : ascii) :
  (PyStr.code c <? 128)%nat = true ->
  PyStr.totitle c = String (PyStr.toupper c) "".
Proof. each_char c; intros Hc; try discriminate Hc; reflexivity. Qed.

Lemma toupper_ascii (c : ascii) :
  (PyStr.code c <? 128)%nat = true ->
  (PyStr.code (PyStr.toupper c) <? 128)%nat = true.
Proof. each_char c; intros Hc; try discriminate Hc; reflexivity. Qed.

Lemma tolower_ascii (c : ascii) :
  (PyStr.code c <? 128)%nat = true ->
  (PyStr.code (PyStr.tolower c) <? 128)%nat = true.
Proof. each_char c; intros Hc; try discriminate Hc; reflexivity. Qed.

End CaseOfCharacters.

(** ** Strings *)

Section MoreStringFacts.

Lemma map_chars_length (f : ascii -> ascii) (s : string) :
  String.length (PyStr.map_chars f s) = String.length s.
Proof. induction s as [|c s IH]; simpl; [reflexivity | now rewrite IH]. Qed.

Lemma has_char_app (x : ascii) (a b : string) :
  has_char x (a ++ b) = has_char x a || has_char x b.
Proof.
  induction a as [|c a IH]; [reflexivity|].
  cbn [String.append has_char]. now rewrite IH, orb_assoc.
Qed.

Lemma title_go_has_char (x : ascii) (b : bool) (s : string) :
  plain x = true -> has_char x (PyStr.title_go b s) = has_char x s.
Proof.
  intros Hx. revert b. induction s as [|c s IH]; intros b; [reflexivity|].
  cbn [PyStr.title_go]. rewrite has_char_app, IH. cbn [has_char]. f_equal.
  destruct b.
  - cbn [has_char]. now rewrite orb_false_r, eqb_tolower.
  - now apply has_char_totitle.
Qed.

Lemma lower_has_char (x : ascii) (s : string) :
  plain x = true -> has_char x (PyStr.lower s) = has_char x s.
Proof.
  intros Hx. unfold PyStr.lower.
  induction s as [|c s IH]; simpl; [reflexivity|].
  now rewrite IH, eqb_tolower.
Qed.

(** Replacing one character by another changes the characters one by one. *)
Lemma replace_char (a b : ascii) (s : string) :
  PyStr.replace (String a "") (String b "") s
  = PyStr.map_chars (fun c => if Ascii.eqb a c then b else c) s.
Proof.
  unfold PyStr.replace. induction s as [|c s IH]; [reflexivity|].
  cbn [PyStr.replace_go PyStr.startswith PyStr.map_chars String.length Nat.sub].
  rewrite andb_true_r. destruct (Ascii.eqb a c); cbn; now rewrite IH.
Qed.

Lemma replace_char_has_char (a b x : ascii) (s : string) :
  Ascii.eqb b x = false ->
  has_char x (PyStr.replace (String a "") (String b "") s)
  = negb (Ascii.eqb a x) && has_char x s.
Proof.
  intros Hb. rewrite replace_char.
  induction s as [|c s IH]; simpl; [now rewrite andb_false_r|].
  rewrite IH. destruct (Ascii.eqb a c) eqn:Eac.
  - apply Ascii.eqb_eq in Eac. subst c. rewrite Hb.
    now destruct (Ascii.eqb a x).
  - destruct (Ascii.eqb c x) eqn:Ecx; [|reflexivity].
    apply Ascii.eqb_eq in Ecx. subst c. now rewrite Eac.
Qed.

Lemma replace_char_absent (a b : ascii) (s : string) :
  has_char a s = false -> PyStr.replace (String a "") (String b "") s = s.
Proof.
  rewrite replace_char. induction s as [|c s IH]; simpl; [reflexivity|].
  intros Hs. apply orb_false_iff in Hs as [Hc Hs].
  rewrite Ascii.eqb_sym, Hc. now rewrite IH.
Qed.

Lemma replace_char_length (a b : ascii) (s : string) :
  String.length (PyStr.replace (String a "") (String b "") s) = String.length s.
Proof. rewrite replace_char. apply map_chars_length. Qed.

Lemma replace_char_ascii (a b : ascii) (s : string) :
  (PyStr.code b <? 128)%nat = true ->
  is_ascii s = true ->
  is_ascii (PyStr.replace (String a "") (String b "") s) = true.
Proof.
  intros Hb. rewrite replace_char. unfold is_ascii.
  induction s as [|c s IH]; [reflexivity|].
  cbn [all_chars PyStr.map_chars]. intros Hs.
  apply andb_true_iff in Hs as [Hc Hs]. rewrite (IH Hs), andb_true_r.
  now destruct (Ascii.eqb a c).
Qed.

(** The title of an ASCII text, character by character. *)
Lemma title_go_ascii (b : bool) (c : ascii) (s : string) :
  (PyStr.code c <? 128)%nat = true ->
  PyStr.title_go b (String c s)
  = String (if b then PyStr.tolower c else PyStr.toupper c)
      (PyStr.title_go (PyStr.iscased c) s).
Proof.
  intros Hc. cbn [PyStr.title_go]. destruct b; [reflexivity|].
  now rewrite (totitle_ascii c Hc).
Qed.

Lemma title_go_length (b : bool) (s : string) :
  is_ascii s = true ->
  String.length (PyStr.title_go b s) = String.length s.
Proof.
  revert b. unfold is_ascii.
  induction s as [|c s IH]; intros b Hs; [reflexivity|].
  cbn [all_chars] in Hs. apply andb_true_iff in Hs as [Hc Hs].
  rewrite (title_go_ascii b c s Hc). cbn [String.length]. now rewrite IH.
Qed.

Lemma title_go_is_ascii (b : bool) (s : string) :
  is_ascii s = true -> is_ascii (PyStr.title_go b s) = true.
Proof.
  revert b. unfold is_ascii.
  induction s as [|c s IH]; intros b Hs; [reflexivity|].
  cbn [all_chars] in Hs. apply andb_true_iff in Hs as [Hc Hs].
  rewrite (title_go_ascii b c s Hc). cbn [all_chars]. rewrite (IH _ Hs).
  rewrite andb_true_r. destruct b; [now apply tolower_ascii | now apply toupper_ascii].
Qed.

(** An ASCII text is titled once and for all. *)
Lemma title_go_twice (b : bool) (s : string) :
  is_ascii s = true ->
  PyStr.title_go b (PyStr.title_go b s) = PyStr.title_go b s.
Proof.
  revert b. unfold is_ascii.
  induction s as [|c s IH]; intros b Hs; [reflexivity|].
  cbn [all_chars] in Hs. apply andb_true_iff in Hs as [Hc Hs].
  rewrite (title_go_ascii b c s Hc).
  assert (Hc' : (PyStr.code (if b then PyStr.tolower c else PyStr.toupper c)
                 <? 128)%nat = true)
    by (destruct b; [now apply tolower_ascii | now apply toupper_ascii]).
  rewrite (title_go_ascii b _ _ Hc').
  assert (Hcased : PyStr.iscased (if b then PyStr.tolower c else PyStr.toupper c)
                   = PyStr.iscased c)
    by (destruct b; [apply iscased_tolower | apply iscased_toupper]).
  rewrite Hcased, (IH _ Hs). f_equal.
  destruct b; [apply tolower_twice | apply toupper_twice].
Qed.

Lemma lower_title_go (b : bool) (s : string) :
  is_ascii s = true -> PyStr.lower (PyStr.title_go b s) = PyStr.lower s.
Proof.
  revert b. unfold PyStr.lower, is_ascii.
  induction s as [|c s IH]; intros b Hs; [reflexivity|].
  cbn [all_chars] in Hs. apply andb_true_iff in Hs as [Hc Hs].
  rewrite (title_go_ascii b c s Hc). cbn [PyStr.map_chars].
  rewrite (IH _ Hs). f_equal.
  destruct b; [apply tolower_twice | apply tolower_toupper].
Qed.

End MoreStringFacts.

(** ** Titles *)

Section Titles.

Lemma replace_char_has_new (a b : ascii) (s : string) :
  has_char b (PyStr.replace (String a "") (String b "") s)
  = has_char a s || has_char b s.
Proof.
  rewrite replace_char. induction s as [|c s IH]; simpl; [reflexivity|].
  rewrite IH. destruct (Ascii.eqb a c) eqn:Eac.
  - rewrite Ascii.eqb_refl. rewrite Ascii.eqb_sym, Eac. reflexivity.
  - rewrite (Ascii.eqb_sym c a), Eac. cbn [orb].
    destruct (Ascii.eqb c b); [now rewrite !orb_true_r|reflexivity].
Qed.

(** The text [format_title] puts in title case. *)
Lemma spaced_without_blank (name : string) :
  has_char " " (PyStr.replace "_" " " (PyStr.replace "-" " " name)) = false ->
  PyStr.replace "_" " " (PyStr.replace "-" " " name) = name.
Proof.
  intros Hx. rewrite replace_char_has_new in Hx.
  apply orb_false_iff in Hx as [Hu Hb].
  rewrite replace_char_has_new in Hb. apply orb_false_iff in Hb as [Hh _].
  rewrite (replace_char_absent "_" " " _ Hu).
  now apply replace_char_absent.
Qed.

Lemma title_without_hyphen (name : string) :
  has_char "-" (Utils.format_title name) = false
  /\ has_char "_" (Utils.format_title name) = false.
Proof.
  unfold Utils.format_title.
  destruct (name =? "") eqn:En.
  - apply String.eqb_eq in En. now subst name.
  - destruct (PyStr.lower name =? "index"); [now split|].
    unfold PyStr.title. split.
    + rewrite title_go_has_char by reflexivity.
      rewrite replace_char_has_char by reflexivity.
      rewrite replace_char_has_char by reflexivity.
      now rewrite Ascii.eqb_refl, andb_false_r.
    + rewrite title_go_has_char by reflexivity.
      rewrite replace_char_has_char by reflexivity.
      now rewrite Ascii.eqb_refl.
Qed.

End Titles.

(** X1.  [format_title] keeps the length of a name of ASCII characters;
    and the title of any name holds neither a hyphen nor an underscore. *)
Theorem format_title_shape (name : string) :
  (is_ascii name = true ->
   String.length (Utils.format_title name) = String.length name)
  /\ has_char "-" (Utils.format_title name) = false
  /\ has_char "_" (Utils.format_title name) = false.
Proof.
  split; [|apply title_without_hyphen].
  intros Hascii. unfold Utils.format_title.
  destruct (name =? "") eqn:En; [reflexivity|].
  destruct (PyStr.lower name =? "index") eqn:Ei.
  - apply String.eqb_eq in Ei.
    rewrite <- (map_chars_length PyStr.tolower name).
    fold (PyStr.lower name). now rewrite Ei.
  - unfold PyStr.title. rewrite title_go_length.
    + now rewrite !replace_char_length.
    + now repeat apply replace_char_ascii.
Qed.

Lemma format_title_shape_witness :
  String.length (Utils.format_title "getting-started_now") = 19.
Proof.
  exact (proj1 (format_title_shape "getting-started_now") eq_refl).
Defined.

(** X2.  The title of a name of ASCII characters is its own title:
    [format_title] changes nothing in a text it has made of one. *)
Theorem format_title_idempotent (name : string) :
  is_ascii name = true ->
  Utils.format_title (Utils.format_title name) = Utils.format_title name.
Proof.
  intros Hascii.
  destruct (title_without_hyphen name) as [Hh Hu].
  unfold Utils.format_title in *.
  destruct (name =? "") eqn:En.
  - apply String.eqb_eq in En. now subst name.
  - destruct (PyStr.lower name =? "index") eqn:Ei; [reflexivity|].
    set (x := PyStr.replace "_" " " (PyStr.replace "-" " " name)) in *.
    assert (Hx : is_ascii x = true)
      by (unfold x; now repeat apply replace_char_ascii).
    destruct (PyStr.title x =? "") eqn:Et; [reflexivity|].
    destruct (PyStr.lower (PyStr.title x) =? "index") eqn:Eti.
    + apply String.eqb_eq in Eti. unfold PyStr.title in Eti.
      rewrite (lower_title_go _ _ Hx) in Eti.
      assert (Hb : has_char " " x = false).
      { rewrite <- (lower_has_char " " x) by reflexivity. now rewrite Eti. }
      unfold x in Hb. apply spaced_without_blank in Hb. fold x in Hb.
      rewrite Hb in Eti. rewrite Eti in Ei. discriminate Ei.
    + rewrite (replace_char_absent "-" " " _ Hh).
      rewrite (replace_char_absent "_" " " _ Hu).
      unfold PyStr.title. now apply title_go_twice.
Qed.

Lemma format_title_idempotent_witness :
  Utils.format_title (Utils.format_title "getting-started_now")
  = Utils.format_title "getting-started_now".
Proof. exact (format_title_idempotent "getting-started_now" eq_refl). Defined.

(** X3.  In the table of contents of a directory a page file has the
    title that [format_title] gives to its stem, the title of the page in
    the resource document, exactly when the stem holds no underscore. *)
Theorem toc_name_is_page_title (name : string) :
  let stem := PyStr.replace ".page.md" "" name in
  IGGenerator.file_display name = Utils.format_title stem
  <-> has_char "_" stem = false.
Proof.
  intros stem. unfold IGGenerator.file_display, Utils.format_title. fold stem.
  destruct (stem =? "") eqn:En.
  - apply String.eqb_eq in En. rewrite En. now split.
  - destruct (PyStr.lower stem =? "index") eqn:Ei.
    + apply String.eqb_eq in Ei. split; [intros _|reflexivity].
      rewrite <- (lower_has_char "_" stem) by reflexivity. now rewrite Ei.
    + split.
      * intros Heq.
        assert (Hl : has_char "_" (PyStr.title (PyStr.replace "-" " " stem))
                     = has_char "_" stem).
        { unfold PyStr.title. rewrite title_go_has_char by reflexivity.
          now rewrite replace_char_has_char by reflexivity. }
        rewrite Heq in Hl. unfold PyStr.title in Hl.
        rewrite title_go_has_char in Hl by reflexivity.
        rewrite (replace_char_has_char "_" " " "_") in Hl by reflexivity.
        now rewrite Ascii.eqb_refl in Hl.
      * intros Hu. rewrite (replace_char_absent "_" " "); [reflexivity|].
        now rewrite replace_char_has_char by reflexivity.
Qed.

(** X4.  [is_subpath] holds exactly of a path that is the parent or goes
    on from it. *)
Theorem is_subpath_extends (child parent : FS.path) :
  IGGenerator.is_subpath child parent = true
  <-> exists rest, child = (parent ++ rest)%list.
Proof.
  revert child. induction parent as [|y parent IH]; intros child.
  - split; [intros _; now exists child | intros _; now destruct child].
  - destruct child as [|x child]; cbn [IGGenerator.is_subpath].
    + split; [discriminate | intros [rest E]; discriminate E].
    + rewrite andb_true_iff, String.eqb_eq, IH. split.
      * intros [-> [rest ->]]. now exists rest.
      * intros [rest E]. inversion E; subst. split; [reflexivity|now exists rest].
Qed.

(** ** Templates *)

Section MoreTemplates.

Import Re Template.

Lemma sub_go_total pat repl :
  (forall g1 g0, exists out, repl g1 g0 = Some out) ->
  forall s skip, exists out, sub_go pat repl skip s = Some out.
Proof.
  intros Hrepl. induction s as [|c s IH]; intros skip.
  - now exists "".
  - cbn [sub_go]. destruct skip as [|k]; [|apply IH].
    destruct (match_at pat (String c s)) as [m|].
    + destruct (Hrepl (group1 m) (group0 (String c s) m)) as [out ->].
      destruct (IH (String.length (group0 (String c s) m) - 1)) as [tail ->].
      now eexists.
    + destruct (IH 0) as [tail ->]. now eexists.
Qed.

Lemma replace_total (variables : list (string * pyval)) :
  (forall k v, assoc k variables = Some v -> sub_item v <> None) ->
  forall g1 g0, exists out, _replace variables g1 g0 = Some out.
Proof.
  intros Hv g1 g0. unfold _replace, dict_get_default.
  destruct (assoc (PyStr.strip g1) variables) as [v|] eqn:E.
  - specialize (Hv _ _ E). destruct (sub_item v) as [out|]; [now exists out|].
    congruence.
  - now eexists.
Qed.

Lemma sub_go_plain repl (t : string) :
  occurs opening t = false -> sub_go pattern repl 0 t = Some t.
Proof.
  induction t as [|c t IH]; intros H; [reflexivity|].
  cbn [occurs] in H. apply orb_false_iff in H as [Hp Ho].
  rewrite sub_go_no_match.
  - now rewrite (IH Ho).
  - rewrite pattern_split. now apply match_at_needs_prefix.
Qed.

(** What a match leaves behind is the end of the text it was found in. *)
Lemma greedy_after cls (k : string -> option marks) :
  (forall s m, k s = Some m -> exists pre, s = pre ++ after m) ->
  forall s m, greedy cls k s = Some m -> exists pre, s = pre ++ after m.
Proof.
  intros Hk. induction s as [|c s IH]; intros m; cbn [greedy].
  - apply Hk.
  - destruct (cls c); [|apply Hk].
    destruct (greedy cls k s) as [m'|] eqn:E; [|apply Hk].
    intros Hm. inversion Hm; subst m'.
    destruct (IH m eq_refl) as [pre ->]. now exists (String c pre).
Qed.

Lemma match_at_after (pat : list atom) :
  forall s m, match_at pat s = Some m -> exists pre, s = pre ++ after m.
Proof.
  induction pat as [|a pat IH]; intros s m; cbn [match_at].
  - intros Hm. inversion Hm. now exists "".
  - destruct a as [c|cls|cls| |].
    + destruct s as [|x r]; [discriminate|].
      destruct (Ascii.eqb x c); [|discriminate].
      intros Hm. destruct (IH _ _ Hm) as [pre ->]. now exists (String x pre).
    + now apply greedy_after.
    + destruct s as [|x r]; [discriminate|].
      destruct (cls x); [|discriminate].
      intros Hm. destruct (greedy_after cls _ IH _ _ Hm) as [pre ->].
      now exists (String x pre).
    + destruct (match_at pat s) as [m'|] eqn:E; [|discriminate].
      intros Hm. inversion Hm. cbn [set_open after]. now apply IH.
    + destruct (match_at pat s) as [m'|] eqn:E; [|discriminate].
      intros Hm. inversion Hm. cbn [set_close after]. now apply IH.
Qed.

(** A match of the placeholder pattern takes at least one character. *)
Lemma pattern_match_after (c : ascii) (r : string) (m : marks) :
  match_at pattern (String c r) = Some m ->
  exists pre, r = pre ++ after m.
Proof.
  unfold pattern. cbn [lits app match_at].
  destruct (Ascii.eqb c "{"); [|discriminate].
  apply (match_at_after
           (lits "{ig-var:" ++
            [Star PyStr.isspace; GroupOpen; Plus not_rbrace; GroupClose;
             Star PyStr.isspace] ++ lits "}}")%list).
Qed.

Lemma sub_go_unchanged (n : nat) :
  forall s, String.length s <= n -> sub_go pattern (_replace []) 0 s = Some s.
Proof.
  induction n as [|n IH]; intros s Hs.
  - destruct s; [reflexivity | simpl in Hs; lia].
  - destruct s as [|c r]; [reflexivity|].
    destruct (match_at pattern (String c r)) as [m|] eqn:Hm.
    + destruct (pattern_match_after c r m Hm) as [pre Hr].
      rewrite (sub_go_match _ _ _ _ _ Hm).
      assert (Hg : group0 (String c r) m = String c pre).
      { unfold group0. rewrite Hr.
        change (String c (pre ++ after m)) with (String c pre ++ after m).
        apply upto_app. }
      rewrite Hg. cbn [_replace dict_get_default assoc sub_item].
      cbn [String.length Nat.sub]. rewrite Nat.sub_0_r.
      rewrite Hr at 1. rewrite sub_go_skip.
      rewrite IH.
      * cbn [option_map String.append]. now rewrite <- Hr.
      * simpl in Hs. rewrite Hr, str_length_app in Hs. lia.
    + rewrite (sub_go_no_match _ _ _ _ Hm).
      rewrite IH; [reflexivity | simpl in Hs; lia].
Qed.

End MoreTemplates.

(** X5.  A resource whose id and url are strings gets a page whatever the
    template is, and so does an example whose id is a string: resolving
    the template does not raise when every variable is a string. *)
Theorem pages_of_string_ids `{PyRuntime} (template resource_type : string)
    (resource : IGGenerator.info) :
  (exists rid, IGGenerator.id resource = PStr rid) ->
  ((exists u, IGGenerator.url resource = PStr u) ->
   exists content,
     IGGenerator.resource_page template resource_type resource = Some content)
  /\ exists content,
       IGGenerator.example_page template resource = Some content.
Proof.
  intros [rid Hid]. split.
  - intros [u Hurl]. unfold IGGenerator.resource_page.
    destruct (negb (template =? "")); [|now eexists].
    apply sub_go_total, replace_total. intros k v. cbn [assoc].
    rewrite Hid, Hurl.
    repeat (destruct (_ =? k); [intros Hv; now inversion Hv|]). discriminate.
  - unfold IGGenerator.example_page.
    destruct (negb (template =? "")); [|now eexists].
    apply sub_go_total, replace_total. intros k v. cbn [assoc]. rewrite Hid.
    repeat (destruct (_ =? k); [intros Hv; now inversion Hv|]). discriminate.
Qed.

Lemma pages_of_string_ids_witness :
  exists content,
    IGGenerator.example_page (H := Sample.runtime) "{{ig-var: Resource.id }}"
      (IGGenerator.Info (PStr "Patient") (PStr "p1") "p" (PStr ""))
    = Some content.
Proof.
  apply (pages_of_string_ids (H := Sample.runtime) "{{ig-var: Resource.id }}"
           "Patient" (IGGenerator.Info (PStr "Patient") (PStr "p1") "p" (PStr ""))).
  now exists "p1".
Defined.

(** X6.  A template that does not hold [{{ig-var:] is resolved to itself,
    whatever the variables are. *)
Theorem template_without_placeholder (template : string)
    (variables : list (string * pyval)) :
  occurs "{{ig-var:" template = false ->
  Template._resolve_template_variables template variables = Some template.
Proof. intros H. now apply sub_go_plain. Qed.

Lemma template_without_placeholder_witness :
  Template._resolve_template_variables "# {{page-title}} {ig-var: x}}"
    [("x", PNum 1)]
  = Some "# {{page-title}} {ig-var: x}}".
Proof. now apply template_without_placeholder. Defined.

(** X7.  With no variable at all, every template is resolved to itself:
    each placeholder is replaced by the text that was matched. *)
Theorem template_without_variables (template : string) :
  Template._resolve_template_variables template [] = Some template.
Proof. exact (sub_go_unchanged (String.length template) template (le_n _)). Qed.

(** ** The Home table of contents *)

(** X8.  For a menu whose items are looked up inside [Home] (no name
    has a part [..] or begins with a slash): every entry that the menu
    gives to the Home table of contents has the display name of an item
    and the name the item is looked up under, and what it names is there,
    a page file or a directory inside [Home]; and the menu gives at most
    one entry for each of its items. *)
Theorem home_toc_entries_exist (g : FS.node) (menu : list (string * pyval)) :
  menu_inside menu ->
  (forall entry,
      In entry (IGGenerator.menu_toc g menu) ->
      (exists value,
          In (toc_name entry, value) menu
          /\ menu_target (toc_name entry) value = Some (toc_filename entry))
      /\ FS.inside (FS.parts (toc_filename entry)) = true
      /\ (FS.is_file (FS.join IGGenerator.home_dir (toc_filename entry)) g = true
          \/ FS.is_dir (FS.join IGGenerator.home_dir (toc_filename entry)) g
             = true))
  /\ List.length (IGGenerator.menu_toc g menu) <= List.length menu.
Proof.
  intros Hinside. split.
  - intros entry Hin. unfold IGGenerator.menu_toc in Hin.
    apply in_flat_map in Hin as [[display_name value] [Hitem Hentry]].
    cbn [fst snd] in Hentry.
    assert (Hfound :
              toc_name entry = display_name
              /\ menu_target display_name value = Some (toc_filename entry)
              /\ (FS.is_file (FS.join IGGenerator.home_dir (toc_filename entry)) g
                  = true
                  \/ FS.is_dir (FS.join IGGenerator.home_dir (toc_filename entry)) g
                     = true)).
    { unfold IGGenerator.menu_entry in Hentry. unfold menu_target.
      destruct value as [|[]| |v| |]; try contradiction.
      - destruct (FS.is_dir _ g) eqn:Hd; [|contradiction].
        destruct Hentry as [<-|[]]. cbn [toc_name toc_filename]. tauto.
      - destruct (PyStr.endswith ".md" (PyStr.lower v)).
        + destruct (FS.is_file _ g) eqn:Hf; [|contradiction].
          destruct Hentry as [<-|[]]. cbn [toc_name toc_filename]. tauto.
        + destruct (FS.is_dir _ g) eqn:Hd; [|contradiction].
          destruct Hentry as [<-|[]]. cbn [toc_name toc_filename]. tauto. }
    destruct Hfound as [Hname [Htarget Hthere]]. split; [|split].
    + exists value. rewrite Hname. now split.
    + exact (Hinside display_name value _ Hitem Htarget).
    + exact Hthere.
  - unfold IGGenerator.menu_toc. clear Hinside.
    induction menu as [|[display_name value] menu IH]; [apply le_n|].
    cbn [flat_map]. rewrite length_app. cbn [List.length fst snd].
    assert (Hone : List.length (IGGenerator.menu_entry g display_name value) <= 1).
    { unfold IGGenerator.menu_entry.
      destruct value as [|[]| |v| |]; cbn [List.length]; try lia.
      - destruct (FS.is_dir _ g); cbn [List.length]; lia.
      - destruct (PyStr.endswith ".md" (PyStr.lower v));
          [destruct (FS.is_file _ g) | destruct (FS.is_dir _ g)];
          cbn [List.length]; lia. }
    lia.
Qed.

Lemma home_toc_entries_exist_witness :
  let g := FS.Dir [("Home", FS.Dir [("docs", FS.Dir []);
                                    ("index.page.md", FS.File "")])] in
  let menu := [("Home", PStr "index.md"); ("Docs", PBool true);
               ("Gone", PStr "gone.md")] in
  IGGenerator.menu_toc g menu
  = [TocEntry "Home" "index.page.md"; TocEntry "Docs" "docs"]
  /\ List.length (IGGenerator.menu_toc g menu) <= 3.
Proof.
  cbv zeta. split; [reflexivity|].
  refine (proj2 (home_toc_entries_exist _
                   [("Home", PStr "index.md"); ("Docs", PBool true);
                    ("Gone", PStr "gone.md")] _)).
  intros display_name value target Hitem Htarget.
  destruct Hitem as [E|[E|[E|[]]]]; inversion E; subst;
    inversion Htarget; reflexivity.
Defined.

(** ** Tables of contents below Home *)

Section DerivedTocs.
Context `{PyRuntime}.
Import IGGenerator.

Lemma toc_for_subdirectory_where (count : nat) (item : FS.path * FS.node)
    (g g1 : FS.node) (count1 : nat) :
  toc_for_subdirectory count item g = (Some count1, g1) ->
  g1 = g
  \/ (last (fst item) "" <> "pagetemplates"
      /\ is_subpath (home_dir ++ fst item)%list artifacts_dir = false
      /\ exists data,
           FS.write_text ((home_dir ++ fst item) ++ ["toc.yaml"])%list data g
           = Some g1).
Proof.
  unfold toc_for_subdirectory.
  destruct (snd item); [intros E; inversion E; now left|].
  destruct (last (fst item) "" =? "pagetemplates") eqn:Ep;
    [intros E; inversion E; now left|].
  destruct (is_subpath (home_dir ++ fst item)%list artifacts_dir) eqn:Ea;
    [intros E; inversion E; now left|].
  unfold Run.bind at 1, Run.gets.
  destruct (_generate_toc_for_directory _) as [|e more];
    [intros E; inversion E; now left|].
  unfold Run.bind, _write_toc_file, Run.effect.
  destruct (FS.write_text _ _ g) as [g2|] eqn:Hw; [|discriminate].
  intros E. inversion E; subst. right. split; [|split].
  - now apply String.eqb_neq.
  - reflexivity.
  - eexists. exact Hw.
Qed.

Lemma home_toc_writes (guide_config : list (string * pyval)) (g g1 : FS.node) :
  _generate_home_toc guide_config g = (Some tt, g1) ->
  g1 = g \/ exists data, FS.write_text ["Home"; "toc.yaml"] data g = Some g1.
Proof.
  unfold _generate_home_toc.
  destruct (dict_get guide_config "menu");
    unfold Run.bind, Run.gets, _write_toc_file, Run.effect;
    match goal with
    | |- context [match ?l with [] => _ | _ :: _ => _ end] => destruct l
    end;
    try (intros E; inversion E; now left);
    (destruct (FS.write_text _ _ g) as [g2|] eqn:Hw; [|discriminate];
     intros E; inversion E; subst; right; eexists; exact Hw).
Qed.

(** The places the loop leaves alone: what is below [artifacts], and the
    table of contents of a directory named [pagetemplates]. *)
Lemma loop_path_differs (rel p : FS.path) :
  last rel "" <> "pagetemplates" ->
  is_subpath (home_dir ++ rel)%list artifacts_dir = false ->
  is_subpath p artifacts_dir = true
  \/ (exists d, p = (d ++ ["pagetemplates"; "toc.yaml"])%list) ->
  ((home_dir ++ rel) ++ ["toc.yaml"])%list <> p.
Proof.
  intros Hlast Hsub [Hp|[d Hp]] E; subst p.
  - destruct rel as [|x rel]; [discriminate Hp|].
    cbn in Hp, Hsub.
    destruct (x =? "artifacts"); [|discriminate Hp].
    destruct rel; discriminate Hsub.
  - change (d ++ ["pagetemplates"; "toc.yaml"])%list
      with (d ++ ["pagetemplates"] ++ ["toc.yaml"])%list in E.
    rewrite app_assoc in E. apply app_inj_tail in E as [E _].
    destruct rel as [|x rel].
    + destruct d as [|a [|b d]]; discriminate E.
    + apply Hlast.
      assert (El : last (home_dir ++ x :: rel)%list "" = last (x :: rel) "")
        by reflexivity.
      rewrite <- El, E. apply last_last.
Qed.

Lemma toc_loop_leaves (p : FS.path) (items : list (FS.path * FS.node)) :
  is_subpath p artifacts_dir = true
  \/ (exists d, p = (d ++ ["pagetemplates"; "toc.yaml"])%list) ->
  forall (count : nat) (g g' : FS.node) (n : nat),
    Run.fold toc_for_subdirectory items count g = (Some n, g') ->
    file_at p g' = file_at p g.
Proof.
  intros Hp. induction items as [|item items IH]; intros count g g' n Hrun.
  - inversion Hrun. reflexivity.
  - cbn [Run.fold] in Hrun. unfold Run.bind in Hrun.
    destruct (toc_for_subdirectory count item g) as [[count1|] g1] eqn:Hstep;
      [|discriminate].
    rewrite (IH _ _ _ _ Hrun).
    apply toc_for_subdirectory_where in Hstep
      as [->|[Hlast [Hsub [data Hw]]]]; [reflexivity|].
    rewrite (file_at_write_text _ _ p _ _ Hw).
    destruct (list_eq_dec string_dec _ p) as [E|_]; [|reflexivity].
    now apply loop_path_differs in E.
Qed.

End DerivedTocs.

(** X9.  [_generate_toc_files] leaves every file below [Home/artifacts]
    as it was, and the [toc.yaml] of every directory named
    [pagetemplates]: no table of contents is derived there. *)
Theorem toc_files_leave_artifacts `{PyRuntime}
    (guide_config : list (string * pyval)) (g g' : FS.node) (n : nat)
    (p : FS.path) :
  IGGenerator._generate_toc_files guide_config g = (Some n, g') ->
  IGGenerator.is_subpath p IGGenerator.artifacts_dir = true
  \/ (exists d, p = (d ++ ["pagetemplates"; "toc.yaml"])%list) ->
  file_at p g' = file_at p g.
Proof.
  intros Hrun Hp.
  assert (Hroot : ["toc.yaml"] <> p).
  { destruct Hp as [Hp|[d Hp]]; intros <-; [discriminate Hp|].
    destruct d as [|a [|b d]]; discriminate Hp. }
  assert (Hhome : ["Home"; "toc.yaml"] <> p).
  { destruct Hp as [Hp|[d Hp]]; intros <-; [discriminate Hp|].
    destruct d as [|a [|b [|c d]]]; discriminate Hp. }
  unfold IGGenerator._generate_toc_files in Hrun.
  unfold Run.bind at 1, IGGenerator._write_toc_file, Run.effect in Hrun.
  destruct (FS.write_text ["toc.yaml"] _ g) as [g_root|] eqn:Hw; [|discriminate].
  unfold Run.bind at 1 in Hrun.
  destruct (IGGenerator._generate_home_toc guide_config g_root)
    as [[[]|] g_home] eqn:Hh; [|discriminate].
  unfold Run.bind at 1, Run.gets in Hrun.
  rewrite (toc_loop_leaves p _ Hp _ _ _ _ Hrun).
  assert (Eh : file_at p g_home = file_at p g_root).
  { apply home_toc_writes in Hh as [->|[data Hw']]; [reflexivity|].
    rewrite (file_at_write_text _ _ p _ _ Hw').
    now destruct (list_eq_dec string_dec _ p). }
  rewrite Eh, (file_at_write_text _ _ p _ _ Hw).
  now destruct (list_eq_dec string_dec _ p).
Qed.

Lemma toc_files_leave_artifacts_witness :
  let g := FS.Dir [("Home", FS.Dir [("artifacts",
             FS.Dir [("toc.yaml", FS.File "kept");
                     ("index.page.md", FS.File "")])])] in
  file_at ["Home"; "artifacts"; "toc.yaml"]
    (snd (IGGenerator._generate_toc_files (H := Sample.runtime) [] g))
  = Some "kept".
Proof.
  cbv zeta.
  destruct (IGGenerator._generate_toc_files (H := Sample.runtime) []
              (FS.Dir [("Home", FS.Dir [("artifacts",
                 FS.Dir [("toc.yaml", FS.File "kept");
                         ("index.page.md", FS.File "")])])]))
    as [[n|] g'] eqn:Hrun.
  - cbn [snd].
    rewrite (toc_files_leave_artifacts (H := Sample.runtime) [] _ g' n
               ["Home"; "artifacts"; "toc.yaml"] Hrun (or_introl eq_refl)).
    reflexivity.
  - vm_compute in Hrun. discriminate Hrun.
Defined.

(** ** Pages *)

Lemma bind_success {A B : Type} (m : Run.M A) (k : A -> Run.M B)
    (g g' : FS.node) (b : B) :
  Run.bind m k g = (Some b, g') ->
  exists a g1, m g = (Some a, g1) /\ k a g1 = (Some b, g').
Proof.
  unfold Run.bind. destruct (m g) as [[a|] g1]; [|discriminate].
  intros Hk. now exists a, g1.
Qed.

Lemma transform_loop_counts (body : nat -> FS.path * FS.node -> Run.M nat)
    (items : list (FS.path * FS.node)) :
  (forall count item g g' n,
      body count item g = (Some n, g') ->
      n = if is_file_item item then S count else count) ->
  forall count g g' n,
    Run.fold body items count g = (Some n, g') ->
    n = count + List.length (filter is_file_item items).
Proof.
  intros Hbody. induction items as [|item items IH]; intros count g g' n Hrun.
  - inversion Hrun. cbn. lia.
  - cbn [Run.fold] in Hrun.
    apply bind_success in Hrun as [count1 [g1 [Hstep Hrest]]].
    apply Hbody in Hstep. apply IH in Hrest. cbn [filter].
    destruct (is_file_item item); cbn [List.length]; lia.
Qed.

(** X10.  The count [_transform_pages] returns is the number of files
    below [pages/], Markdown or not; without a directory [pages/] the step
    raises and leaves the output as it was. *)
Theorem transform_pages_counts_files (input g : FS.node) :
  (forall g' n,
      IGGenerator._transform_pages input g = (Some n, g') ->
      exists es,
        FS.lookup ["pages"] input = Some (FS.Dir es)
        /\ n = List.length (filter is_file_item (FS.walk (FS.Dir es))))
  /\ ((forall es, FS.lookup ["pages"] input <> Some (FS.Dir es)) ->
      IGGenerator._transform_pages input g = (None, g)).
Proof.
  unfold IGGenerator._transform_pages. split.
  - intros g' n Hrun.
    destruct (FS.lookup ["pages"] input) as [[data|es]|]; try discriminate Hrun.
    exists es. split; [reflexivity|].
    apply transform_loop_counts in Hrun; [exact Hrun|].
    intros count [rel item] g0 g1 n0. unfold is_file_item. cbn [fst snd].
    destruct item as [data|sub]; cbn [is_dir_node negb].
    + intros Hstep.
      apply bind_success in Hstep as [[] [g2 [_ Hstep]]].
      apply bind_success in Hstep as [[] [g3 [_ Hstep]]].
      now inversion Hstep.
    + intros Hstep. now inversion Hstep.
  - intros Hno.
    destruct (FS.lookup ["pages"] input) as [[data|es]|]; try reflexivity.
    now destruct (Hno es).
Qed.

(** ** Resources by type *)

Section Groups.
Import IGGenerator.

Lemma in_keys_dict_set {A : Type} (k x : string) (v : A) (d : list (string * A)) :
  In x (map fst (dict_set k v d)) <-> x = k \/ In x (map fst d).
Proof.
  induction d as [|[k' v'] d IH]; cbn [dict_set map fst In].
  - intuition.
  - destruct (k' =? k) eqn:E; cbn [map fst In].
    + apply String.eqb_eq in E. subst k'. intuition.
    + rewrite IH. intuition.
Qed.

Lemma nodup_keys_dict_set {A : Type} (k : string) (v : A) (d : list (string * A)) :
  NoDup (map fst d) -> NoDup (map fst (dict_set k v d)).
Proof.
  induction d as [|[k' v'] d IH]; cbn [dict_set map fst]; intros Hnd.
  - repeat constructor. intros [].
  - inversion Hnd as [|? ? Hnotin Hnd']; subst.
    destruct (k' =? k) eqn:E; cbn [map fst].
    + apply String.eqb_eq in E. subst k'. now constructor.
    + constructor; [|now apply IH].
      rewrite in_keys_dict_set. intros [->|Hin]; [|contradiction].
      now rewrite String.eqb_refl in E.
Qed.

Lemma assoc_in_keys {A : Type} (k : string) (d : list (string * A)) :
  In k (map fst d) <-> exists v, assoc k d = Some v.
Proof.
  induction d as [|[k' v'] d IH]; cbn [map fst In assoc].
  - split; [intros [] | intros [v Hv]; discriminate Hv].
  - destruct (k' =? k) eqn:E.
    + apply String.eqb_eq in E. split; [now exists v' | now left].
    + rewrite IH. apply String.eqb_neq in E. intuition.
Qed.

Lemma group_of_dict_set (t rt : string) (l : list info)
    (acc : list (string * list info)) :
  group_of t (dict_set rt l acc) = if rt =? t then l else group_of t acc.
Proof.
  unfold group_of. destruct (rt =? t) eqn:E.
  - apply String.eqb_eq in E. subst. now rewrite assoc_dict_set_same.
  - apply String.eqb_neq in E.
    rewrite assoc_dict_set_other; [reflexivity | congruence].
Qed.

Lemma group_by_type_groups (infos : list info) :
  forall acc by_type,
    group_by_type infos acc = Some by_type ->
    (NoDup (map fst acc) -> NoDup (map fst by_type))
    /\ (forall t,
           group_of t by_type = (group_of t acc ++ filter (has_type t) infos)%list)
    /\ (forall t,
           In t (map fst by_type) <->
           In t (map fst acc) \/ exists i, In i infos /\ resourceType i = PStr t).
Proof.
  induction infos as [|i infos IH]; intros acc by_type Hg.
  - inversion Hg; subst. split; [tauto|]. split.
    + intros t. now rewrite app_nil_r.
    + intros t. split; [tauto|]. intros [Hin|[i [[] _]]]. exact Hin.
  - cbn [group_by_type] in Hg.
    destruct (resourceType i) as [| | |rt| |] eqn:Hrt; try discriminate Hg.
    destruct (IH _ _ Hg) as [Hnd [Hgroup Hkeys]]. split; [|split].
    + intros Hacc. apply Hnd. now apply nodup_keys_dict_set.
    + intros t. rewrite Hgroup, group_of_dict_set. cbn [filter].
      unfold has_type at 2. rewrite Hrt. fold (group_of rt acc).
      destruct (rt =? t) eqn:E.
      * apply String.eqb_eq in E. subst. now rewrite <- app_assoc.
      * reflexivity.
    + intros t. rewrite Hkeys, in_keys_dict_set. split.
      * intros [[->|Hin]|[i' [Hin Ht]]].
        -- right. exists i. split; [now left | exact Hrt].
        -- now left.
        -- right. exists i'. split; [now right | exact Ht].
      * intros [Hin|[i' [[<-|Hin] Ht]]].
        -- left. now right.
        -- left. left. congruence.
        -- right. now exists i'.
Qed.

End Groups.

(** X11.  The groups [resources_by_type] holds after the loop over the
    parsed resources: the keys are distinct, the group of a type is the
    list of the resources of that type in the order they were parsed, and
    a type is a key exactly when a resource has it. *)
Theorem resources_by_type_groups (infos : list IGGenerator.info)
    (by_type : list (string * list IGGenerator.info)) :
  IGGenerator.group_by_type infos [] = Some by_type ->
  NoDup (map fst by_type)
  /\ (forall t, group_of t by_type = filter (has_type t) infos)
  /\ (forall t,
         In t (map fst by_type) <->
         exists i, In i infos /\ IGGenerator.resourceType i = PStr t).
Proof.
  intros Hg. destruct (group_by_type_groups infos [] by_type Hg)
    as [Hnd [Hgroup Hkeys]].
  split; [apply Hnd; constructor|]. split.
  - intros t. now rewrite Hgroup.
  - intros t. rewrite Hkeys. cbn [map In]. tauto.
Qed.

Lemma resources_by_type_groups_witness :
  group_of "ValueSet"
    [("ValueSet",
      [IGGenerator.Info (PStr "ValueSet") (PStr "a") "a" (PStr "");
       IGGenerator.Info (PStr "ValueSet") (PStr "b") "b" (PStr "")]);
     ("CodeSystem",
      [IGGenerator.Info (PStr "CodeSystem") (PStr "c") "c" (PStr "")])]
  = [IGGenerator.Info (PStr "ValueSet") (PStr "a") "a" (PStr "");
     IGGenerator.Info (PStr "ValueSet") (PStr "b") "b" (PStr "")].
Proof.
  exact (proj1 (proj2
    (resources_by_type_groups
       [IGGenerator.Info (PStr "ValueSet") (PStr "a") "a" (PStr "");
        IGGenerator.Info (PStr "CodeSystem") (PStr "c") "c" (PStr "");
        IGGenerator.Info (PStr "ValueSet") (PStr "b") "b" (PStr "")]
       _ eq_refl)) "ValueSet").
Defined.

(** ** The result of a run *)

Section ResultOfARun.
Context `{PyRuntime}.
Import IGGenerator.

Lemma generate_artifacts_result (input : FS.node)
    (templates : list (string * string)) (g g' : FS.node)
    (a : list (string * list info) * list info) :
  _generate_artifacts input templates g = (Some a, g') ->
  group_by_type (parsed_dir input "resources") [] = Some (fst a)
  /\ snd a = parsed_dir input "examples".
Proof.
  unfold _generate_artifacts, parsed_dir. intros Hrun.
  apply bind_success in Hrun as [[] [g1 [_ Hrun]]].
  apply bind_success in Hrun as [[] [g2 [_ Hrun]]].
  rewrite bind_of_option in Hrun.
  destruct (group_by_type _ []) as [by_type|]; [|discriminate].
  apply bind_success in Hrun as [[] [g3 [_ Hrun]]].
  destruct (input_dir input "examples") as [es|].
  - apply bind_success in Hrun as [[] [g4 [_ Hrun]]].
    apply bind_success in Hrun as [[] [g5 [_ Hrun]]].
    inversion Hrun. now split.
  - inversion Hrun. now split.
Qed.

Lemma generate_toc_files_at_least (guide_config : list (string * pyval))
    (g g' : FS.node) (n : nat) :
  _generate_toc_files guide_config g = (Some n, g') -> 2 <= n.
Proof.
  unfold _generate_toc_files. intros Hrun.
  apply bind_success in Hrun as [[] [g1 [_ Hrun]]].
  apply bind_success in Hrun as [[] [g2 [_ Hrun]]].
  apply bind_success in Hrun as [below [g3 [_ Hrun]]].
  apply toc_loop_counts in Hrun as [written [-> _]]. lia.
Qed.

End ResultOfARun.

(** X12.  The result of a run that succeeds is read off the input: the
    warnings are those of the validation, the guide's name is the one the
    configuration gives, [resource_count] and [example_count] are the
    numbers of files of [resources/] and [examples/] that parse to a
    record, [page_count] is the number of files below [pages/], and
    [toc_files_generated] is at least 2. *)
Theorem result_of_generate `{PyRuntime} (input : FS.node) (skip_validation : bool)
    (out out1 : FS.node) (result : IGGenerator.generation_result) :
  IGGenerator.generate input skip_validation out = (Some result, out1) ->
  IGGenerator.success result = true
  /\ IGGenerator.validation input skip_validation
     = Some (IGGenerator.warnings result)
  /\ (exists config,
         IGGenerator._load_guide_config input
         = Some (config, IGGenerator.guide_name result))
  /\ IGGenerator.resource_count result
     = List.length (parsed_dir input "resources")
  /\ IGGenerator.example_count result
     = List.length (parsed_dir input "examples")
  /\ (exists es,
         FS.lookup ["pages"] input = Some (FS.Dir es)
         /\ IGGenerator.page_count result
            = List.length (filter is_file_item (FS.walk (FS.Dir es))))
  /\ 2 <= IGGenerator.toc_files_generated result.
Proof.
  unfold IGGenerator.generate. rewrite !bind_of_option.
  destruct (IGGenerator.validation input skip_validation)
    as [validation_warnings|]; [|discriminate].
  rewrite !bind_of_option.
  destruct (IGGenerator._load_guide_config input) as [[config name]|];
    [|discriminate].
  rewrite !bind_of_option.
  destruct (IGGenerator._load_variables_config input) as [[]|]; [|discriminate].
  cbn [fst snd]. intros Hrun.
  apply bind_success in Hrun as [[] [o1 [_ Hrun]]].
  unfold IGGenerator.at_path in Hrun.
  destruct (FS.lookup (FS.parts name) o1) as [g|]; [|discriminate].
  destruct (IGGenerator.build input config (IGGenerator._load_templates input)
              name validation_warnings g) as [built g'] eqn:Hbuild.
  inversion Hrun; subst built out1. clear Hrun.
  unfold IGGenerator.build in Hbuild.
  apply bind_success in Hbuild as [[] [g1 [_ Hbuild]]].
  apply bind_success in Hbuild as [pages [g2 [Hpages Hbuild]]].
  apply bind_success in Hbuild as [[] [g3 [_ Hbuild]]].
  apply bind_success in Hbuild as [artifacts [g4 [Hartifacts Hbuild]]].
  apply bind_success in Hbuild as [index_pages [g5 [_ Hbuild]]].
  apply bind_success in Hbuild as [tocs [g6 [Htocs Hbuild]]].
  apply bind_success in Hbuild as [[] [g7 [_ Hbuild]]].
  inversion Hbuild; subst result. cbn.
  apply generate_artifacts_result in Hartifacts as [Hgroups Hexamples].
  apply generate_toc_files_at_least in Htocs.
  apply (proj1 (transform_pages_counts_files input g1)) in Hpages.
  repeat split; try reflexivity.
  - now exists config.
  - now rewrite (group_by_type_counts _ _ _ Hgroups).
  - now rewrite Hexamples.
  - exact Hpages.
  - exact Htocs.
Qed.

Lemma result_of_generate_witness :
  exists result out1,
    IGGenerator.generate (H := Sample.runtime) Sample.input false (FS.Dir [])
    = (Some result, out1)
    /\ IGGenerator.resource_count result = 2
    /\ IGGenerator.example_count result = 1.
Proof.
  destruct (IGGenerator.generate (H := Sample.runtime) Sample.input false
              (FS.Dir [])) as [[result|] out1] eqn:Hrun.
  - exists result, out1. split; [reflexivity|].
    destruct (result_of_generate (H := Sample.runtime) Sample.input false
                (FS.Dir []) out1 result Hrun)
      as [_ [_ [_ [Hr [He _]]]]].
    now rewrite Hr, He.
  - vm_compute in Hrun. discriminate Hrun.
Defined.

(** X13.  A run whose validation fails, or whose configuration or
    variables cannot be loaded, raises before it has touched the output
    root. *)
Theorem generate_fails_before_output `{PyRuntime} (input : FS.node)
    (skip_validation : bool) (out : FS.node) :
  IGGenerator.validation input skip_validation = None
  \/ IGGenerator._load_guide_config input = None
  \/ IGGenerator._load_variables_config input = None ->
  IGGenerator.generate input skip_validation out = (None, out).
Proof.
  unfold IGGenerator.generate. intros Hfail. rewrite !bind_of_option.
  destruct (IGGenerator.validation input skip_validation); [|reflexivity].
  rewrite !bind_of_option.
  destruct (IGGenerator._load_guide_config input); [|reflexivity].
  rewrite !bind_of_option.
  destruct (IGGenerator._load_variables_config input); [|reflexivity].
  destruct Hfail as [Hf|[Hf|Hf]]; discriminate Hf.
Qed.

Lemma generate_fails_before_output_witness :
  IGGenerator.generate (H := Sample.runtime) Sample.input_lost_menu false
    (FS.Dir [("my-guide", FS.Dir [("kept.txt", FS.File "old")])])
  = (None, FS.Dir [("my-guide", FS.Dir [("kept.txt", FS.File "old")])]).
Proof.
  apply generate_fails_before_output. left. reflexivity.
Defined.

(** ** The output directory *)

Section OutsideTheGuide.

Lemma assoc_filter_other (k x : string) (d : list (string * FS.node)) :
  x <> k -> assoc x (filter (other_name k) d) = assoc x d.
Proof.
  intros Hx. induction d as [|[k' v'] d IH]; [reflexivity|].
  cbn [filter]. unfold other_name at 1. cbn [fst].
  destruct (k' =? k) eqn:E; cbn [negb assoc].
  - apply String.eqb_eq in E. subst k'.
    destruct (k =? x) eqn:E'; [|exact IH].
    apply String.eqb_eq in E'. congruence.
  - now rewrite IH.
Qed.

Lemma setup_tree_outside (gp : FS.path) :
  forall out o p,
    setup_tree gp out = Some o ->
    IGGenerator.is_subpath p gp = false ->
    IGGenerator.is_subpath gp p = false ->
    FS.lookup p o = FS.lookup p out.
Proof.
  induction gp as [|name rest IH]; intros out o p Hsetup Hp Hgp.
  - destruct p; discriminate Hp.
  - destruct out as [data|es]; [now rewrite setup_tree_file in Hsetup|].
    destruct p as [|x p']; [discriminate Hgp|].
    cbn [IGGenerator.is_subpath] in Hp, Hgp.
    destruct rest as [|y rest'].
    + rewrite setup_tree_one in Hsetup.
      destruct (name =? ".."); [discriminate|].
      assert (Hx : x <> name).
      { intros ->. rewrite String.eqb_refl in Hp. destruct p'; discriminate Hp. }
      assert (Ho : o = put name (filter (other_name name) es) fresh_guide)
        by (destruct (assoc name es) as [[]|]; congruence).
      subst o. unfold put. cbn [FS.lookup].
      rewrite assoc_dict_set_other by exact Hx.
      now rewrite assoc_filter_other.
    + rewrite setup_tree_step in Hsetup.
      destruct (name =? ".."); [discriminate|].
      destruct (setup_tree (y :: rest') (child_or_empty name es)) as [c'|] eqn:Hc;
        [|discriminate].
      inversion Hsetup; subst o. unfold put. cbn [FS.lookup].
      destruct (x =? name) eqn:Ex.
      * apply String.eqb_eq in Ex. subst x.
        rewrite String.eqb_refl in Hgp. cbn [andb] in Hp, Hgp.
        rewrite assoc_dict_set_same.
        rewrite (IH _ _ _ Hc Hp Hgp). unfold child_or_empty.
        destruct (assoc name es); [reflexivity|].
        destruct p'; [discriminate Hgp | reflexivity].
      * apply String.eqb_neq in Ex. now rewrite assoc_dict_set_other.
Qed.

End OutsideTheGuide.

(** X14.  When [_setup_output_directory] succeeds, the guide's directory
    holds an empty [Home] and nothing else, whatever was there before, and
    what is beside the guide's directory in the output root is as it
    was. *)
Theorem setup_output_directory_effect (guide_output_dir : FS.path)
    (out o : FS.node) :
  IGGenerator._setup_output_directory guide_output_dir out = (Some tt, o) ->
  FS.lookup guide_output_dir o = Some fresh_guide
  /\ (forall p,
         IGGenerator.is_subpath p guide_output_dir = false ->
         IGGenerator.is_subpath guide_output_dir p = false ->
         FS.lookup p o = FS.lookup p out).
Proof.
  intros Hrun. apply setup_success in Hrun. split.
  - exact (setup_tree_fresh _ _ _ Hrun).
  - intros p. now apply setup_tree_outside.
Qed.

Lemma setup_output_directory_effect_witness :
  let out := FS.Dir [("other", FS.Dir [("a.txt", FS.File "a")]);
                     ("my-guide", FS.Dir [("stale.txt", FS.File "old")])] in
  FS.lookup ["my-guide"]
    (snd (IGGenerator._setup_output_directory ["my-guide"] out))
  = Some fresh_guide.
Proof.
  cbv zeta.
  refine (proj1 (setup_output_directory_effect ["my-guide"]
                   (FS.Dir [("other", FS.Dir [("a.txt", FS.File "a")]);
                            ("my-guide", FS.Dir [("stale.txt", FS.File "old")])])
                   _ _)).
  vm_compute. reflexivity.
Defined.

(** ** The page tree of the resource document *)

Section PageTree.
Import IGResourceGenerator.

Lemma page_node_induction (P : page_node -> Prop) :
  (forall u t g below, Forall P below -> P (PageNode u t g below)) ->
  forall page, P page.
Proof.
  intros Hstep. fix IH 1. intros [u t g below]. apply Hstep.
  induction below as [|c cs IHcs]; constructor.
  - apply IH.
  - exact IHcs.
Qed.

Lemma map_injective_on {A B : Type} (f : A -> B) (l : list A) :
  Forall (fun a => forall a', f a = f a' -> a = a') l ->
  forall l', map f l = map f l' -> l = l'.
Proof.
  induction 1 as [|a l Ha _ IH]; intros [|a' l'] E; try discriminate E.
  - reflexivity.
  - cbn [map] in E. inversion E as [[Ea El]].
    now rewrite (Ha _ Ea), (IH _ El).
Qed.

Lemma fold_left_count (f : page_node -> nat) (l : list page_node) (n : nat) :
  fold_left (fun count child => count + f child) l n = n + list_sum (map f l).
Proof.
  revert n. induction l as [|c l IH]; intros n; cbn [fold_left map].
  - cbn. lia.
  - rewrite IH, list_sum_cons. lia.
Qed.

Lemma count_pages_node (u t g : string) (below : list page_node) :
  _count_pages (PageNode u t g below) = 1 + list_sum (map _count_pages below).
Proof. cbn [_count_pages]. apply fold_left_count. Qed.

Lemma list_sum_perm (l l' : list nat) :
  Permutation l l' -> list_sum l = list_sum l'.
Proof.
  induction 1 as [|x l l' _ IH|x y l|l l' l'' _ IH1 _ IH2];
    rewrite ?list_sum_cons; lia.
Qed.

Lemma nameUrl_build (dir_name : string) (directory : FS.node) (rel : string) :
  nameUrl (_build_page_structure dir_name directory rel) = rel.
Proof. now destruct directory. Qed.

End PageTree.

Section SortedNames.
Context {A B : Type} (f : A -> B) (leb_a : A -> A -> bool)
  (leb_b : B -> B -> bool).
Hypothesis leb_by : forall x y, leb_a x y = leb_b (f x) (f y).

Lemma map_insert (x : A) (l : list A) :
  map f (Sort.insert leb_a x l) = Sort.insert leb_b (f x) (map f l).
Proof.
  induction l as [|y l IH]; [reflexivity|].
  cbn [Sort.insert map]. rewrite leb_by.
  destruct (leb_b (f x) (f y)); cbn [map]; [reflexivity | now rewrite IH].
Qed.

Lemma map_sort (l : list A) :
  map f (Sort.sort leb_a l) = Sort.sort leb_b (map f l).
Proof.
  induction l as [|x l IH]; [reflexivity|].
  cbn [Sort.sort fold_right map].
  fold (Sort.sort leb_a l). fold (Sort.sort leb_b (map f l)).
  now rewrite map_insert, IH.
Qed.

End SortedNames.

(** X15.  The conversion of the page tree to the [definition.page] of the
    document loses nothing: two page trees with the same conversion are
    the same tree. *)
Theorem page_node_to_r4_injective (page page' : IGResourceGenerator.page_node) :
  IGResourceGenerator._page_node_to_r4 page
  = IGResourceGenerator._page_node_to_r4 page' ->
  page = page'.
Proof.
  revert page'. induction page as [u t g below IH] using page_node_induction.
  intros [u' t' g' below'] E.
  cbn [IGResourceGenerator._page_node_to_r4 app] in E.
  inversion E as [[Eu Et Eg Ebelow]]. subst u' t' g'. f_equal.
  destruct below as [|c cs], below' as [|c' cs']; try discriminate Ebelow.
  - reflexivity.
  - assert (Emap : map IGResourceGenerator._page_node_to_r4 (c :: cs)
                   = map IGResourceGenerator._page_node_to_r4 (c' :: cs'))
      by congruence.
    exact (map_injective_on _ _ IH _ Emap).
Qed.

Lemma page_node_to_r4_injective_witness :
  IGResourceGenerator._build_page_structure "Home"
    (FS.Dir [("index.page.md", FS.File "")]) "Home"
  = IGResourceGenerator.PageNode "Home" "Home" "generated"
      [IGResourceGenerator.PageNode "Home/index.page.md" "Index" "markdown" []].
Proof. apply page_node_to_r4_injective. reflexivity. Defined.

Section PagesAndTocs.
Import IGResourceGenerator.

Lemma filter_listed_pages (items : list (string * FS.node)) :
  filter IGGenerator.is_page_file (filter IGGenerator.listed items)
  = filter is_markdown_page items.
Proof.
  induction items as [|[name node] items IH]; [reflexivity|].
  cbn [filter]. unfold IGGenerator.listed at 1. cbn [fst].
  destruct (name =? "toc.yaml") eqn:Et.
  - apply String.eqb_eq in Et. subst name. cbn [orb negb].
    rewrite IH. now destruct node.
  - destruct (name =? "pagetemplates") eqn:Ep.
    + apply String.eqb_eq in Ep. subst name. cbn [orb negb].
      rewrite IH. now destruct node.
    + cbn [orb negb filter]. now rewrite IH.
Qed.

Lemma filter_listed_dirs (items : list (string * FS.node)) :
  Forall (fun e => is_dir_node (snd e) = true -> fst e <> "toc.yaml") items ->
  filter IGGenerator.is_visible_dir (filter IGGenerator.listed items)
  = filter is_page_dir items.
Proof.
  induction 1 as [|[name node] items Hdir _ IH]; [reflexivity|].
  cbn [filter]. unfold IGGenerator.listed at 1. cbn [fst snd] in *.
  destruct (name =? "toc.yaml") eqn:Et.
  - apply String.eqb_eq in Et. cbn [orb negb]. rewrite IH.
    destruct node as [data|sub]; [reflexivity|].
    now destruct (Hdir eq_refl).
  - destruct (name =? "pagetemplates") eqn:Ep; cbn [orb negb filter];
      rewrite IH; destruct node as [data|sub];
      cbn [is_page_dir IGGenerator.is_visible_dir fst snd];
      rewrite ?Ep; cbn [negb]; rewrite ?andb_false_r, ?andb_true_r;
      try reflexivity.
    now rewrite (andb_comm (negb (PyStr.startswith "." name))).
Qed.

Lemma filter_map_pair {A B : Type} (p : A -> bool) (h : A -> B) (l : list A) :
  filter (fun x => p (fst x)) (map (fun e => (e, h e)) l)
  = map (fun e => (e, h e)) (filter p l).
Proof.
  induction l as [|a l IH]; [reflexivity|].
  cbn [map filter fst]. destruct (p a); cbn [map]; now rewrite IH.
Qed.

End PagesAndTocs.

(** X16.  In a directory that holds no subdirectory named [toc.yaml],
    the pages below the node that [_build_page_structure] makes are the
    entries of the directory's table of contents, in the same order: the
    [nameUrl] of each is the directory's own followed by the filename of
    the entry. *)
Theorem page_tree_follows_toc (dir_name relative_path : string)
    (items : list (string * FS.node)) :
  Forall (fun e => is_dir_node (snd e) = true -> fst e <> "toc.yaml") items ->
  map IGResourceGenerator.nameUrl
    (IGResourceGenerator.children
       (IGResourceGenerator._build_page_structure dir_name (FS.Dir items)
          relative_path))
  = map (fun entry => relative_path ++ "/" ++ toc_filename entry)
      (IGGenerator._generate_toc_for_directory items).
Proof.
  intros Hdirs.
  rewrite <- (map_map toc_filename (fun f => relative_path ++ "/" ++ f)).
  rewrite toc_filenames. unfold IGGenerator.page_files, IGGenerator.visible_dirs.
  rewrite filter_listed_pages, (filter_listed_dirs _ Hdirs).
  cbn [IGResourceGenerator._build_page_structure IGResourceGenerator.children].
  rewrite !map_app, !map_map. f_equal.
  rewrite filter_map_pair.
  set (h := fun e : string * FS.node =>
              IGResourceGenerator._build_page_structure (fst e) (snd e)
                (relative_path ++ "/" ++ fst e)).
  set (kept := map (fun e => (e, h e)) (filter IGResourceGenerator.is_page_dir items)).
  rewrite (map_ext_in _ (fun x => relative_path ++ "/" ++ fst (fst x))).
  - rewrite <- (map_map (fun x => fst (fst x)) (fun f => relative_path ++ "/" ++ f)).
    rewrite (map_sort (fun x : (string * FS.node) * IGResourceGenerator.page_node
                       => fst (fst x))
               IGResourceGenerator.by_dir_name Sort.str_leb)
      by reflexivity.
    unfold kept. now rewrite map_map.
  - intros x Hx. apply sort_in in Hx. unfold kept in Hx.
    apply in_map_iff in Hx as [e [<- _]]. cbn [fst snd]. unfold h.
    apply nameUrl_build.
Qed.

Lemma page_tree_follows_toc_witness :
  map IGResourceGenerator.nameUrl
    (IGResourceGenerator.children
       (IGResourceGenerator._build_page_structure "Home"
          (FS.Dir Sample.directory) "Home"))
  = ["Home/Index.page.md"; "Home/alpha.page.md"; "Home/zeta.page.md";
     "Home/alpha"; "Home/beta"].
Proof.
  rewrite (page_tree_follows_toc "Home" "Home" Sample.directory).
  - reflexivity.
  - repeat constructor; cbn; discriminate.
Defined.

(** ** The resource document *)

(** X17.  An item of [definition.resource] holds its reference and one of
    [exampleCanonical] and [exampleBoolean], never both and never
    neither: the canonical, for an example that has a profile, else the
    boolean, which tells whether the resource is an example. *)
Theorem resource_item_example `{PyRuntime}
    (r : IGResourceGenerator.resource_entry) :
  exists item,
    IGResourceGenerator.resource_item r = PDict item
    /\ assoc "reference" item
       = Some (PDict [("reference",
                       PStr (str (IGResourceGenerator.resourceType r) ++ "/"
                             ++ str (IGResourceGenerator.id r)))])
    /\ match assoc "exampleCanonical" item, assoc "exampleBoolean" item with
       | Some canonical, None =>
           IGResourceGenerator.isExample r = true
           /\ exists c,
                canonical = PStr c /\ c <> ""
                /\ IGResourceGenerator.exampleCanonical r = Some c
       | None, Some flag =>
           flag = PBool (IGResourceGenerator.isExample r)
           /\ (IGResourceGenerator.isExample r = true ->
               IGResourceGenerator.nonempty
                 (IGResourceGenerator.exampleCanonical r) = None)
       | _, _ => False
       end.
Proof.
  unfold IGResourceGenerator.resource_item. eexists. split; [reflexivity|].
  split; [reflexivity|].
  destruct (IGResourceGenerator.nonempty (IGResourceGenerator.name r));
    destruct (IGResourceGenerator.nonempty (IGResourceGenerator.description r));
    destruct (IGResourceGenerator.isExample r);
    cbn [app assoc String.eqb Ascii.eqb Bool.eqb];
    try (split; [reflexivity | discriminate]);
    unfold IGResourceGenerator.nonempty;
    (destruct (IGResourceGenerator.exampleCanonical r) as [c|];
     [destruct (c =? "") eqn:Ec|]);
    cbn [app assoc String.eqb Ascii.eqb Bool.eqb];
    try (split; [reflexivity | reflexivity]);
    (split; [reflexivity|]; exists c;
     split; [reflexivity|]; split; [now apply String.eqb_neq | reflexivity]).
Qed.

Section DocumentOfAGuide.
Context `{PyRuntime}.
Import IGResourceGenerator.

Lemma preflight_passes (config : list (string * pyval)) :
  preflight_errors config = [] ->
  blank (dict_get config "id") = false
  /\ blank (dict_get config "status") = false
  /\ blank (dict_get config "fhirVersion") = false
  /\ blank (dict_get config "canonical") = false
  /\ In (PyStr.lower (PyStr.strip (str (dict_get config "status"))))
       valid_statuses.
Proof.
  unfold preflight_errors, required_fields. cbn [flat_map]. intros Herr.
  assert (Hfields :
            blank (dict_get config "id") = false
            /\ blank (dict_get config "status") = false
            /\ blank (dict_get config "fhirVersion") = false
            /\ blank (dict_get config "canonical") = false
            /\ truthy (dict_get config "status") = true
            /\ mem (PyStr.lower (PyStr.strip (str (dict_get config "status"))))
                 valid_statuses = true).
  { destruct (blank (dict_get config "id")) eqn:E1;
      [destruct (truthy (dict_get config "status"));
       [destruct (mem _ valid_statuses)|]; discriminate Herr|].
    destruct (blank (dict_get config "status")) eqn:E2;
      [destruct (truthy (dict_get config "status"));
       [destruct (mem _ valid_statuses)|]; discriminate Herr|].
    destruct (blank (dict_get config "fhirVersion")) eqn:E3;
      [destruct (truthy (dict_get config "status"));
       [destruct (mem _ valid_statuses)|]; discriminate Herr|].
    destruct (blank (dict_get config "canonical")) eqn:E4;
      [destruct (truthy (dict_get config "status"));
       [destruct (mem _ valid_statuses)|]; discriminate Herr|].
    destruct (truthy (dict_get config "status")) eqn:Et.
    - destruct (mem _ valid_statuses) eqn:Em; [tauto | discriminate Herr].
    - unfold blank in E2. rewrite Et in E2. discriminate E2. }
  destruct Hfields as [H1 [H2 [H3 [H4 [_ Hm]]]]].
  repeat split; try assumption. now apply mem_In.
Qed.

Lemma document_fields (cfg : list (string * string)) (i s f c : string)
    (resources : list resource_entry) (root_page : page_node) :
  assoc "id" cfg = Some i ->
  assoc "status" cfg = Some s ->
  assoc "fhirVersion" cfg = Some f ->
  assoc "canonical" cfg = Some c ->
  exists ig,
    _create_ig_resource_r4 cfg resources root_page = Some (PDict ig)
    /\ assoc "resourceType" ig = Some (PStr "ImplementationGuide")
    /\ assoc "id" ig = Some (PStr i)
    /\ assoc "packageId" ig = Some (PStr i)
    /\ assoc "url" ig
       = Some (PStr (PyStr.rstrip_char "/" c ++ "/ImplementationGuide/" ++ i))
    /\ assoc "status" ig = Some (PStr s)
    /\ assoc "fhirVersion" ig = Some (PList [PStr f]).
Proof.
  intros Hi Hs Hf Hc. unfold _create_ig_resource_r4.
  rewrite Hi, Hs, Hf, Hc. eexists. split; [reflexivity|].
  destruct (nonempty (assoc "version" cfg));
    destruct (nonempty (assoc "title" cfg)); repeat split.
Qed.

End DocumentOfAGuide.

(** X18.  A [guide.yaml] that passes the pre-flight check gives a
    document: the configuration loads without an error, and the document
    has the stripped [id] as its [id] and its [packageId], the stripped
    [fhirVersion] as the one item of its [fhirVersion], a valid status in
    lower case, and as its [url] the canonical without its trailing
    slashes, then [/ImplementationGuide/] and the id. *)
Theorem preflight_then_document `{PyRuntime} (text : string)
    (resources : list IGResourceGenerator.resource_entry)
    (root_page : IGResourceGenerator.page_node) :
  fst (IGResourceGenerator.validate_guide_yaml_for_ig_resource (Some text))
  = true ->
  exists config ig,
    yaml_load text = inr (PDict config)
    /\ IGResourceGenerator.ig_document (Some text) resources root_page
       = Some (PDict ig)
    /\ let field := fun k => PyStr.strip (str (dict_get config k)) in
       assoc "resourceType" ig = Some (PStr "ImplementationGuide")
       /\ assoc "id" ig = Some (PStr (field "id"))
       /\ assoc "packageId" ig = Some (PStr (field "id"))
       /\ assoc "url" ig
          = Some (PStr (PyStr.rstrip_char "/" (field "canonical")
                        ++ "/ImplementationGuide/" ++ field "id"))
       /\ assoc "status" ig = Some (PStr (PyStr.lower (field "status")))
       /\ In (PyStr.lower (field "status")) IGResourceGenerator.valid_statuses
       /\ assoc "fhirVersion" ig = Some (PList [PStr (field "fhirVersion")]).
Proof.
  unfold IGResourceGenerator.validate_guide_yaml_for_ig_resource,
    IGResourceGenerator.ig_document, IGResourceGenerator._load_config.
  destruct (yaml_load text) as [e|config]; [discriminate|].
  destruct (negb (truthy config)); [discriminate|].
  destruct config as [| | | | |config]; try discriminate.
  cbn [fst]. intros Hnil.
  assert (Herr : IGResourceGenerator.preflight_errors config = [])
    by (destruct (IGResourceGenerator.preflight_errors config);
        [reflexivity | discriminate Hnil]).
  destruct (preflight_passes config Herr) as [H1 [H2 [H3 [H4 Hvalid]]]].
  destruct (load_fields_present config H1 H2 H3 H4)
    as [cfg [Hload [Hi [Hs [Hf Hc]]]]].
  rewrite Hload.
  destruct (document_fields cfg _ _ _ _ resources root_page Hi Hs Hf Hc)
    as [ig [Hdoc Hfields]].
  exists config, ig. split; [reflexivity|]. split; [exact Hdoc|].
  cbv zeta. destruct Hfields as [F1 [F2 [F3 [F4 [F5 F6]]]]].
  repeat split; assumption.
Qed.

Lemma preflight_then_document_witness :
  exists ig,
    IGResourceGenerator.ig_document (H := Sample.runtime) (Some "guide") []
      (IGResourceGenerator.PageNode "Home" "Home" "generated" [])
    = Some (PDict ig)
    /\ assoc "url" ig
       = Some (PStr "http://example.org/fhir/ImplementationGuide/my.guide").
Proof.
  destruct (preflight_then_document (H := Sample.runtime) "guide" []
              (IGResourceGenerator.PageNode "Home" "Home" "generated" [])
              eq_refl)
    as [config [ig [Hload [Hdoc [_ [_ [_ [Hurl _]]]]]]]].
  exists ig. split; [exact Hdoc|].
  inversion Hload; subst config. exact Hurl.
Defined.

Section TrailingSlashes.

Lemma rstrip_by_snoc (p : ascii -> bool) (s : string) (c : ascii) :
  p c = true -> PyStr.rstrip_by p (s ++ String c "") = PyStr.rstrip_by p s.
Proof.
  intros Hc. induction s as [|x s IH]; cbn [String.append PyStr.rstrip_by].
  - now rewrite Hc.
  - now rewrite IH.
Qed.

Lemma rstrip_by_cons (p : ascii -> bool) (x : ascii) (s : string) :
  PyStr.rstrip_by p (String x s) =
    match PyStr.rstrip_by p s with
    | EmptyString => if p x then EmptyString else String x EmptyString
    | String y r => String x (String y r)
    end.
Proof. reflexivity. Qed.

Lemma rstrip_by_twice (p : ascii -> bool) (s : string) :
  PyStr.rstrip_by p (PyStr.rstrip_by p s) = PyStr.rstrip_by p s.
Proof.
  induction s as [|x s IH]; [reflexivity|].
  rewrite rstrip_by_cons.
  destruct (PyStr.rstrip_by p s) as [|y r] eqn:E.
  - destruct (p x) eqn:Ex; [reflexivity|].
    rewrite rstrip_by_cons. cbn [PyStr.rstrip_by]. now rewrite Ex.
  - rewrite rstrip_by_cons, IH. reflexivity.
Qed.

Lemma rstrip_by_length (p : ascii -> bool) (s : string) :
  String.length (PyStr.rstrip_by p s) <= String.length s.
Proof.
  induction s as [|x s IH]; [apply le_n|].
  cbn [PyStr.rstrip_by].
  destruct (PyStr.rstrip_by p s) as [|y r].
  - destruct (p x); cbn [String.length]; lia.
  - cbn [String.length] in *. lia.
Qed.

Lemma rstrip_by_no_end (p : ascii -> bool) (s pre : string) (c : ascii) :
  p c = true -> PyStr.rstrip_by p s <> pre ++ String c "".
Proof.
  intros Hc E.
  pose proof (rstrip_by_twice p s) as Ht. rewrite E in Ht.
  rewrite (rstrip_by_snoc p pre c Hc) in Ht.
  pose proof (rstrip_by_length p pre) as Hl.
  rewrite Ht, str_length_app in Hl. cbn [String.length] in Hl. lia.
Qed.

End TrailingSlashes.

(** X19.  The slashes at the end of the canonical do not count: with one
    more of them the document is the same, and the base of its [url],
    before [/ImplementationGuide/], never ends in a slash. *)
Theorem canonical_trailing_slash `{PyRuntime} (cfg : list (string * string))
    (canonical : string)
    (resources : list IGResourceGenerator.resource_entry)
    (root_page : IGResourceGenerator.page_node) :
  assoc "canonical" cfg = Some canonical ->
  IGResourceGenerator._create_ig_resource_r4
    (dict_set "canonical" (canonical ++ "/") cfg) resources root_page
  = IGResourceGenerator._create_ig_resource_r4 cfg resources root_page
  /\ forall ig,
       IGResourceGenerator._create_ig_resource_r4 cfg resources root_page
       = Some (PDict ig) ->
       exists base ig_id,
         assoc "url" ig = Some (PStr (base ++ "/ImplementationGuide/" ++ ig_id))
         /\ assoc "id" cfg = Some ig_id
         /\ forall pre, base <> pre ++ "/".
Proof.
  intros Hc. split.
  - unfold IGResourceGenerator._create_ig_resource_r4.
    rewrite assoc_dict_set_same, Hc.
    rewrite !assoc_dict_set_other by discriminate.
    unfold PyStr.rstrip_char. now rewrite rstrip_by_snoc.
  - intros ig Hdoc. unfold IGResourceGenerator._create_ig_resource_r4 in Hdoc.
    rewrite Hc in Hdoc.
    destruct (assoc "id" cfg) as [ig_id|]; [|discriminate].
    destruct (assoc "status" cfg); [|discriminate].
    destruct (assoc "fhirVersion" cfg); [|discriminate].
    inversion Hdoc; subst ig.
    exists (PyStr.rstrip_char "/" canonical), ig_id.
    repeat split. intros pre. now apply rstrip_by_no_end.
Qed.

Lemma canonical_trailing_slash_witness :
  IGResourceGenerator._create_ig_resource_r4 (H := Sample.runtime)
    [("id", "g"); ("status", "draft"); ("fhirVersion", "4.0.1");
     ("canonical", "http://example.org/")] []
    (IGResourceGenerator.PageNode "Home" "Home" "generated" [])
  = IGResourceGenerator._create_ig_resource_r4 (H := Sample.runtime)
      [("id", "g"); ("status", "draft"); ("fhirVersion", "4.0.1");
       ("canonical", "http://example.org")] []
      (IGResourceGenerator.PageNode "Home" "Home" "generated" []).
Proof.
  exact (proj1 (canonical_trailing_slash (H := Sample.runtime)
                  [("id", "g"); ("status", "draft"); ("fhirVersion", "4.0.1");
                   ("canonical", "http://example.org")]
                  "http://example.org" []
                  (IGResourceGenerator.PageNode "Home" "Home" "generated" [])
                  eq_refl)).
Defined.

(** ** The two readers of a resource file *)

Section JsonSuffix.

Lemma endswith_app (suf s : string) :
  PyStr.endswith suf s = true -> exists pre, s = pre ++ suf.
Proof.
  induction s as [|c s IH]; cbn [PyStr.endswith]; intros Hs.
  - rewrite orb_false_r in Hs. apply String.eqb_eq in Hs. now exists "".
  - apply orb_true_iff in Hs as [Hs|Hs].
    + apply String.eqb_eq in Hs. now exists "".
    + destruct (IH Hs) as [pre ->]. now exists (String c pre).
Qed.

Lemma rfind_json (pre : string) :
  PyStr.rfind "." (pre ++ ".json") = Some (String.length pre).
Proof.
  induction pre as [|c pre IH]; [reflexivity|].
  cbn [String.append PyStr.rfind String.length]. now rewrite IH.
Qed.

Lemma substring_skip (a b : string) (n : nat) :
  String.substring (String.length a) n (a ++ b) = String.substring 0 n b.
Proof. induction a as [|c a IH]; [reflexivity | exact IH]. Qed.

Lemma suffix_json (name : string) :
  PyStr.endswith ".json" name = true -> name <> ".json" ->
  PurePath.suffix name = ".json".
Proof.
  intros Hend Hname. apply endswith_app in Hend as [pre ->].
  unfold PurePath.suffix. rewrite rfind_json, str_length_app.
  destruct pre as [|c pre]; [now destruct Hname|].
  cbn [String.length].
  replace (S (String.length pre) + 5 - S (String.length pre)) with 5 by lia.
  assert (Hlt : ((0 <? S (String.length pre))%nat
                 && (S (String.length pre) <? S (String.length pre) + 5 - 1)%nat)
                = true).
  { apply andb_true_iff. split; apply Nat.ltb_lt; lia. }
  rewrite Hlt.
  exact (substring_skip (String c pre) ".json" 5).
Qed.

Lemma flat_map_length_le {A B C : Type} (f : A -> list B) (g : A -> list C)
    (l : list A) :
  (forall x, In x l -> List.length (f x) <= List.length (g x)) ->
  List.length (flat_map f l) <= List.length (flat_map g l).
Proof.
  induction l as [|a l IH]; intros Hfg; [apply le_n|].
  cbn [flat_map]. rewrite !length_app.
  pose proof (Hfg a (or_introl eq_refl)).
  assert (List.length (flat_map f l) <= List.length (flat_map g l))
    by (apply IH; intros x Hx; apply Hfg; now right).
  lia.
Qed.

End JsonSuffix.

Section TwoReaders.
Context `{PyRuntime}.

Lemma parse_resource_file_parsed (name : string) (item : FS.node)
    (is_example : bool) (entry : IGResourceGenerator.resource_entry) :
  PyStr.endswith ".json" name = true -> name <> ".json" ->
  IGResourceGenerator._parse_resource_file (FS.read item) is_example
  = Some entry ->
  exists i,
    IGGenerator._parse_fhir_resource name item = Some i
    /\ IGGenerator.resourceType i = IGResourceGenerator.resourceType entry
    /\ IGGenerator.id i = IGResourceGenerator.id entry.
Proof.
  intros Hend Hname.
  unfold IGResourceGenerator._parse_resource_file,
    IGGenerator._parse_fhir_resource.
  rewrite (suffix_json name Hend Hname).
  change (negb (PyStr.lower ".json" =? ".json")) with false. cbv iota.
  destruct (FS.read item) as [text|]; [|discriminate].
  destruct (json_load text) as [resource|]; [|discriminate].
  unfold IGResourceGenerator.entry_of_resource.
  destruct resource as [| | | | |d]; try discriminate.
  destruct (negb (truthy (dict_get d "resourceType"))
            || negb (truthy (dict_get d "id"))); [discriminate|].
  destruct (IGResourceGenerator.resolve_name _ _); [|discriminate].
  destruct is_example.
  - destruct (IGResourceGenerator.example_canonical d); [|discriminate].
    intros E. inversion E. eexists. now split.
  - intros E. inversion E. eexists. now split.
Qed.

End TwoReaders.

(** X20.  In a directory that holds no file named [.json], every
    resource collected for [definition.resource] has a record with the
    same type and id among those the generator parses for the artifact
    pages, and the resources collected are no more than the records
    parsed. *)
Theorem collected_resources_have_pages `{PyRuntime}
    (es : list (string * FS.node)) (is_example : bool) :
  Forall (fun e => fst e <> ".json") es ->
  (forall entry,
      In entry (IGResourceGenerator.collect_from es is_example) ->
      exists i,
        In i (IGGenerator.parsed_files es)
        /\ IGGenerator.resourceType i = IGResourceGenerator.resourceType entry
        /\ IGGenerator.id i = IGResourceGenerator.id entry)
  /\ List.length (IGResourceGenerator.collect_from es is_example)
     <= List.length (IGGenerator.parsed_files es).
Proof.
  intros Hnames.
  assert (Hfile : forall f,
            In f (Sort.sort FS.by_name (FS.glob_suffix ".json" es)) ->
            PyStr.endswith ".json" (fst f) = true /\ fst f <> ".json").
  { intros f Hf. apply sort_in in Hf. unfold FS.glob_suffix in Hf.
    apply filter_In in Hf as [Hin Hend]. split; [exact Hend|].
    rewrite Forall_forall in Hnames. now apply Hnames. }
  unfold IGResourceGenerator.collect_from, IGGenerator.parsed_files. split.
  - intros entry Hentry.
    apply in_flat_map in Hentry as [f [Hf Hentry]].
    destruct (Hfile f Hf) as [Hend Hname].
    destruct (IGResourceGenerator._parse_resource_file (FS.read (snd f)) is_example)
      as [entry'|] eqn:Hparse; [|contradiction].
    destruct Hentry as [<-|[]].
    destruct (parse_resource_file_parsed _ _ _ _ Hend Hname Hparse)
      as [i [Hi Hsame]].
    exists i. split; [|exact Hsame].
    apply in_flat_map. exists f. split; [exact Hf|]. rewrite Hi. now left.
  - apply flat_map_length_le. intros f Hf.
    destruct (Hfile f Hf) as [Hend Hname].
    destruct (IGResourceGenerator._parse_resource_file (FS.read (snd f)) is_example)
      as [entry|] eqn:Hparse; [|apply Nat.le_0_l].
    destruct (parse_resource_file_parsed _ _ _ _ Hend Hname Hparse)
      as [i [Hi _]].
    rewrite Hi. apply le_n.
Qed.

Lemma collected_resources_have_pages_witness :
  List.length
    (IGResourceGenerator.collect_from (H := Sample.runtime)
       (Sample.two_value_sets ++ [("c.json", FS.File "no-id")]) false)
  <= List.length
       (IGGenerator.parsed_files (H := Sample.runtime)
          (Sample.two_value_sets ++ [("c.json", FS.File "no-id")])).
Proof.
  apply (collected_resources_have_pages (H := Sample.runtime)).
  repeat constructor; cbn; discriminate.
Defined.

(** ** The validator *)

Section ValidInput.
Context `{PyRuntime}.
Import IGInputValidator.

Lemma none_missing (present : string -> bool) (names : list string) :
  negb (is_nil (filter (fun f => negb (present f)) names)) = false ->
  forall f, In f names -> present f = true.
Proof.
  intros Hnil f Hin.
  destruct (present f) eqn:Hf; [reflexivity|].
  assert (Hmissing : In f (filter (fun f => negb (present f)) names))
    by (apply filter_In; split; [exact Hin | now rewrite Hf]).
  destruct (filter (fun f => negb (present f)) names);
    [contradiction | discriminate Hnil].
Qed.

Lemma valid_input (input : FS.node) (w : list string) :
  validate input = Valid w ->
  (forall f, In f REQUIRED_INPUT_FOLDERS -> FS.is_dir [f] input = true)
  /\ exists text config,
       FS.lookup ["guide.yaml"] input = Some (FS.File text)
       /\ yaml_load text = inr (PDict config)
       /\ config <> []
       /\ IGResourceGenerator.blank (dict_get config "title") = false
       /\ IGResourceGenerator.blank (dict_get config "url-key") = false
       /\ IGResourceGenerator.blank (dict_get config "style-name") = false
       /\ variables_load input = true
       /\ validate_styles input config = Valid w.
Proof.
  unfold validate.
  destruct (negb (is_nil (filter _ REQUIRED_INPUT_FOLDERS))) eqn:Hfolders;
    [discriminate|].
  destruct (FS.lookup ["guide.yaml"] input) as [[text|]|]; try discriminate.
  destruct (yaml_load text) as [e|config] eqn:Hload; [discriminate|].
  unfold validate_config.
  destruct (negb (truthy config)) eqn:Htruthy; [discriminate|].
  destruct config as [| | | | |config]; try discriminate.
  destruct (IGResourceGenerator.blank (dict_get config "title")) eqn:Ht;
    [discriminate|].
  destruct (IGResourceGenerator.blank (dict_get config "url-key")) eqn:Hu;
    [discriminate|].
  destruct (IGResourceGenerator.blank (dict_get config "style-name")) eqn:Hs;
    [discriminate|].
  destruct (variables_load input) eqn:Hv; [|discriminate].
  cbn [negb]. intros Hstyles. split.
  - exact (none_missing (fun f => FS.is_dir [f] input) _ Hfolders).
  - exists text, config. repeat split; try assumption; try reflexivity.
    intros ->. discriminate Htruthy.
Qed.

End ValidInput.

(** X21.  An input that the validator accepts has the five required
    folders, a [guide.yaml] that is a mapping with a title, a url-key and
    a style-name that are not blank, the folder of the style under
    [styles/] and the three required files in it; the warnings are those
    of the optional folders and of the status. *)
Theorem valid_input_structure `{PyRuntime} (input : FS.node) (w : list string) :
  IGInputValidator.validate input = IGInputValidator.Valid w ->
  (forall f,
      In f ["resources"; "examples"; "pages"; "styles";
            "pagetemplates-artifacts"] ->
      FS.is_dir [f] input = true)
  /\ exists text config,
       FS.lookup ["guide.yaml"] input = Some (FS.File text)
       /\ yaml_load text = inr (PDict config)
       /\ IGResourceGenerator.blank (dict_get config "title") = false
       /\ IGResourceGenerator.blank (dict_get config "url-key") = false
       /\ IGResourceGenerator.blank (dict_get config "style-name") = false
       /\ let style_dir :=
            FS.join ["styles"] (PyStr.strip (str (dict_get config "style-name"))) in
          FS.is_dir style_dir input = true
          /\ (forall f,
                 In f ["master.html"; "settings.style"; "style.css"] ->
                 FS.is_file (style_dir ++ [f])%list input = true)
          /\ w = (IGInputValidator.optional_folder_warnings input
                  ++ IGInputValidator.ig_resource_warnings config)%list.
Proof.
  intros Hvalid.
  destruct (valid_input input w Hvalid)
    as [Hfolders [text [config [Hguide [Hload [_ [Ht [Hu [Hs [_ Hstyles]]]]]]]]]].
  split; [exact Hfolders|].
  exists text, config. repeat split; try assumption; cbv zeta;
    unfold IGInputValidator.validate_styles in Hstyles;
    destruct (negb (FS.is_dir _ input)) eqn:Hdir; try discriminate Hstyles;
    destruct (negb (is_nil (filter _ IGInputValidator.REQUIRED_STYLE_FILES)))
      eqn:Hfiles; try discriminate Hstyles.
  - now apply negb_false_iff in Hdir.
  - exact (none_missing
             (fun f => FS.is_file
                         (FS.join ["styles"]
                            (PyStr.strip (str (dict_get config "style-name")))
                          ++ [f])%list input) _ Hfiles).
  - now inversion Hstyles.
Qed.

Lemma valid_input_structure_witness :
  FS.is_dir ["pagetemplates-artifacts"] Sample.input = true.
Proof.
  destruct (IGInputValidator.validate (H := Sample.runtime) Sample.input)
    as [w| |] eqn:Hvalid.
  - apply (proj1 (valid_input_structure (H := Sample.runtime) Sample.input w
                    Hvalid)).
    cbn. tauto.
  - vm_compute in Hvalid. discriminate Hvalid.
  - vm_compute in Hvalid. discriminate Hvalid.
Defined.

(** X22.  On an input that the validator accepts, the validation of a
    run gives the validator's warnings, [_load_guide_config] of the
    generator loads [guide.yaml] with the stripped url-key as the guide's
    name, [_load_variables_config] loads the variables, and [pages/] is a
    directory. *)
Theorem valid_input_loads `{PyRuntime} (input : FS.node) (w : list string) :
  IGInputValidator.validate input = IGInputValidator.Valid w ->
  IGGenerator.validation input false = Some w
  /\ (exists config,
         IGGenerator._load_guide_config input
         = Some (config, PyStr.strip (str (dict_get config "url-key"))))
  /\ IGGenerator._load_variables_config input = Some tt
  /\ exists es, FS.lookup ["pages"] input = Some (FS.Dir es).
Proof.
  intros Hvalid.
  destruct (valid_input input w Hvalid)
    as [Hfolders [text [config [Hguide [Hload [Hne [_ [Hu [_ [Hv _]]]]]]]]]].
  split; [|split; [|split]].
  - unfold IGGenerator.validation. now rewrite Hvalid.
  - exists config. unfold IGGenerator._load_guide_config.
    rewrite Hguide, Hload.
    unfold IGResourceGenerator.blank in Hu.
    apply orb_false_iff in Hu as [Htruthy Hstrip].
    apply negb_false_iff in Htruthy. rewrite Htruthy, Hstrip.
    destruct config; [congruence | reflexivity].
  - unfold IGGenerator._load_variables_config. now rewrite Hv.
  - assert (Hpages : FS.is_dir ["pages"] input = true)
      by (apply Hfolders; cbn; tauto).
    unfold FS.is_dir in Hpages.
    destruct (FS.lookup ["pages"] input) as [[data|es]|]; try discriminate.
    now exists es.
Qed.

Lemma valid_input_loads_witness :
  IGGenerator._load_variables_config (H := Sample.runtime) Sample.input
  = Some tt.
Proof.
  destruct (IGInputValidator.validate (H := Sample.runtime) Sample.input)
    as [w| |] eqn:Hvalid.
  - exact (proj1 (proj2 (proj2
             (valid_input_loads (H := Sample.runtime) Sample.input w Hvalid)))).
  - vm_compute in Hvalid. discriminate Hvalid.
  - vm_compute in Hvalid. discriminate Hvalid.
Defined.
